(** * Poster backend: time normalisation, extraction pipeline and event queries

    A shallow embedding of [main.py] and [models.py].

    Python [str] values are lists of code points; the development covers the
    code points below 256 (type [ascii]), with [str.lower], [str.strip],
    [str.replace], the classes [\d] and [\s] of [re] and the regular
    expressions of [datetime.strptime] written out for that range.
    Exceptions are values of type [exn]; a computation that may raise has
    type [result A], and a request handler is a function from the database
    to a result and the database it leaves.  The table [posters] is the
    list of its rows, oldest first.  What lies outside the repository (PIL,
    the Gemini model, [json.loads], the clocks, the database server) is a
    [world] the handlers are given. *)

From Stdlib Require Import Ascii String NArith ZArith List Bool Lia Permutation Sorting.Sorted.
From stdpp Require Import base option gmap strings list sorting.
Import ListNotations.

Abbreviation str := (list ascii).
Coercion list_ascii_of_string : string >-> list.

Local Open Scope string_scope.
Local Open Scope list_scope.

(** ** Characters and strings of Python *)

Module Py.

Definition ord (c : ascii) : N := N_of_ascii c.
Definition chr (n : N) : ascii := ascii_of_N n.

Definition between (lo hi : N) (c : ascii) : bool :=
  ((lo <=? ord c) && (ord c <=? hi))%N.

(** [str.isspace] on one code point, also the class [\s] of [re] and the
    characters [str.strip()] removes: TAB..CR, FS..US, space, NEL, NBSP. *)
Definition isspace (c : ascii) : bool :=
  between 9 13 c || between 28 32 c || (ord c =? 133)%N || (ord c =? 160)%N.

(** The class [\d] of [re]: the decimal digits. *)
Definition isdecimal (c : ascii) : bool := between 48 57 c.

(** [str.lower] on one code point: A-Z and the Latin-1 capitals. *)
Definition lower_char (c : ascii) : ascii :=
  if between 65 90 c || (between 192 222 c && negb (ord c =? 215)%N)
  then chr (ord c + 32) else c.

Definition lower (s : str) : str := map lower_char s.

Fixpoint lstrip (s : str) : str :=
  match s with
  | c :: s' => if isspace c then lstrip s' else s
  | [] => []
  end.

Definition rstrip (s : str) : str := rev (lstrip (rev s)).

(** [s.strip()] *)
Definition strip (s : str) : str := rstrip (lstrip s).

Fixpoint startswith (s prefix : str) : bool :=
  match prefix, s with
  | [], _ => true
  | a :: prefix', b :: s' => Ascii.eqb a b && startswith s' prefix'
  | _ :: _, [] => false
  end.

(** The scan of [str.replace] for a non-empty [old]: left to right, each
    occurrence found is replaced and the scan resumes behind it.  [skip]
    counts the characters of the occurrence still to be passed over. *)
Fixpoint replace_scan (old new : str) (skip : nat) (s : str) : str :=
  match s with
  | [] => []
  | c :: s' =>
      match skip with
      | S k => replace_scan old new k s'
      | O =>
          if startswith s old
          then new ++ replace_scan old new (length old - 1) s'
          else c :: replace_scan old new 0 s'
      end
  end.

(** [s.replace(old, new)]; an empty [old] matches before every character
    and at the end. *)
Definition replace (s old new : str) : str :=
  match old with
  | [] => new ++ flat_map (fun c => c :: new) s
  | _ :: _ => replace_scan old new 0 s
  end.

(** [a == b] on strings *)
Definition eq (a b : str) : bool := bool_decide (a = b).

(** [int(s)] for a string of decimal digits, leading white space allowed. *)
Definition digit_value (c : ascii) : N := (ord c - 48)%N.
Definition int (s : str) : N :=
  fold_left (fun acc c => (10 * acc + digit_value c)%N) (lstrip s) 0%N.

(** [f"{n:02d}"] *)
Definition digit_char (n : N) : ascii := chr (48 + n).
Fixpoint digits_fuel (fuel : nat) (n : N) (acc : str) : str :=
  match fuel with
  | O => acc
  | S fuel' =>
      let acc' := digit_char (n mod 10) :: acc in
      if (n <? 10)%N then acc' else digits_fuel fuel' (n / 10)%N acc'
  end.
Definition decimal (n : N) : str := digits_fuel (S (N.to_nat (N.log2 n))) n [].
Definition zfill (width : nat) (s : str) : str :=
  repeat "0"%char (width - length s) ++ s.
Definition fmt_02d (n : N) : str := zfill 2 (decimal n).
Definition fmt_04d (n : N) : str := zfill 4 (decimal n).

(** [str(n)] for an integer; also the text PostgreSQL makes of it. *)
Definition str_of_int (n : Z) : str :=
  (if (n <? 0)%Z then ["-"%char] else []) ++ decimal (Z.abs_N n).

End Py.

(** ** [clean_time_string] *)

Definition words_to_remove : list str :=
  [ "onwards" : str; "onward" : str; "starting" : str; "from" : str; "at" : str ].

(** The loop body [time_str = time_str.replace(word, '').strip()]. *)
Definition remove_word (time_str word : str) : str :=
  Py.strip (Py.replace time_str word "").

Definition clean_time_string (time_str : str) : str :=
  let time_str := Py.lower time_str in
  let time_str := fold_left remove_word words_to_remove time_str in
  let time_str := Py.replace (Py.replace time_str "pm" " PM") "am" " AM" in
  Py.strip time_str.

(** The cleaning step as the specification words it: lower-case, remove
    every listed word by a plain substring replace, pad the meridiem
    markers, trim once at the end. *)
Definition clean_as_specified (raw : str) : str :=
  let s := Py.lower raw in
  let s := fold_left (fun acc word => Py.replace acc word "") words_to_remove s in
  let s := Py.replace s "pm" " PM" in
  let s := Py.replace s "am" " AM" in
  Py.strip s.

(** ** Exceptions *)

(** The reasons a [ValueError] is raised for in the code and in
    [datetime.strptime]. *)
Inductive value_error :=
| TimeDataDoesNotMatch (data format : str)
| UnconvertedDataRemains (rest : str)
| BadDirective (format : str)
| FieldOutOfRange
| CouldNotParseTimeString (original_input : str).

Inductive exn :=
| ValueError (why : value_error)
| JSONDecodeError (doc : str)
| AttributeError
| TypeError
| UnidentifiedImageError
| GenerationError
| DatabaseError
| HTTPException (status_code : nat) (detail : http_detail)
with http_detail :=
| InvalidDateTimeInResponse (e : exn)
| FailedToParseGeminiResponse (response_text : str)
| InvalidDateFormatUseYMD
| StrOf (e : exn).

(** [isinstance(e, ValueError)]: [json.JSONDecodeError] derives from
    [ValueError]. *)
Definition is_ValueError (e : exn) : bool :=
  match e with
  | ValueError _ | JSONDecodeError _ => true
  | _ => false
  end.

Definition is_JSONDecodeError (e : exn) : bool :=
  match e with
  | JSONDecodeError _ => true
  | _ => false
  end.

(** Every class above derives from [Exception], [HTTPException] too. *)
Definition is_Exception (e : exn) : bool := true.

Inductive result (A : Type) :=
| Return (a : A)
| Raise (e : exn).
Arguments Return {A} a.
Arguments Raise {A} e.

Definition bind {A B} (r : result A) (k : A -> result B) : result B :=
  match r with
  | Return a => k a
  | Raise e => Raise e
  end.

(** [try: body  except <class> as e: handler e] *)
Definition try_except {A} (body : result A) (class : exn -> bool)
    (handler : exn -> result A) : result A :=
  match body with
  | Return a => Return a
  | Raise e => if class e then handler e else Raise e
  end.

(** ** [datetime.strptime] *)

Record date := mk_date { year : N; month : N; day : N }.
Record time := mk_time { hour : N; minute : N; second : N }.
Record datetime := mk_datetime { dt_date : date; dt_time : time }.

Module Strptime.

Inductive directive := dY | dm | dd | dH | dI | dM | dS | dp.

(** A compiled format: a directive, a run of white space (compiled to
    [\s+]) or any other character, which stands for itself. *)
Inductive item :=
| Field (d : directive)
| Spaces
| Literal (c : ascii).

Definition directive_of (c : ascii) : option directive :=
  if Ascii.eqb c "Y" then Some dY else
  if Ascii.eqb c "m" then Some dm else
  if Ascii.eqb c "d" then Some dd else
  if Ascii.eqb c "H" then Some dH else
  if Ascii.eqb c "I" then Some dI else
  if Ascii.eqb c "M" then Some dM else
  if Ascii.eqb c "S" then Some dS else
  if Ascii.eqb c "p" then Some dp else None.

(** [TimeRE.pattern]: white-space runs first, then the directives. *)
Fixpoint compile (format : str) (in_space : bool) : option (list item) :=
  match format with
  | [] => Some []
  | c :: rest =>
      if Py.isspace c then
        if in_space then compile rest true
        else option_map (cons Spaces) (compile rest true)
      else if Ascii.eqb c "%" then
        match rest with
        | [] => None
        | k :: rest' =>
            match directive_of k with
            | Some d => option_map (cons (Field d)) (compile rest' false)
            | None => None
            end
        end
      else option_map (cons (Literal c)) (compile rest false)
  end.

(** Character classes of the directives' regular expressions. *)
Definition cls := ascii -> bool.
Definition one (c : ascii) : cls := Ascii.eqb c.
Definition rng (lo hi : ascii) : cls := Py.between (Py.ord lo) (Py.ord hi).
Definition dig : cls := Py.isdecimal.
(** a letter under [re.IGNORECASE] *)
Definition ci (c : ascii) : cls := fun x => Ascii.eqb (Py.lower_char x) (Py.lower_char c).

(** The alternatives of each directive, in the order [re] tries them:
    [%Y] is [\d\d\d\d], [%H] is [2[0-3]|[0-1]\d|\d], and so on; [%p] is
    [am|pm] of the C locale. *)
Definition alternatives (d : directive) : list (list cls) :=
  match d with
  | dY => [[dig; dig; dig; dig]]
  | dm => [[one "1"; rng "0" "2"]; [one "0"; rng "1" "9"]; [rng "1" "9"]]
  | dd => [[one "3"; rng "0" "1"]; [rng "1" "2"; dig]; [one "0"; rng "1" "9"];
           [rng "1" "9"]; [one " "; rng "1" "9"]]
  | dH => [[one "2"; rng "0" "3"]; [rng "0" "1"; dig]; [dig]]
  | dI => [[one "1"; rng "0" "2"]; [one "0"; rng "1" "9"]; [rng "1" "9"]]
  | dM => [[rng "0" "5"; dig]; [dig]]
  | dS => [[one "6"; rng "0" "1"]; [rng "0" "5"; dig]; [dig]]
  | dp => [[ci "a"; ci "m"]; [ci "p"; ci "m"]]
  end.

(** Match a sequence of classes at the head of [s]: the text matched and
    the rest. *)
Fixpoint take_classes (cs : list cls) (s : str) : option (str * str) :=
  match cs with
  | [] => Some ([], s)
  | k :: cs' =>
      match s with
      | c :: s' =>
          if k c then
            match take_classes cs' s' with
            | Some (m, rest) => Some (c :: m, rest)
            | None => None
            end
          else None
      | [] => None
      end
  end.

(** The ways [\s+] matches at the head of [s], longest first. *)
Fixpoint spaces_rests (s : str) : list str :=
  match s with
  | c :: s' => if Py.isspace c then spaces_rests s' ++ [s'] else []
  | [] => []
  end.

Definition group := (directive * str)%type.

(** The ways one item matches at the head of [s], in the order the
    backtracking matcher explores them. *)
Definition candidates (it : item) (s : str) : list (list group * str) :=
  match it with
  | Field d =>
      omap (fun cs => match take_classes cs s with
                      | Some (m, rest) => Some ([(d, m)], rest)
                      | None => None
                      end) (alternatives d)
  | Spaces => map (fun rest => ([], rest)) (spaces_rests s)
  | Literal c =>
      match s with
      | x :: rest => if ci c x then [([], rest)] else []
      | [] => []
      end
  end.

Fixpoint first_some {A B} (f : A -> option B) (l : list A) : option B :=
  match l with
  | [] => None
  | a :: l' => match f a with Some b => Some b | None => first_some f l' end
  end.

(** [format_regex.match(data_string)]: the first match in backtracking
    order, its groups and what is left of the string. *)
Fixpoint re_match (items : list item) (s : str) : option (list group * str) :=
  match items with
  | [] => Some ([], s)
  | it :: items' =>
      first_some (fun '(g, rest) =>
                    match re_match items' rest with
                    | Some (gs, rest') => Some (g ++ gs, rest')
                    | None => None
                    end) (candidates it s)
  end.

Fixpoint found (d : directive) (gs : list group) : option str :=
  match gs with
  | [] => None
  | (d', m) :: gs' =>
      match d, d' with
      | dY, dY | dm, dm | dd, dd | dH, dH | dI, dI | dM, dM | dS, dS | dp, dp => Some m
      | _, _ => found d gs'
      end
  end.

Definition is_leap (y : N) : bool :=
  ((y mod 4 =? 0) && (negb (y mod 100 =? 0) || (y mod 400 =? 0)))%N.

Definition days_in_month (y m : N) : N :=
  (if m =? 2 then (if is_leap y then 29 else 28)
   else if (m =? 4) || (m =? 6) || (m =? 9) || (m =? 11) then 30 else 31)%N.

(** The checks of the [datetime] constructor. *)
Definition valid_date (d : date) : bool :=
  ((1 <=? year d) && (year d <=? 9999) && (1 <=? month d) && (month d <=? 12)
   && (1 <=? day d) && (day d <=? days_in_month (year d) (month d)))%N.

Definition valid_time (t : time) : bool :=
  ((hour t <=? 23) && (minute t <=? 59) && (second t <=? 59))%N.

Definition field (d : directive) (gs : list group) (default : N) : N :=
  match found d gs with
  | Some m => Py.int m
  | None => default
  end.

(** [%I] with the meridiem found: no marker counts as AM. *)
Definition hour_of (gs : list group) : N :=
  match found dI gs with
  | Some m =>
      let h := Py.int m in
      match found dp gs with
      | Some p =>
          if Py.eq (Py.lower p) "pm"
          then (if (h =? 12)%N then h else h + 12)%N
          else (if (h =? 12)%N then 0 else h)%N
      | None => (if (h =? 12)%N then 0 else h)%N
      end
  | None => field dH gs 0
  end.

(** [datetime.strptime(data_string, format)] *)
Definition strptime (data_string format : str) : result datetime :=
  match compile format false with
  | None => Raise (ValueError (BadDirective format))
  | Some items =>
      match re_match items data_string with
      | None => Raise (ValueError (TimeDataDoesNotMatch data_string format))
      | Some (gs, rest) =>
          match rest with
          | _ :: _ => Raise (ValueError (UnconvertedDataRemains rest))
          | [] =>
              let d := mk_date (field dY gs 1900) (field dm gs 1) (field dd gs 1) in
              let t := mk_time (hour_of gs) (field dM gs 0) (field dS gs 0) in
              if valid_date d && valid_time t
              then Return (mk_datetime d t)
              else Raise (ValueError FieldOutOfRange)
          end
      end
  end.

End Strptime.

Definition strptime_date (data_string format : str) : result date :=
  bind (Strptime.strptime data_string format) (fun dt => Return (dt_date dt)).

Definition strptime_time (data_string format : str) : result time :=
  bind (Strptime.strptime data_string format) (fun dt => Return (dt_time dt)).

(** ** The time part of [analyze_poster] *)

Definition time_formats : list str :=
  [ "%I:%M %p" : str;    (* 5:30 PM *)
    "%I:%M%p" : str;     (* 5:30PM *)
    "%I:%M" : str;       (* 5:30 *)
    "%H:%M" : str;       (* 17:30 *)
    "%I %p" : str;       (* 5 PM *)
    "%H:%M:%S" : str;    (* 17:30:00 *)
    "%I:%M:%S %p" : str  (* 5:30:00 PM *) ].

(** The loop over [time_formats]: the first format that parses ends it
    ([break]); a [ValueError] moves on to the next ([continue]). *)
Fixpoint try_formats (time_str : str) (formats : list str) : result (option time) :=
  match formats with
  | [] => Return None
  | fmt :: formats' =>
      match strptime_time time_str fmt with
      | Return t => Return (Some t)
      | Raise e => if is_ValueError e then try_formats time_str formats' else Raise e
      end
  end.

(** [re.compile(r'(\d{1,2}):?(\d{2})?\s*(am|pm|AM|PM)?')] *)
Module TimePattern.

Record groups := mk_groups { group1 : str; group2 : option str; group3 : option str }.

(** [(\d{1,2})], greedy *)
Definition hour_digits (s : str) : option (str * str) :=
  match s with
  | c1 :: s1 =>
      if Py.isdecimal c1 then
        match s1 with
        | c2 :: s2 => if Py.isdecimal c2 then Some ([c1; c2], s2) else Some ([c1], s1)
        | [] => Some ([c1], [])
        end
      else None
  | [] => None
  end.

(** [:?] *)
Definition colon (s : str) : str :=
  match s with
  | c :: s' => if Ascii.eqb c ":" then s' else s
  | [] => []
  end.

(** [(\d{2})?] *)
Definition minute_digits (s : str) : option str * str :=
  match s with
  | c1 :: c2 :: s' =>
      if Py.isdecimal c1 && Py.isdecimal c2 then (Some [c1; c2], s') else (None, s)
  | _ => (None, s)
  end.

(** [(am|pm|AM|PM)?] *)
Definition meridiem (s : str) : option str :=
  find (Py.startswith s) [ "am" : str; "pm" : str; "AM" : str; "PM" : str ].

(** The pattern tried at the head of [s].  Everything behind the hour is
    optional, so the greedy choices are never undone. *)
Definition match_at (s : str) : option groups :=
  match hour_digits s with
  | None => None
  | Some (g1, s1) =>
      let '(g2, s2) := minute_digits (colon s1) in
      Some (mk_groups g1 g2 (meridiem (Py.lstrip s2)))
  end.

(** [time_pattern.search(time_str)]: the leftmost position that matches. *)
Fixpoint search (s : str) : option groups :=
  match match_at s with
  | Some m => Some m
  | None => match s with
            | _ :: s' => search s'
            | [] => None
            end
  end.

End TimePattern.

(** The branch [if match:], up to [parsed_time]. *)
Definition adjust_hour (hour : N) (period : option str) : N :=
  match period with
  | Some p =>
      if Py.eq (Py.lower p) "pm" && negb (hour =? 12)%N then (hour + 12)%N
      else if Py.eq (Py.lower p) "am" && (hour =? 12)%N then 0%N
      else hour
  | None => hour
  end.

Definition time_of_match (m : TimePattern.groups) : result time :=
  let hour := Py.int (TimePattern.group1 m) in
  let minute := match TimePattern.group2 m with
                | Some g => Py.int g
                | None => 0%N
                end in
  let hour := adjust_hour hour (TimePattern.group3 m) in
  strptime_time (Py.fmt_02d hour ++ ":" ++ Py.fmt_02d minute) "%H:%M".

(** Lines 106-148 of [analyze_poster]: the value stored under
    ["event_time"] for the string [event_time] the model returned. *)
Definition parse_event_time (event_time : str) : result time :=
  let time_str := clean_time_string event_time in
  bind (try_formats time_str time_formats) (fun parsed_time =>
  match parsed_time with
  | Some t => Return t
  | None =>
      match TimePattern.search time_str with
      | Some m => time_of_match m
      | None => Raise (ValueError (CouldNotParseTimeString event_time))
      end
  end).

(** ** Values, the world outside and the table *)

(** The Python values the handlers meet.  [PyOther] stands for what
    [json.loads] can return besides [None], strings and integers (floats,
    booleans, lists, nested objects), given by its [repr]: the code only
    tests such a value for truth before handing it to a function that
    wants a [str] or to the database. *)
Inductive pyvalue :=
| PyNone
| PyStr (s : str)
| PyInt (n : Z)
| PyOther (truth : bool) (repr : str)
| PyDate (d : date)
| PyTime (t : time).

(** The result of [json.loads]: a [dict], or a value without [.get]. *)
Inductive loaded :=
| LoadedDict (d : gmap string pyvalue)
| LoadedOther.

(** [if v:] *)
Definition truthy (v : pyvalue) : bool :=
  match v with
  | PyNone => false
  | PyStr s => negb (Py.eq s [])
  | PyInt n => negb (n =? 0)%Z
  | PyOther b _ => b
  | PyDate _ | PyTime _ => true
  end.

(** [d.get(key)] *)
Definition get (d : gmap string pyvalue) (key : string) : pyvalue :=
  default PyNone (d !! key).

(** What a request finds outside the repository: PIL, the Gemini model,
    the [json] module, the clocks, the database server and SQLAlchemy.
    The last four fields are what the libraries make of the unusual: a
    value of a type the column is not made for, and a keyword that is no
    column of [Poster]. *)
Record world := mk_world {
  image_open : str -> bool;
    (* does [Image.open] accept these bytes *)
  generate_content : str -> option str;
    (* [response.text] for the image, [None] when the call raises *)
  json_loads : str -> option loaded;
    (* [None] stands for [json.JSONDecodeError] *)
  today : date;
  utcnow : datetime;
  db_reachable : bool;
  varchar_in : pyvalue -> option str;
    (* the text a [String] column stores for a value that is neither
       [None], a [str] nor an [int]; [None] when the INSERT is refused *)
  integer_in : pyvalue -> option Z;
    (* what the [Integer] column stores for a value that is neither [None]
       nor an [int]; [None] when the INSERT is refused *)
  timestamp_in : pyvalue -> option datetime;
    (* what the [DateTime] column stores for a value other than [None]
       (a string PostgreSQL reads as a timestamp, say); [None] when the
       INSERT is refused *)
  construct : gmap string pyvalue -> option exn
    (* what [Poster(...)] and the session raise, if anything, for keywords
       of which one is no column: [TypeError] for a name the class has no
       attribute of, and whatever setting another attribute of the class
       (metadata, registry, ...) leads to *)
}.

Module Poster.
(** [class Poster(Base)] of models.py, one row of [posters]. *)
Record t := mk {
  id : Z;
  title : option str;
  name : option str;
  location : option str;
  socials : option str;
  event_date : option date;
  event_time : option time;
  venue : option str;
  hosted_department : option str;
  created_at : datetime
}.
End Poster.

Record database := mk_database {
  posters : list Poster.t;     (* the rows, oldest first *)
  posters_id_seq : Z           (* next value of the SERIAL of [id] *)
}.

(** Handlers run against the database and may raise. *)
Definition handler (A : Type) : Type := database -> result A * database.

Definition ret {A} (a : A) : handler A := fun db => (Return a, db).
Definition raise {A} (e : exn) : handler A := fun db => (Raise e, db).
Definition lift {A} (r : result A) : handler A := fun db => (r, db).

Definition hbind {A B} (c : handler A) (k : A -> handler B) : handler B :=
  fun db =>
    match c db with
    | (Return a, db') => k a db'
    | (Raise e, db') => (Raise e, db')
    end.

(** [try: body  except <class> as e: on_error e], with the state as the
    body left it. *)
Definition htry {A} (body : handler A) (class : exn -> bool)
    (on_error : exn -> handler A) : handler A :=
  fun db =>
    match body db with
    | (Return a, db') => (Return a, db')
    | (Raise e, db') => if class e then on_error e db' else (Raise e, db')
    end.

Notation "'do' x <- c1 ; c2" := (hbind c1 (fun x => c2))
  (at level 10, x name, c1 at level 100, c2 at level 200).

(** ** The store *)

Definition date_leb (a b : date) : bool :=
  ((year a <? year b)
   || ((year a =? year b)
       && ((month a <? month b) || ((month a =? month b) && (day a <=? day b)))))%N.

Definition date_eqb (a b : date) : bool :=
  ((year a =? year b) && (month a =? month b) && (day a =? day b))%N.

Definition time_leb (a b : time) : bool :=
  ((hour a <? hour b)
   || ((hour a =? hour b)
       && ((minute a <? minute b) || ((minute a =? minute b) && (second a <=? second b)))))%N.

Module Sql.

(** [LIKE]: [%] matches any run of characters, [_] any one character and
    a backslash takes the next pattern character literally.  (A pattern
    that ends in a lone backslash is an error in PostgreSQL; the patterns
    built below end in [%].) *)
Fixpoint like (pattern : str) : str -> bool :=
  match pattern with
  | [] => fun text => match text with [] => true | _ :: _ => false end
  | p :: pattern' =>
      if Ascii.eqb p "%" then
        fix any (text : str) : bool :=
          like pattern' text
          || match text with
             | [] => false
             | _ :: text' => any text'
             end
      else if Ascii.eqb p "_" then
        fun text => match text with
                    | _ :: text' => like pattern' text'
                    | [] => false
                    end
      else if Ascii.eqb p "\" then
        match pattern' with
        | [] => fun _ => false
        | q :: pattern'' =>
            fun text => match text with
                        | c :: text' => Ascii.eqb q c && like pattern'' text'
                        | [] => false
                        end
        end
      else
        fun text => match text with
                    | c :: text' => Ascii.eqb p c && like pattern' text'
                    | [] => false
                    end
  end.

(** [column ILIKE pattern]: both sides folded to lower case; a NULL
    column matches nothing. *)
Definition ilike (column : option str) (pattern : str) : bool :=
  match column with
  | Some text => like (Py.lower pattern) (Py.lower text)
  | None => false
  end.

(** [column >= value] and [column == value]; NULL satisfies neither. *)
Definition ge (column : option date) (value : date) : bool :=
  match column with
  | Some d => date_leb value d
  | None => false
  end.

Definition eq (column : option date) (value : date) : bool :=
  match column with
  | Some d => date_eqb d value
  | None => false
  end.

(** Ascending order of a nullable column: PostgreSQL puts NULL last. *)
Definition nulls_last {A} (leb : A -> A -> bool) (a b : option A) : bool :=
  match a, b with
  | _, None => true
  | None, Some _ => false
  | Some x, Some y => leb x y
  end.

End Sql.

Definition by_event_date (a b : Poster.t) : Prop :=
  Sql.nulls_last date_leb (Poster.event_date a) (Poster.event_date b) = true.

Definition by_event_time (a b : Poster.t) : Prop :=
  Sql.nulls_last time_leb (Poster.event_time a) (Poster.event_time b) = true.

#[global] Instance by_event_date_dec a b : Decision (by_event_date a b).
Proof. unfold by_event_date. apply _. Defined.

#[global] Instance by_event_time_dec a b : Decision (by_event_time a b).
Proof. unfold by_event_time. apply _. Defined.

(** [db.query(Poster).filter(where).order_by(order).all()].  Rows with
    equal keys come in the order the sort leaves them; SQL promises none. *)
Definition query (w : world) (where_ : Poster.t -> bool)
    (order : relation Poster.t) `{!forall a b, Decision (order a b)}
  : handler (list Poster.t) :=
  fun db =>
    if db_reachable w
    then (Return (merge_sort order (List.filter where_ (posters db))), db)
    else (Raise DatabaseError, db).

(** The columns of [Poster]. *)
Definition column_names : list string :=
  [ "id"; "title"; "name"; "location"; "socials"; "event_date"; "event_time";
    "venue"; "hosted_department"; "created_at" ].

(** What each column type takes from Python.  [None] is NULL or, where
    the column has one, its default.  A string goes into a [String] column
    as it is and an integer as its decimal text (PostgreSQL converts on
    assignment); what becomes of any other value is the world's.  The date
    and time columns hold what the parse has put there: the only other
    values that reach them are the falsy ones, and PostgreSQL refuses
    those that are not [None]. *)
Definition text_column (w : world) (v : pyvalue) : option (option str) :=
  match v with
  | PyNone => Some None
  | PyStr s => if existsb (Ascii.eqb zero) s then None else Some (Some s)
  | PyInt n => Some (Some (Py.str_of_int n))
  | _ => option_map Some (varchar_in w v)
  end.

Definition date_column (v : pyvalue) : option (option date) :=
  match v with
  | PyNone => Some None
  | PyDate d => Some (Some d)
  | _ => None
  end.

Definition time_column (v : pyvalue) : option (option time) :=
  match v with
  | PyNone => Some None
  | PyTime t => Some (Some t)
  | _ => None
  end.

Definition id_column (w : world) (v : pyvalue) : option (option Z) :=
  match v with
  | PyNone => Some None
  | PyInt n => if ((-2147483648 <=? n) && (n <=? 2147483647))%Z then Some (Some n) else None
  | _ => option_map Some (integer_in w v)
  end.

Definition created_at_column (w : world) (v : pyvalue) : option (option datetime) :=
  match v with
  | PyNone => Some None
  | _ => option_map Some (timestamp_in w v)
  end.

(** The row of [Poster(kwargs)] once [id] is known.  [created_at] is the
    value given or, without one, the column's default
    [datetime.utcnow]. *)
Definition row_of (w : world) (kwargs : gmap string pyvalue) (new_id : Z)
  : option Poster.t :=
  title ← text_column w (get kwargs "title");
  name ← text_column w (get kwargs "name");
  location ← text_column w (get kwargs "location");
  socials ← text_column w (get kwargs "socials");
  event_date ← date_column (get kwargs "event_date");
  event_time ← time_column (get kwargs "event_time");
  venue ← text_column w (get kwargs "venue");
  hosted_department ← text_column w (get kwargs "hosted_department");
  created_at ← created_at_column w (get kwargs "created_at");
  Some (Poster.mk new_id title name location socials event_date event_time
          venue hosted_department (default (utcnow w) created_at)).

(** [Poster(kwargs)] with the dict unpacked.  Every column takes any
    value; the constructor refuses a keyword the class has no attribute
    of with a [TypeError], and the class has attributes that are no
    columns. *)
Definition new_Poster (w : world) (kwargs : gmap string pyvalue)
  : handler (gmap string pyvalue) :=
  if bool_decide (dom kwargs ⊆ list_to_set column_names)
  then ret kwargs
  else match construct w kwargs with
       | Some e => raise e
       | None => ret kwargs
       end.

(** [db.add(poster_data); db.commit(); db.refresh(poster_data)]: one
    INSERT.  A refused value fails the statement before it runs.  [id]
    comes from the sequence unless the row brings its own; a duplicate key
    fails the statement and nothing is written (the sequence keeps its
    advance). *)
Definition add_commit_refresh (w : world) (kwargs : gmap string pyvalue)
  : handler Poster.t :=
  fun db =>
    if negb (db_reachable w) then (Raise DatabaseError, db) else
    match id_column w (get kwargs "id") with
    | None => (Raise DatabaseError, db)
    | Some explicit =>
        let '(new_id, seq) :=
          match explicit with
          | Some n => (n, posters_id_seq db)
          | None => (posters_id_seq db, (posters_id_seq db + 1)%Z)
          end in
        match row_of w kwargs new_id with
        | None => (Raise DatabaseError, db)
        | Some row =>
            if existsb (fun p => (Poster.id p =? new_id)%Z) (posters db)
            then (Raise DatabaseError, mk_database (posters db) seq)
            else (Return row, mk_database (posters db ++ [row]) seq)
        end
    end.

(** ** The endpoints *)

(** The dict each read endpoint builds for one event. *)
Record event_json := mk_event_json {
  ev_id : Z;
  ev_title : option str;
  ev_name : option str;
  ev_location : option str;
  ev_socials : option str;
  ev_event_date : str;
  ev_event_time : option str;
  ev_venue : option str;
  ev_hosted_department : option str
}.

Definition date_isoformat (d : date) : str :=
  Py.fmt_04d (year d) ++ "-" ++ Py.fmt_02d (month d) ++ "-" ++ Py.fmt_02d (day d).

Definition time_isoformat (t : time) : str :=
  Py.fmt_02d (hour t) ++ ":" ++ Py.fmt_02d (minute t) ++ ":" ++ Py.fmt_02d (second t).

(** [event.event_date.isoformat()] is called whatever the column holds;
    only [event_time] is tested first. *)
Definition event_dict (event : Poster.t) : result event_json :=
  match Poster.event_date event with
  | None => Raise AttributeError
  | Some d =>
      Return (mk_event_json (Poster.id event) (Poster.title event) (Poster.name event)
                (Poster.location event) (Poster.socials event)
                (date_isoformat d)
                (option_map time_isoformat (Poster.event_time event))
                (Poster.venue event) (Poster.hosted_department event))
  end.

(** [[f(x) for x in l]] *)
Fixpoint comprehension {A B} (f : A -> result B) (l : list A) : result (list B) :=
  match l with
  | [] => Return []
  | x :: l' => bind (f x) (fun y => bind (comprehension f l') (fun ys => Return (y :: ys)))
  end.

(** The [except Exception as e: raise HTTPException(status_code=500, ...)]
    every endpoint is wrapped in. *)
Definition except_Exception_500 {A} (body : handler A) : handler A :=
  htry body is_Exception (fun e => raise (HTTPException 500 (StrOf e))).

(** Removal of the code-fence markup around the model's text. *)
Definition strip_fences (text : str) : str :=
  Py.strip (Py.replace (Py.replace (Py.strip text) "```json" "") "```" "").

(** Lines 97-148: the date and time strings become objects. *)
Definition parse_date_and_time (extracted_data : loaded) : result (gmap string pyvalue) :=
  match extracted_data with
  | LoadedOther => Raise AttributeError
  | LoadedDict d =>
      bind (if truthy (get d "event_date") then
              match get d "event_date" with
              | PyStr s =>
                  bind (strptime_date s "%Y-%m-%d")
                       (fun v => Return (<["event_date" := PyDate v]> d))
              | _ => Raise TypeError
              end
            else Return d)
           (fun d =>
              if truthy (get d "event_time") then
                match get d "event_time" with
                | PyStr s =>
                    bind (parse_event_time s)
                         (fun t => Return (<["event_time" := PyTime t]> d))
                | _ => Raise AttributeError
                end
              else Return d)
  end.

(** [POST /analyze-poster] *)
Definition analyze_poster (w : world) (file : str) : handler (gmap string pyvalue) :=
  except_Exception_500
    (do _ <- lift (if image_open w file then Return tt else Raise UnidentifiedImageError);
     do response_text <- lift (match generate_content w file with
                               | Some text => Return text
                               | None => Raise GenerationError
                               end);
     htry
       (let text := strip_fences response_text in
        do extracted_data <- lift (match json_loads w text with
                                   | Some v => Return v
                                   | None => Raise (JSONDecodeError text)
                                   end);
        do extracted_data <-
          htry (lift (parse_date_and_time extracted_data)) is_ValueError
               (fun e => raise (HTTPException 400 (InvalidDateTimeInResponse e)));
        do poster_data <- new_Poster w extracted_data;
        do _ <- add_commit_refresh w poster_data;
        ret extracted_data)
       is_JSONDecodeError
       (fun _ => raise (HTTPException 500 (FailedToParseGeminiResponse response_text)))).

(** [GET /events/upcoming] *)
Definition get_upcoming_events (w : world) : handler (list event_json) :=
  except_Exception_500
    (do upcoming_events <-
       query w (fun p => Sql.ge (Poster.event_date p) (today w)) by_event_date;
     lift (comprehension event_dict upcoming_events)).

(** The three substring endpoints differ in the column only. *)
Definition get_events_by_column (column : Poster.t -> option str) (w : world)
    (value : str) (upcoming_only : bool) : handler (list event_json) :=
  except_Exception_500
    (let where_ p :=
       Sql.ilike (column p) ("%" ++ value ++ "%")
       && (if upcoming_only then Sql.ge (Poster.event_date p) (today w) else true) in
     do events <- query w where_ by_event_date;
     lift (comprehension event_dict events)).

(** [GET /events/by-location/{location}] *)
Definition get_events_by_location := get_events_by_column Poster.location.

(** [GET /events/by-venue/{venue}] *)
Definition get_events_by_venue := get_events_by_column Poster.venue.

(** [GET /events/by-department/{department}] *)
Definition get_events_by_department := get_events_by_column Poster.hosted_department.

(** [GET /events/by-date/{date}] *)
Definition get_events_by_date (w : world) (date : str) : handler (list event_json) :=
  except_Exception_500
    (do search_date <-
       htry (lift (strptime_date date "%Y-%m-%d")) is_ValueError
            (fun _ => raise (HTTPException 400 InvalidDateFormatUseYMD));
     do events <-
       query w (fun p => Sql.eq (Poster.event_date p) search_date) by_event_time;
     lift (comprehension event_dict events)).

(** The status FastAPI answers with: 200 for a returned value, the status
    of a raised [HTTPException], 500 for any other exception. *)
Definition status_code {A} (r : result A) : nat :=
  match r with
  | Return _ => 200
  | Raise (HTTPException s _) => s
  | Raise _ => 500
  end.

(** The routes of [app]. *)
Inductive request :=
| AnalyzePoster (file : str)
| GetUpcomingEvents
| GetEventsByLocation (location : str) (upcoming_only : bool)
| GetEventsByDate (date : str)
| GetEventsByVenue (venue : str) (upcoming_only : bool)
| GetEventsByDepartment (department : str) (upcoming_only : bool).

Inductive body :=
| Analysis (data : gmap string pyvalue)
| Events (events : list event_json).

Definition hmap {A B} (f : A -> B) (c : handler A) : handler B :=
  do a <- c; ret (f a).

Definition app (w : world) (req : request) : handler body :=
  match req with
  | AnalyzePoster file => hmap Analysis (analyze_poster w file)
  | GetUpcomingEvents => hmap Events (get_upcoming_events w)
  | GetEventsByLocation location upcoming_only =>
      hmap Events (get_events_by_location w location upcoming_only)
  | GetEventsByDate date => hmap Events (get_events_by_date w date)
  | GetEventsByVenue venue upcoming_only =>
      hmap Events (get_events_by_venue w venue upcoming_only)
  | GetEventsByDepartment department upcoming_only =>
      hmap Events (get_events_by_department w department upcoming_only)
  end.

(** ** A decoder for examples

    The theorems hold for every [json_loads].  The examples need one that
    runs: this one reads a single JSON object whose values are strings
    without escapes, integers, [null], [true] or [false], and refuses any
    other text. *)
Module FlatJson.

Definition dq : ascii := Py.chr 34.
Definition quote (s : str) : str := dq :: s ++ [dq].

Fixpoint skip_ws (s : str) : str :=
  match s with
  | c :: s' =>
      if Ascii.eqb c " " || Py.between 9 10 c || (Py.ord c =? 13)%N
      then skip_ws s' else s
  | [] => []
  end.

Fixpoint until_quote (s : str) : option (str * str) :=
  match s with
  | [] => None
  | c :: s' =>
      if Ascii.eqb c dq then Some ([], s')
      else if Ascii.eqb c "\" || (Py.ord c <? 32)%N then None
      else match until_quote s' with
           | Some (m, rest) => Some (c :: m, rest)
           | None => None
           end
  end.

Definition read_string (s : str) : option (str * str) :=
  match s with
  | c :: s' => if Ascii.eqb c dq then until_quote s' else None
  | [] => None
  end.

Fixpoint span_digits (s : str) : str * str :=
  match s with
  | c :: s' =>
      if Py.isdecimal c then let '(m, rest) := span_digits s' in (c :: m, rest)
      else ([], s)
  | [] => ([], [])
  end.

Definition read_int (s : str) : option (pyvalue * str) :=
  match span_digits s with
  | ([], _) => None
  | (c :: m, rest) =>
      if Ascii.eqb c "0" && negb (Py.eq m []) then None
      else Some (PyInt (Z.of_N (Py.int (c :: m))), rest)
  end.

Definition read_value (s : str) : option (pyvalue * str) :=
  match read_string s with
  | Some (m, rest) => Some (PyStr m, rest)
  | None =>
      if Py.startswith s "null" then Some (PyNone, drop 4 s)
      else if Py.startswith s "true" then Some (PyOther true "True", drop 4 s)
      else if Py.startswith s "false" then Some (PyOther false "False", drop 5 s)
      else read_int s
  end.

Fixpoint members (fuel : nat) (s : str) (acc : gmap string pyvalue)
  : option (gmap string pyvalue * str) :=
  match fuel with
  | O => None
  | S fuel' =>
      match read_string (skip_ws s) with
      | None => None
      | Some (k, s1) =>
          match skip_ws s1 with
          | c :: s2 =>
              if Ascii.eqb c ":" then
                match read_value (skip_ws s2) with
                | None => None
                | Some (v, s3) =>
                    let acc' := <[string_of_list_ascii k := v]> acc in
                    match skip_ws s3 with
                    | c' :: s4 =>
                        if Ascii.eqb c' "," then members fuel' s4 acc'
                        else if Ascii.eqb c' "}" then Some (acc', s4)
                        else None
                    | [] => None
                    end
                end
              else None
          | [] => None
          end
      end
  end.

Definition loads (s : str) : option loaded :=
  match skip_ws s with
  | c :: s1 =>
      if Ascii.eqb c "{" then
        match skip_ws s1 with
        | c' :: s2 =>
            if Ascii.eqb c' "}"
            then (if Py.eq (skip_ws s2) [] then Some (LoadedDict ∅) else None)
            else match members (length s) s1 ∅ with
                 | Some (d, rest) =>
                     if Py.eq (skip_ws rest) [] then Some (LoadedDict d) else None
                 | None => None
                 end
        | [] => None
        end
      else None
  | [] => None
  end.

End FlatJson.

(** * Notions used in the statements *)

(** ** Strings *)

Definition all_space (l : str) : Prop := forallb Py.isspace l = true.
Definition no_space (l : str) : Prop := forallb (fun c => negb (Py.isspace c)) l = true.

(** A string function that leaves white space around its argument alone. *)
Definition padding_stable (f : str -> str) : Prop :=
  forall L x R, all_space L -> all_space R -> f (L ++ x ++ R) = L ++ f x ++ R.

Definition plain_remove (acc word : str) : str := Py.replace acc word "".

(** [any(c.isdecimal() for c in s)] *)
Definition has_digit (s : str) : bool := existsb Py.isdecimal s.

Definition starts_with_digit (s : str) : bool :=
  match s with
  | c :: _ => Py.isdecimal c
  | [] => false
  end.

Definition starts_with_space (s : str) : bool :=
  match s with
  | c :: _ => Py.isspace c
  | [] => false
  end.

Definition starts_with_two_digits (s : str) : bool :=
  match s with
  | c1 :: c2 :: _ => Py.isdecimal c1 && Py.isdecimal c2
  | _ => false
  end.

(** ** The fallback pattern, as the specification words it *)

Definition markers : list str := [ "am" : str; "pm" : str; "AM" : str; "PM" : str ].

(** What the pattern extracts at the head of [s]: an hour of one or two
    digits, two when there are two; a colon when there is one; a minute
    when two digits follow; white space, all there is; a marker when one
    follows. *)
Definition extracted_at (s : str) (m : TimePattern.groups) : Prop :=
  exists sep ws tail,
    s = TimePattern.group1 m ++ sep ++ default [] (TimePattern.group2 m)
          ++ ws ++ default [] (TimePattern.group3 m) ++ tail
    /\ forallb Py.isdecimal (TimePattern.group1 m) = true
    /\ (length (TimePattern.group1 m) = 2
        \/ (length (TimePattern.group1 m) = 1
            /\ starts_with_digit
                 (sep ++ default [] (TimePattern.group2 m)
                    ++ ws ++ default [] (TimePattern.group3 m) ++ tail) = false))
    /\ (sep = (":" : str)
        \/ (sep = []
            /\ Py.startswith
                 (default [] (TimePattern.group2 m)
                    ++ ws ++ default [] (TimePattern.group3 m) ++ tail) ":" = false))
    /\ match TimePattern.group2 m with
       | Some g => length g = 2 /\ forallb Py.isdecimal g = true
       | None =>
           starts_with_two_digits
             (ws ++ default [] (TimePattern.group3 m) ++ tail) = false
       end
    /\ forallb Py.isspace ws = true
    /\ starts_with_space (default [] (TimePattern.group3 m) ++ tail) = false
    /\ match TimePattern.group3 m with
       | Some p => In p markers
       | None => forall p, In p markers -> Py.startswith tail p = false
       end.

(** What the search extracts from [s]: the pattern at the first digit. *)
Definition extracted (s : str) (m : TimePattern.groups) : Prop :=
  exists pre rest,
    s = pre ++ rest /\ existsb Py.isdecimal pre = false /\ extracted_at rest m.

(** [needle] occurs in [hay]. *)
Definition contains (hay needle : str) : Prop :=
  exists before after, hay = before ++ needle ++ after.

Fixpoint containsb (hay needle : str) : bool :=
  Py.startswith hay needle
  || match hay with
     | [] => false
     | _ :: hay' => containsb hay' needle
     end.

(** The column holds a text of which [value] is a substring, case folded
    on both sides. *)
Definition icontains (column : option str) (value : str) : bool :=
  match column with
  | Some text => containsb (Py.lower text) (Py.lower value)
  | None => false
  end.

(** The characters [LIKE] gives a meaning of their own, and the values
    free of them. *)
Definition like_special (c : ascii) : bool :=
  Ascii.eqb c "%" || Ascii.eqb c "_" || Ascii.eqb c "\".

Definition plain (value : str) : Prop :=
  forallb (fun c => negb (like_special c)) value = true.

(** ** Twelve-hour readings *)

Inductive meridiem := AM | PM.

Definition spellings (mer : meridiem) : list str :=
  match mer with
  | AM => [ "AM" : str; "am" : str; "Am" : str; "aM" : str ]
  | PM => [ "PM" : str; "pm" : str; "Pm" : str; "pM" : str ]
  end.

(** "h:mm AM", with the hour zero-padded or not and the marker set off by
    [sep]. *)
Definition render_hmm (pad_hour : bool) (h m : N) (sep marker : str) : str :=
  (if pad_hour then Py.fmt_02d h else Py.decimal h)
    ++ ":" ++ Py.fmt_02d m ++ sep ++ marker.

(** The hour of the day a twelve-hour reading stands for. *)
Definition expected_24h (h : N) (mer : meridiem) : N :=
  match mer with
  | AM => if (h =? 12)%N then 0%N else h
  | PM => if (h =? 12)%N then 12%N else (h + 12)%N
  end.

Definition time_eqb (a b : time) : bool :=
  ((hour a =? hour b) && (minute a =? minute b) && (second a =? second b))%N.

Definition returns_time (r : result time) (t : time) : bool :=
  match r with
  | Return t' => time_eqb t' t
  | Raise _ => false
  end.

Definition raises_ValueError {A} (r : result A) : bool :=
  match r with
  | Raise (ValueError _) => true
  | _ => false
  end.

(** Finite ranges and checks over them. *)
Definition upto (n : nat) : list N := map N.of_nat (seq 0 (S n)).

Definition twelve_hours : list N := List.filter (fun h => negb (h =? 0)%N) (upto 12).

Definition forallb2 {A B} (P : A -> B -> bool) (la : list A) (lb : list B) : bool :=
  forallb (fun a => forallb (fun b => P a b) lb) la.

Definition forallb6 {A B C D E G} (P : A -> B -> C -> D -> E -> G -> bool)
    (la : list A) (lb : list B) (lc : list C) (ld : list D) (le : list E)
    (lg : E -> list G) : bool :=
  forallb (fun a => forallb (fun b => forallb (fun c => forallb (fun d =>
    forallb (fun e => forallb (fun g => P a b c d e g) (lg e)) le) ld) lc) lb) la.

(** ** The table *)

(** No two rows have one [id]. *)
Definition unique_ids (db : database) : Prop := NoDup (map Poster.id (posters db)).

(** The day before [d]. *)
Definition yesterday (d : date) : date :=
  if (1 <? day d)%N then mk_date (year d) (month d) (day d - 1)
  else if (1 <? month d)%N
       then mk_date (year d) (month d - 1) (Strptime.days_in_month (year d) (month d - 1))
       else mk_date (year d - 1) 12 31.

(** The outcome of a handler started in [db]: a result that satisfies [Q],
    or an exception with the rows as they were. *)
Definition outcome {A} (c : handler A) (db : database)
    (Q : A -> database -> Prop) : Prop :=
  match c db with
  | (Return a, db') => Q a db'
  | (Raise _, db') => posters db' = posters db
  end.

(** A handler that leaves the database as it found it. *)
Definition read_only {A} (c : handler A) : Prop := forall db, snd (c db) = db.

(** ** Sample worlds and tables *)
Module Sample.

Definition member (kv : str * str) : str :=
  FlatJson.quote (fst kv) ++ ": " ++ FlatJson.quote (snd kv).

Fixpoint join (sep : str) (l : list str) : str :=
  match l with
  | [] => []
  | [x] => x
  | x :: l' => x ++ sep ++ join sep l'
  end.

(** The model's answer: a JSON object with these members, in a code fence. *)
Definition reply (members : list (str * str)) : str :=
  "```json" ++ [Py.chr 10] ++ "{" ++ join ", " (map member members) ++ "}"
    ++ [Py.chr 10] ++ "```".

Definition the_date : date := mk_date 2024 1 10.
Definition the_clock : datetime := mk_datetime the_date (mk_time 12 0 0).

(** A world where the image opens, the model answers [reply_text] and the
    database is up, on 10 January 2024; the database refuses the values
    it is asked about and the class has no attributes but its columns. *)
Definition world (reply_text : str) : world :=
  mk_world (fun _ => true) (fun _ => Some reply_text) FlatJson.loads
           the_date the_clock true
           (fun _ => None) (fun _ => None) (fun _ => None) (fun _ => Some TypeError).

Definition empty : database := mk_database [] 1.

Definition row (id : Z) (location : str) (event_date : option date) : Poster.t :=
  Poster.mk id (Some ("Open day" : str)) None (Some location) None event_date None
            None None the_clock.

End Sample.

(** * Further notions *)

(** A row whose date and time, where it has them, are a date of the
    calendar and a time of the day. *)
Definition valid_row (p : Poster.t) : Prop :=
  (forall d, Poster.event_date p = Some d -> Strptime.valid_date d = true)
  /\ (forall t, Poster.event_time p = Some t -> Strptime.valid_time t = true).

Definition valid_rows (db : database) : Prop := Forall valid_row (posters db).

(** "hh:mm", the hour zero-padded or not. *)
Definition render_hm (pad_hour : bool) (h m : N) : str :=
  (if pad_hour then Py.fmt_02d h else Py.decimal h) ++ ":" ++ Py.fmt_02d m.

Definition forallb3 {A B C} (P : A -> B -> C -> bool)
    (la : list A) (lb : list B) (lc : list C) : bool :=
  forallb (fun a => forallb (fun b => forallb (fun c => P a b c) lc) lb) la.

(** The scan of [str.replace] that takes the three backticks of a code
    fence out of a text. *)
Definition tick : ascii := "`"%char.
Definition fence : str := [tick; tick; tick].
Definition unfence (s : str) : str := Py.replace_scan fence [] 0 s.

(** A text of decimal digits and colons. *)
Definition clock_text (s : str) : bool :=
  forallb (fun c => Py.isdecimal c || Ascii.eqb c ":") s.

(** The numbers [k], [k + 1], ..., [n] of them. *)
Fixpoint count_from (n : nat) (k : N) : list N :=
  match n with
  | O => []
  | S n' => k :: count_from n' (N.succ k)
  end.

(** A value a [String] column takes whatever the world: [None], a string
    without a NUL, an integer; and the text stored for it. *)
Definition plain_text (v : pyvalue) : bool :=
  match v with
  | PyNone | PyInt _ => true
  | PyStr s => negb (existsb (Ascii.eqb zero) s)
  | _ => false
  end.

Definition text_of (v : pyvalue) : option str :=
  match v with
  | PyStr s => Some s
  | PyInt n => Some (Py.str_of_int n)
  | _ => None
  end.

Definition is_None (v : pyvalue) : bool :=
  match v with
  | PyNone => true
  | _ => false
  end.

(** A reply that names columns only, gives texts (or nothing) for the six
    text columns and nothing for [id], [event_date], [event_time] and
    [created_at]. *)
Definition undated_reply (d : gmap string pyvalue) : bool :=
  bool_decide (dom d ⊆ list_to_set column_names)
  && forallb (fun k => plain_text (get d k))
       [ "title"; "name"; "location"; "socials"; "venue"; "hosted_department" ]%string
  && forallb (fun k => is_None (get d k))
       [ "id"; "event_date"; "event_time"; "created_at" ]%string.

(** The row such a reply makes. *)
Definition undated_row (w : world) (d : gmap string pyvalue) (new_id : Z) : Poster.t :=
  Poster.mk new_id (text_of (get d "title")) (text_of (get d "name"))
    (text_of (get d "location")) (text_of (get d "socials")) None None
    (text_of (get d "venue")) (text_of (get d "hosted_department")) (utcnow w).

(** * Facts about strings *)


Lemma replace_nonempty s old new :
  old <> [] -> Py.replace s old new = Py.replace_scan old new 0 s.
Proof. destruct old; [congruence | reflexivity]. Qed.

Lemma startswith_length s old :
  Py.startswith s old = true -> length old <= length s.
Proof.
  revert s; induction old as [|a old IH]; intros [|b s] H; simpl in *; try lia; try discriminate.
  apply andb_true_iff in H as [_ H]. apply IH in H. lia.
Qed.

Lemma startswith_prefix s p : Py.startswith s p = true <-> exists rest, s = p ++ rest.
Proof.
  revert s. induction p as [|a p IH]; intros s.
  - destruct s; simpl; split; eauto.
  - destruct s as [|b s]; simpl.
    + split; [discriminate | now intros (rest & E)].
    + rewrite andb_true_iff, IH, Ascii.eqb_eq. split.
      * intros [-> (rest & ->)]. eauto.
      * intros (rest & E). injection E as -> ->. eauto.
Qed.

Lemma startswith_space_head c s old :
  Py.isspace c = true -> no_space old -> old <> [] -> Py.startswith (c :: s) old = false.
Proof.
  intros Hc Hold Hne. destruct old as [|a old]; [congruence|].
  simpl. unfold no_space in Hold. simpl in Hold.
  apply andb_true_iff in Hold as [Ha _].
  destruct (Ascii.eqb_spec a c) as [->|]; [|reflexivity].
  rewrite Hc in Ha. discriminate.
Qed.

Lemma startswith_app_space s old R :
  no_space old -> all_space R -> Py.startswith (s ++ R) old = Py.startswith s old.
Proof.
  revert s; induction old as [|a old IH]; intros s Hold HR.
  - destruct s, R; reflexivity.
  - unfold no_space in Hold. simpl in Hold. apply andb_true_iff in Hold as [Ha Hold].
    destruct s as [|b s]; simpl.
    + destruct R as [|c R]; [reflexivity|]. simpl.
      unfold all_space in HR. simpl in HR. apply andb_true_iff in HR as [Hc _].
      destruct (Ascii.eqb_spec a c) as [->|]; [|reflexivity].
      rewrite Hc in Ha. discriminate.
    + rewrite IH; auto.
Qed.

Lemma replace_scan_space_prefix old new L s :
  no_space old -> old <> [] -> all_space L ->
  Py.replace_scan old new 0 (L ++ s) = L ++ Py.replace_scan old new 0 s.
Proof.
  intros Hold Hne. induction L as [|c L IH]; intros HL; [reflexivity|].
  unfold all_space in HL. simpl in HL. apply andb_true_iff in HL as [Hc HL].
  change ((c :: L) ++ s) with (c :: (L ++ s)).
  cbn [Py.replace_scan]. rewrite startswith_space_head by assumption.
  rewrite IH by assumption. reflexivity.
Qed.

Lemma replace_scan_space_suffix old new R :
  no_space old -> old <> [] -> all_space R ->
  forall s k, k <= length s ->
  Py.replace_scan old new k (s ++ R) = Py.replace_scan old new k s ++ R.
Proof.
  intros Hold Hne HR. induction s as [|c s IH]; intros k Hk.
  - simpl in Hk. assert (k = 0) as -> by lia. simpl.
    rewrite <- (app_nil_r R) at 1.
    rewrite replace_scan_space_prefix by assumption. simpl. apply app_nil_r.
  - change ((c :: s) ++ R) with (c :: (s ++ R)). destruct k as [|k].
    + cbn [Py.replace_scan].
      change (c :: s ++ R) with ((c :: s) ++ R).
      rewrite startswith_app_space by assumption.
      destruct (Py.startswith (c :: s) old) eqn:E.
      * apply startswith_length in E. simpl in E.
        rewrite IH by lia. now rewrite app_assoc.
      * rewrite IH by lia. reflexivity.
    + cbn [Py.replace_scan]. simpl in Hk. apply IH. lia.
Qed.

Lemma replace_padding_stable old new :
  no_space old -> old <> [] -> padding_stable (fun s => Py.replace s old new).
Proof.
  intros Hold Hne L x R HL HR. rewrite !replace_nonempty by assumption.
  rewrite replace_scan_space_prefix by assumption.
  rewrite replace_scan_space_suffix by (assumption || lia). reflexivity.
Qed.

Lemma padding_stable_compose f g :
  padding_stable f -> padding_stable g -> padding_stable (fun s => f (g s)).
Proof. intros Hf Hg L x R HL HR. rewrite Hg, Hf; auto. Qed.

Lemma lstrip_split s : exists L, all_space L /\ s = L ++ Py.lstrip s.
Proof.
  induction s as [|c s [L [HL E]]]; [exists []; split; reflexivity|].
  simpl. destruct (Py.isspace c) eqn:Hc.
  - exists (c :: L). split; [unfold all_space; simpl; now rewrite Hc | simpl; congruence].
  - exists []. split; reflexivity.
Qed.

Lemma all_space_rev L : all_space L -> all_space (rev L).
Proof.
  unfold all_space. rewrite !forallb_forall. intros H c Hc. apply H.
  now apply in_rev.
Qed.

Lemma rstrip_split s : exists R, all_space R /\ s = Py.rstrip s ++ R.
Proof.
  destruct (lstrip_split (rev s)) as [L [HL E]].
  exists (rev L). split; [now apply all_space_rev|].
  unfold Py.rstrip. rewrite <- rev_app_distr, <- E. symmetry. apply rev_involutive.
Qed.

Lemma strip_split s :
  exists L R, all_space L /\ all_space R /\ s = L ++ Py.strip s ++ R.
Proof.
  destruct (lstrip_split s) as [L [HL E]].
  destruct (rstrip_split (Py.lstrip s)) as [R [HR E']].
  exists L, R. unfold Py.strip. rewrite <- E', <- E. auto.
Qed.

Lemma lstrip_space_prefix L s : all_space L -> Py.lstrip (L ++ s) = Py.lstrip s.
Proof.
  induction L as [|c L IH]; intros HL; [reflexivity|].
  unfold all_space in HL. simpl in HL. apply andb_true_iff in HL as [Hc HL].
  simpl. rewrite Hc. auto.
Qed.

Lemma lstrip_app s t : Py.lstrip s <> [] -> Py.lstrip (s ++ t) = Py.lstrip s ++ t.
Proof.
  induction s as [|c s IH]; simpl; [congruence|].
  destruct (Py.isspace c); auto.
Qed.

Lemma lstrip_all_space L : all_space L -> Py.lstrip L = [].
Proof.
  intros HL. rewrite <- (app_nil_r L). now rewrite lstrip_space_prefix.
Qed.

Lemma rstrip_space_suffix s R : all_space R -> Py.rstrip (s ++ R) = Py.rstrip s.
Proof.
  intros HR. unfold Py.rstrip. rewrite rev_app_distr.
  rewrite lstrip_space_prefix by now apply all_space_rev. reflexivity.
Qed.

Lemma lstrip_nil_all_space x : Py.lstrip x = [] -> all_space x.
Proof.
  induction x as [|c x IH]; [reflexivity|]. simpl.
  destruct (Py.isspace c) eqn:Hc; [|discriminate].
  intros H. unfold all_space. simpl. rewrite Hc. now apply IH.
Qed.

Lemma all_space_app L R : all_space L -> all_space R -> all_space (L ++ R).
Proof. unfold all_space. rewrite forallb_app. intros -> ->. reflexivity. Qed.

Lemma strip_padding L x R :
  all_space L -> all_space R -> Py.strip (L ++ x ++ R) = Py.strip x.
Proof.
  intros HL HR. unfold Py.strip. rewrite lstrip_space_prefix by assumption.
  destruct (Py.lstrip x) as [|c y] eqn:E.
  - apply lstrip_nil_all_space in E.
    rewrite lstrip_all_space by now apply all_space_app. reflexivity.
  - rewrite lstrip_app by (rewrite E; discriminate).
    rewrite E. now apply rstrip_space_suffix.
Qed.

(** Trimming the argument of a padding-stable function first changes
    nothing once the result is trimmed. *)
Lemma strip_absorb f s :
  padding_stable f -> Py.strip (f (Py.strip s)) = Py.strip (f s).
Proof.
  intros Hf. destruct (strip_split s) as [L [R [HL [HR E]]]].
  rewrite E at 2. rewrite Hf by assumption. now rewrite strip_padding.
Qed.

Lemma fold_plain_padding_stable words :
  Forall (fun w => no_space w /\ w <> []) words ->
  padding_stable (fun s => fold_left plain_remove words s).
Proof.
  induction 1 as [|w words [Hw Hne] _ IH]; intros L x R HL HR; simpl.
  - reflexivity.
  - unfold plain_remove at 2 4.
    rewrite (replace_padding_stable w "" Hw Hne L x R HL HR). now apply IH.
Qed.

Lemma fold_remove_word f words s :
  Forall (fun w => no_space w /\ w <> []) words ->
  padding_stable f ->
  Py.strip (f (fold_left remove_word words s))
  = Py.strip (f (fold_left plain_remove words s)).
Proof.
  intros Hwords Hf. revert s. induction Hwords as [|w words Hw Hws IH]; intros s; simpl.
  - reflexivity.
  - rewrite IH. unfold remove_word.
    apply (strip_absorb (fun x => f (fold_left plain_remove words x))).
    apply padding_stable_compose; [assumption|].
    now apply fold_plain_padding_stable.
Qed.

Lemma words_to_remove_plain :
  Forall (fun w => no_space w /\ w <> []) words_to_remove.
Proof. repeat constructor; discriminate. Qed.


(** C2. The cleaning step is blind substring removal.  What the code
    computes, with its trim after every removal, is for every input what the
    plain reading gives: lower-case, remove "onwards", "onward", "starting",
    "from" and "at" wherever they occur, replace "pm" by " PM" and "am" by
    " AM", trim.  So "atlantic" loses its "at". *)
Theorem clean_time_string_as_specified :
  (forall raw : str, clean_time_string raw = clean_as_specified raw)
  /\ clean_time_string "atlantic" = ("lantic" : str)
  /\ clean_time_string "5:30 PM onwards" = ("5:30  PM" : str).
Proof.
  split; [|split; reflexivity].
  intros raw. unfold clean_time_string, clean_as_specified.
  apply (fold_remove_word (fun s => Py.replace (Py.replace s "pm" " PM") "am" " AM")).
  - apply words_to_remove_plain.
  - apply (padding_stable_compose (fun s => Py.replace s "am" " AM")
             (fun s => Py.replace s "pm" " PM"));
      apply replace_padding_stable; (reflexivity || discriminate).
Qed.

(** * The structured parse *)

Lemma strptime_raises_ValueError s fmt e :
  Strptime.strptime s fmt = Raise e -> is_ValueError e = true.
Proof.
  unfold Strptime.strptime.
  destruct (Strptime.compile fmt false); [|intros [= <-]; reflexivity].
  destruct (Strptime.re_match l s) as [[gs [|c rest]]|];
    try (intros [= <-]; reflexivity).
  destruct (_ && _); [discriminate | intros [= <-]; reflexivity].
Qed.

Lemma strptime_time_raises_ValueError s fmt e :
  strptime_time s fmt = Raise e -> is_ValueError e = true.
Proof.
  unfold strptime_time, bind.
  destruct (Strptime.strptime s fmt) eqn:E; [discriminate|].
  intros [= <-]. eapply strptime_raises_ValueError; eauto.
Qed.

Lemma strptime_date_raises_ValueError s fmt e :
  strptime_date s fmt = Raise e -> is_ValueError e = true.
Proof.
  unfold strptime_date, bind.
  destruct (Strptime.strptime s fmt) eqn:E; [discriminate|].
  intros [= <-]. eapply strptime_raises_ValueError; eauto.
Qed.

(** The loop never raises, and it stops at the first format that parses. *)
Lemma try_formats_first s fs :
  match try_formats s fs with
  | Return (Some t) =>
      exists i fmt, fs !! i = Some fmt /\ strptime_time s fmt = Return t /\
        forall j fmt', j < i -> fs !! j = Some fmt' -> exists e, strptime_time s fmt' = Raise e
  | Return None => forall fmt, In fmt fs -> exists e, strptime_time s fmt = Raise e
  | Raise _ => False
  end.
Proof.
  induction fs as [|f fs IH]; simpl.
  - intros fmt [].
  - destruct (strptime_time s f) as [t|e] eqn:E.
    + exists 0, f. repeat split; auto. intros j fmt' Hj. lia.
    + rewrite (strptime_time_raises_ValueError _ _ _ E).
      destruct (try_formats s fs) as [[t|]|e']; [| |exact IH].
      * destruct IH as (i & fmt & Hi & Ht & Hbefore).
        exists (S i), fmt. repeat split; auto.
        intros [|j] fmt' Hj Hl; simpl in Hl.
        -- injection Hl as <-. eauto.
        -- apply (Hbefore j); auto. lia.
      * intros fmt [<-|Hin]; eauto.
Qed.

Lemma first_match_unique s fs i fmt t :
  fs !! i = Some fmt -> strptime_time s fmt = Return t ->
  (forall j fmt', j < i -> fs !! j = Some fmt' -> exists e, strptime_time s fmt' = Raise e) ->
  try_formats s fs = Return (Some t).
Proof.
  revert i. induction fs as [|f fs IH]; intros i Hi Ht Hbefore; [discriminate|].
  simpl. destruct i as [|i]; simpl in Hi.
  - injection Hi as ->. now rewrite Ht.
  - destruct (Hbefore 0 f) as [e He]; [lia | reflexivity |].
    rewrite He, (strptime_time_raises_ValueError _ _ _ He).
    apply (IH i); auto. intros j fmt' Hj Hl. apply (Hbefore (S j)); auto. lia.
Qed.

Lemma time_eqb_eq a b : time_eqb a b = true -> a = b.
Proof.
  destruct a, b. unfold time_eqb. simpl.
  rewrite !andb_true_iff, !N.eqb_eq. intros [[-> ->] ->]. reflexivity.
Qed.

Lemma returns_time_eq r t : returns_time r t = true -> r = Return t.
Proof.
  destruct r; simpl; [|discriminate]. intros H. f_equal. now apply time_eqb_eq.
Qed.

Lemma In_upto n (m : N) : (m <= N.of_nat n)%N -> In m (upto n).
Proof.
  intros H. unfold upto. apply in_map_iff. exists (N.to_nat m).
  split; [apply N2Nat.id|]. apply in_seq. lia.
Qed.

Lemma forallb6_true {A B C D E G} (P : A -> B -> C -> D -> E -> G -> bool)
    la lb lc ld le lg :
  forallb6 P la lb lc ld le lg = true ->
  forall a b c d e g,
    In a la -> In b lb -> In c lc -> In d ld -> In e le -> In g (lg e) ->
    P a b c d e g = true.
Proof.
  unfold forallb6. intros H a b c d e g Ha Hb Hc Hd He Hg.
  rewrite forallb_forall in H. specialize (H a Ha). cbv beta in H.
  rewrite forallb_forall in H. specialize (H b Hb). cbv beta in H.
  rewrite forallb_forall in H. specialize (H c Hc). cbv beta in H.
  rewrite forallb_forall in H. specialize (H d Hd). cbv beta in H.
  rewrite forallb_forall in H. specialize (H e He). cbv beta in H.
  rewrite forallb_forall in H. exact (H g Hg).
Qed.

(** Every rendering of every twelve-hour time, cleaned and read with the
    first format. *)
Lemma all_hmm_checked :
  forallb6 (fun pad h m sep mer marker =>
              returns_time
                (strptime_time (clean_time_string (render_hmm pad h m sep marker))
                               "%I:%M %p")
                (mk_time (expected_24h h mer) m 0))
           [false; true] twelve_hours (upto 59) [ " " : str; "" : str ] [AM; PM]
           spellings = true.
Proof. vm_compute. reflexivity. Qed.

Lemma forallb_In {A} (f : A -> bool) l x : forallb f l = true -> In x l -> f x = true.
Proof. intros H. now apply forallb_forall. Qed.

Lemma hmm_first_format pad h m sep mer marker :
  (1 <= h <= 12)%N -> (m <= 59)%N ->
  In sep [ " " : str; "" : str ] -> In marker (spellings mer) ->
  strptime_time (clean_time_string (render_hmm pad h m sep marker)) "%I:%M %p"
  = Return (mk_time (expected_24h h mer) m 0).
Proof.
  intros Hh Hm Hsep Hmarker. apply returns_time_eq.
  assert (Hpad : In pad [false; true]) by (destruct pad; simpl; auto).
  assert (Hhour : In h twelve_hours).
  { apply filter_In. split; [apply (In_upto 12 h); lia|].
    apply negb_true_iff, N.eqb_neq. lia. }
  assert (Hmer : In mer [AM; PM]) by (destruct mer; simpl; auto).
  pose proof (forallb6_true _ _ _ _ _ _ _ all_hmm_checked
                pad h m sep mer marker Hpad Hhour (In_upto 59 m Hm) Hsep Hmer Hmarker) as H.
  cbv beta in H. exact H.
Qed.

Lemma try_formats_head s fmt fs t :
  strptime_time s fmt = Return t -> try_formats s (fmt :: fs) = Return (Some t).
Proof. intros H. cbn [try_formats]. now rewrite H. Qed.

Lemma structured_result raw t :
  try_formats (clean_time_string raw) time_formats = Return (Some t) ->
  parse_event_time raw = Return t.
Proof. intros H. unfold parse_event_time. rewrite H. reflexivity. Qed.

(** C3. The structured parse goes through the seven formats of the source
    in their order and answers with the first one that parses the cleaned
    string, and what it answers is the result of the whole time parse.
    Every rendering "h:mm AM/PM" of a twelve-hour time, once cleaned, is
    parsed by the first format to the 24-hour time it stands for; the
    structured parse gives 17:30:00 for "5:30 PM onwards" (cleaned to
    "5:30  PM", first format), 09:00:00 for "9 AM" (fifth format) and
    17:30:00 for "17:30" (fourth format). *)
Theorem structured_parse_first_match :
  time_formats
  = [ "%I:%M %p" : str; "%I:%M%p" : str; "%I:%M" : str; "%H:%M" : str;
      "%I %p" : str; "%H:%M:%S" : str; "%I:%M:%S %p" : str ]
  /\ (forall s, exists r,
        try_formats s time_formats = Return r
        /\ forall t, r = Some t <->
             exists i fmt,
               time_formats !! i = Some fmt
               /\ strptime_time s fmt = Return t
               /\ forall j fmt', j < i -> time_formats !! j = Some fmt' ->
                    exists e, strptime_time s fmt' = Raise e)
  /\ (forall raw t,
        try_formats (clean_time_string raw) time_formats = Return (Some t) ->
        parse_event_time raw = Return t)
  /\ (forall pad h m sep mer marker,
        (1 <= h <= 12)%N -> (m <= 59)%N ->
        In sep [ " " : str; "" : str ] -> In marker (spellings mer) ->
        strptime_time (clean_time_string (render_hmm pad h m sep marker)) "%I:%M %p"
        = Return (mk_time (expected_24h h mer) m 0)
        /\ try_formats (clean_time_string (render_hmm pad h m sep marker)) time_formats
           = Return (Some (mk_time (expected_24h h mer) m 0))
        /\ parse_event_time (render_hmm pad h m sep marker)
           = Return (mk_time (expected_24h h mer) m 0))
  /\ (clean_time_string "5:30 PM onwards" = ("5:30  PM" : str)
      /\ strptime_time (clean_time_string "5:30 PM onwards") "%I:%M %p"
         = Return (mk_time 17 30 0)
      /\ try_formats (clean_time_string "5:30 PM onwards") time_formats
         = Return (Some (mk_time 17 30 0))
      /\ parse_event_time "5:30 PM onwards" = Return (mk_time 17 30 0))
  /\ (clean_time_string "9 AM" = ("9  AM" : str)
      /\ strptime_time (clean_time_string "9 AM") "%I %p" = Return (mk_time 9 0 0)
      /\ try_formats (clean_time_string "9 AM") (firstn 4 time_formats) = Return None
      /\ try_formats (clean_time_string "9 AM") time_formats
         = Return (Some (mk_time 9 0 0))
      /\ parse_event_time "9 AM" = Return (mk_time 9 0 0))
  /\ (clean_time_string "17:30" = ("17:30" : str)
      /\ strptime_time (clean_time_string "17:30") "%H:%M" = Return (mk_time 17 30 0)
      /\ try_formats (clean_time_string "17:30") (firstn 3 time_formats) = Return None
      /\ try_formats (clean_time_string "17:30") time_formats
         = Return (Some (mk_time 17 30 0))
      /\ parse_event_time "17:30" = Return (mk_time 17 30 0)).
Proof.
  split; [reflexivity|].
  split; [|split; [exact structured_result|split; [|repeat split; vm_compute; reflexivity]]].
  - intros s. pose proof (try_formats_first s time_formats) as H.
    destruct (try_formats s time_formats) as [r|e] eqn:E; [|contradiction].
    exists r. split; [reflexivity|]. intros t. split.
    + intros ->. exact H.
    + intros (i & fmt & Hi & Ht & Hbefore).
      pose proof (first_match_unique s time_formats i fmt t Hi Ht Hbefore) as U.
      congruence.
  - intros pad h m sep mer marker Hh Hm Hsep Hmarker.
    pose proof (hmm_first_format pad h m sep mer marker Hh Hm Hsep Hmarker) as F.
    pose proof (try_formats_head _ _ (tl time_formats) _ F) as T.
    split; [exact F|]. split; [exact T|]. apply structured_result. exact T.
Qed.

Lemma structured_parse_first_match_witness :
  try_formats (clean_time_string (render_hmm false 5 30 "" "pm")) time_formats
  = Return (Some (mk_time 17 30 0))
  /\ parse_event_time (render_hmm false 5 30 "" "pm") = Return (mk_time 17 30 0).
Proof.
  destruct (proj1 (proj2 (proj2 (proj2 structured_parse_first_match)))
              false 5%N 30%N "" PM "pm") as (_ & T & P).
  - lia.
  - lia.
  - simpl. auto.
  - simpl. auto.
  - split; [exact T | exact P].
Defined.

(** * The regex fallback and the failure of the time parse *)

Ltac each_char c := destruct c as [[] [] [] [] [] [] [] []].

Lemma isdecimal_lower c : Py.isdecimal (Py.lower_char c) = Py.isdecimal c.
Proof. each_char c; reflexivity. Qed.

Lemma isspace_not_decimal c : Py.isspace c = true -> Py.isdecimal c = false.
Proof. each_char c; vm_compute; congruence. Qed.

Lemma has_digit_app s t : has_digit (s ++ t) = has_digit s || has_digit t.
Proof. apply existsb_app. Qed.

Lemma has_digit_lower s : has_digit (Py.lower s) = has_digit s.
Proof.
  induction s as [|c s IH]; [reflexivity|].
  simpl. now rewrite isdecimal_lower, <- IH.
Qed.

Lemma all_space_no_digit L : all_space L -> has_digit L = false.
Proof.
  induction L as [|c L IH]; [reflexivity|]. unfold all_space. simpl.
  intros H. apply andb_true_iff in H as [Hc HL].
  rewrite (isspace_not_decimal c Hc). now apply IH.
Qed.

Lemma has_digit_strip s : has_digit (Py.strip s) = has_digit s.
Proof.
  destruct (strip_split s) as (L & R & HL & HR & E). rewrite E at 2.
  rewrite !has_digit_app, (all_space_no_digit L HL), (all_space_no_digit R HR).
  now rewrite orb_false_r.
Qed.

Lemma startswith_firstn s old :
  Py.startswith s old = true -> firstn (length old) s = old.
Proof.
  revert s; induction old as [|a old IH]; intros [|b s] H; simpl in *;
    try reflexivity; try discriminate.
  apply andb_true_iff in H as [E H]. apply Ascii.eqb_eq in E as ->.
  f_equal. now apply IH.
Qed.

Lemma has_digit_replace_scan old new :
  old <> [] -> has_digit old = false -> has_digit new = false ->
  forall s k, has_digit (firstn k s) = false ->
  has_digit (Py.replace_scan old new k s) = has_digit s.
Proof.
  intros Hne Hold Hnew. induction s as [|c s IH]; intros k Hk; [reflexivity|].
  destruct k as [|k]; cbn [Py.replace_scan].
  - destruct (Py.startswith (c :: s) old) eqn:E.
    + destruct old as [|a old]; [congruence|].
      pose proof (startswith_firstn _ _ E) as F. simpl in F.
      injection F as -> F. simpl in Hold. apply orb_false_iff in Hold as [Ha Hold].
      rewrite has_digit_app, Hnew. simpl. rewrite Ha. simpl.
      apply IH. replace (length old - 0) with (length old) by lia. now rewrite F.
    + simpl. f_equal. apply IH. reflexivity.
  - simpl in Hk. apply orb_false_iff in Hk as [Hc Hk].
    simpl. rewrite Hc. simpl. now apply IH.
Qed.

Lemma has_digit_replace s old new :
  old <> [] -> has_digit old = false -> has_digit new = false ->
  has_digit (Py.replace s old new) = has_digit s.
Proof.
  intros Hne Hold Hnew. rewrite replace_nonempty by assumption.
  now apply has_digit_replace_scan.
Qed.

Lemma has_digit_remove_words words s :
  Forall (fun w => w <> [] /\ has_digit w = false) words ->
  has_digit (fold_left remove_word words s) = has_digit s.
Proof.
  intros H. revert s. induction H as [|w words [Hne Hw] _ IH]; intros s; [reflexivity|].
  simpl. rewrite IH. unfold remove_word.
  rewrite has_digit_strip. now apply has_digit_replace.
Qed.

(** Cleaning neither adds nor removes a digit. *)
Lemma has_digit_clean raw : has_digit (clean_time_string raw) = has_digit raw.
Proof.
  unfold clean_time_string. rewrite has_digit_strip.
  rewrite !has_digit_replace by (reflexivity || discriminate).
  rewrite has_digit_remove_words by (repeat constructor; discriminate).
  apply has_digit_lower.
Qed.

(** ** Formats need a digit in front *)

Lemma one_digit k c :
  Py.isdecimal k = true -> Py.isdecimal c = false -> Strptime.one k c = false.
Proof.
  intros Hk Hc. unfold Strptime.one. destruct (Ascii.eqb_spec k c) as [->|]; congruence.
Qed.

Lemma rng_digit lo hi c :
  Py.isdecimal lo = true -> Py.isdecimal hi = true ->
  Py.isdecimal c = false -> Strptime.rng lo hi c = false.
Proof.
  unfold Strptime.rng, Py.isdecimal, Py.between.
  rewrite !andb_true_iff, !andb_false_iff, !N.leb_le, !N.leb_gt. lia.
Qed.

Lemma hour_alternatives_digit_first d :
  d = Strptime.dI \/ d = Strptime.dH ->
  Forall (fun cs => exists k cs',
            cs = k :: cs' /\ forall c, Py.isdecimal c = false -> k c = false)
         (Strptime.alternatives d).
Proof.
  intros [-> | ->]; repeat constructor; eexists _, _; (split; [reflexivity|]);
    intros c Hc;
    first [ exact Hc
          | apply one_digit; [reflexivity | exact Hc]
          | apply rng_digit; [reflexivity | reflexivity | exact Hc] ].
Qed.

Lemma hour_candidates_need_digit d c s :
  d = Strptime.dI \/ d = Strptime.dH ->
  Py.isdecimal c = false -> Strptime.candidates (Strptime.Field d) (c :: s) = [].
Proof.
  intros Hd Hc. unfold Strptime.candidates.
  induction (hour_alternatives_digit_first d Hd) as [|cs alts (k & cs' & -> & Hk) _ IH];
    [reflexivity|].
  cbn [omap list_omap Strptime.take_classes]. rewrite (Hk c Hc). exact IH.
Qed.

Lemma hour_candidates_nil d :
  d = Strptime.dI \/ d = Strptime.dH -> Strptime.candidates (Strptime.Field d) [] = [].
Proof. intros [-> | ->]; reflexivity. Qed.

Lemma hour_first_needs_digit d items s :
  d = Strptime.dI \/ d = Strptime.dH ->
  starts_with_digit s = false ->
  Strptime.re_match (Strptime.Field d :: items) s = None.
Proof.
  intros Hd Hs. cbn [Strptime.re_match]. destruct s as [|c s].
  - now rewrite hour_candidates_nil.
  - now rewrite hour_candidates_need_digit.
Qed.

Lemma time_formats_hour_first :
  Forall (fun fmt => exists d items,
            (d = Strptime.dI \/ d = Strptime.dH)
            /\ Strptime.compile fmt false = Some (Strptime.Field d :: items))
         time_formats.
Proof.
  unfold time_formats.
  repeat (constructor; [eexists _, _; split; [|vm_compute; reflexivity]; auto|]).
  constructor.
Qed.

Lemma try_formats_needs_digit s :
  starts_with_digit s = false -> try_formats s time_formats = Return None.
Proof.
  intros Hs. pose proof time_formats_hour_first as H.
  induction H as [|fmt fs (d & items & Hd & Hc) _ IH]; [reflexivity|].
  simpl. unfold strptime_time, Strptime.strptime. rewrite Hc.
  rewrite hour_first_needs_digit by assumption. simpl. exact IH.
Qed.

Lemma has_digit_head s : has_digit s = false -> starts_with_digit s = false.
Proof. destruct s; simpl; [reflexivity|]. now intros [? _]%orb_false_iff. Qed.

(** ** The search of the pattern *)

Lemma match_at_None s : TimePattern.match_at s = None <-> starts_with_digit s = false.
Proof.
  unfold TimePattern.match_at, TimePattern.hour_digits.
  destruct s as [|c1 s]; simpl; [tauto|].
  destruct (Py.isdecimal c1); [|tauto].
  destruct s as [|c2 s]; [|destruct (Py.isdecimal c2)];
    destruct (TimePattern.minute_digits _); split; discriminate.
Qed.

Lemma search_None s : TimePattern.search s = None <-> has_digit s = false.
Proof.
  induction s as [|c s IH].
  - simpl. tauto.
  - cbn [TimePattern.search]. destruct (TimePattern.match_at (c :: s)) eqn:E.
    + split; [discriminate|]. intros H. apply has_digit_head in H.
      apply match_at_None in H. congruence.
    + apply match_at_None in E. simpl in E. simpl. rewrite E. simpl. exact IH.
Qed.

Lemma strptime_time_not_CouldNotParse s fmt o :
  strptime_time s fmt <> Raise (ValueError (CouldNotParseTimeString o)).
Proof.
  unfold strptime_time, Strptime.strptime, bind.
  destruct (Strptime.compile fmt false); [|discriminate].
  destruct (Strptime.re_match l s) as [[gs [|c rest]]|]; try discriminate.
  destruct (_ && _); discriminate.
Qed.

Lemma try_formats_returns s fs : exists r, try_formats s fs = Return r.
Proof.
  pose proof (try_formats_first s fs) as H.
  destruct (try_formats s fs); [eauto | contradiction].
Qed.

(** C4, as the code has it.  The time parse fails with the error that
    carries the original input exactly when the input holds no decimal
    digit.  A string with a digit never fails that way, however irregular:
    in "half past 5" the unanchored pattern finds the hour 5. *)
Theorem unparseable_iff_no_digit :
  (forall raw o,
     parse_event_time raw = Raise (ValueError (CouldNotParseTimeString o))
     <-> o = raw /\ has_digit raw = false)
  /\ parse_event_time "half past five"
     = Raise (ValueError (CouldNotParseTimeString "half past five")).
Proof.
  split; [|vm_compute; reflexivity].
  intros raw o. unfold parse_event_time.
  destruct (try_formats_returns (clean_time_string raw) time_formats) as [r Hr].
  rewrite Hr. cbn [bind].
  destruct (has_digit raw) eqn:D.
  - split; [|intros [_ ?]; discriminate]. intros H. exfalso.
    destruct r as [t|]; [discriminate|].
    destruct (TimePattern.search (clean_time_string raw)) as [m|] eqn:S.
    + now apply strptime_time_not_CouldNotParse in H.
    + apply search_None in S. rewrite has_digit_clean in S. congruence.
  - rewrite <- has_digit_clean in D.
    rewrite (try_formats_needs_digit _ (has_digit_head _ D)) in Hr.
    injection Hr as <-. apply search_None in D. rewrite D.
    split; [intros [= <-]; auto | intros [-> _]; reflexivity].
Qed.

(** "half past 5" does not fail: it is read as five o'clock. *)
Lemma half_past_5_parses :
  parse_event_time "half past 5" = Return (mk_time 5 0 0)
  /\ forall o, parse_event_time "half past 5"
               <> Raise (ValueError (CouldNotParseTimeString o)).
Proof.
  assert (E : parse_event_time "half past 5" = Return (mk_time 5 0 0))
    by (vm_compute; reflexivity).
  split; [exact E|]. intros o. rewrite E. discriminate.
Qed.

Lemma unparseable_iff_no_digit_witness :
  parse_event_time "noon" = Raise (ValueError (CouldNotParseTimeString "noon")).
Proof.
  apply (proj1 unparseable_iff_no_digit "noon" "noon").
  split; [reflexivity | vm_compute; reflexivity].
Defined.

(** * What the regex fallback computes *)

Lemma Py_eq_true a b : Py.eq a b = true <-> a = b.
Proof. unfold Py.eq. apply bool_decide_eq_true. Qed.

Lemma isdecimal_not_space c : Py.isdecimal c = true -> Py.isspace c = false.
Proof.
  intros H. destruct (Py.isspace c) eqn:E; [|reflexivity].
  apply isspace_not_decimal in E. congruence.
Qed.

Lemma digit_value_le c : Py.isdecimal c = true -> (Py.digit_value c <= 9)%N.
Proof.
  unfold Py.isdecimal, Py.between, Py.digit_value.
  rewrite andb_true_iff, !N.leb_le. lia.
Qed.

Lemma int_le_99 g :
  forallb Py.isdecimal g = true -> length g <= 2 -> (Py.int g <= 99)%N.
Proof.
  destruct g as [|c1 [|c2 [|c3 g]]]; simpl; intros H L; try lia.
  - vm_compute. discriminate.
  - apply andb_true_iff in H as [H1 _]. unfold Py.int. simpl.
    rewrite (isdecimal_not_space c1 H1). simpl.
    pose proof (digit_value_le c1 H1). lia.
  - apply andb_true_iff in H as [H1 H]. apply andb_true_iff in H as [H2 _].
    unfold Py.int. simpl. rewrite (isdecimal_not_space c1 H1). simpl.
    pose proof (digit_value_le c1 H1). pose proof (digit_value_le c2 H2). lia.
Qed.

Lemma hour_digits_spec s g rest :
  TimePattern.hour_digits s = Some (g, rest) ->
  s = g ++ rest /\ 1 <= length g <= 2 /\ forallb Py.isdecimal g = true.
Proof.
  unfold TimePattern.hour_digits. destruct s as [|c1 s]; [discriminate|].
  destruct (Py.isdecimal c1) eqn:H1; [|discriminate].
  destruct s as [|c2 s].
  - intros [= <- <-]. simpl. rewrite H1. repeat split; lia.
  - destruct (Py.isdecimal c2) eqn:H2; intros [= <- <-]; simpl;
      rewrite H1, ?H2; repeat split; lia.
Qed.

Lemma minute_digits_spec s g rest :
  TimePattern.minute_digits s = (Some g, rest) ->
  length g = 2 /\ forallb Py.isdecimal g = true.
Proof.
  unfold TimePattern.minute_digits. destruct s as [|c1 [|c2 s]]; try discriminate.
  destruct (Py.isdecimal c1 && Py.isdecimal c2) eqn:E; [|discriminate].
  intros [= <- <-]. simpl. apply andb_true_iff in E as [-> ->]. auto.
Qed.

Lemma meridiem_spec s p :
  TimePattern.meridiem s = Some p ->
  In p [ "am" : str; "pm" : str; "AM" : str; "PM" : str ].
Proof. unfold TimePattern.meridiem. intros H. now apply find_some in H as [H _]. Qed.

Lemma match_at_spec s m :
  TimePattern.match_at s = Some m ->
  (exists rest, s = TimePattern.group1 m ++ rest)
  /\ (1 <= length (TimePattern.group1 m) <= 2
      /\ forallb Py.isdecimal (TimePattern.group1 m) = true)
  /\ (forall g, TimePattern.group2 m = Some g ->
        length g = 2 /\ forallb Py.isdecimal g = true)
  /\ (forall p, TimePattern.group3 m = Some p ->
        In p [ "am" : str; "pm" : str; "AM" : str; "PM" : str ]).
Proof.
  unfold TimePattern.match_at.
  destruct (TimePattern.hour_digits s) as [[g1 s1]|] eqn:H1; [|discriminate].
  destruct (TimePattern.minute_digits (TimePattern.colon s1)) as [g2 s2] eqn:H2.
  intros [= <-]. simpl. apply hour_digits_spec in H1 as (-> & L & D).
  split; [eauto|]. split; [auto|]. split.
  - intros g ->. eapply minute_digits_spec; eauto.
  - intros p. apply meridiem_spec.
Qed.

Lemma colon_layout s :
  exists sep, s = sep ++ TimePattern.colon s /\ (sep = [] \/ sep = (":" : str)).
Proof.
  destruct s as [|c s]; [exists []; auto|]. unfold TimePattern.colon.
  destruct (Ascii.eqb_spec c ":") as [->|].
  - exists ":". auto.
  - exists []. auto.
Qed.

Lemma minute_digits_layout s g rest :
  TimePattern.minute_digits s = (g, rest) -> s = default [] g ++ rest.
Proof.
  unfold TimePattern.minute_digits. destruct s as [|c1 [|c2 s]]; try (now intros [= <- <-]).
  destruct (_ && _); now intros [= <- <-].
Qed.

Lemma meridiem_layout s :
  exists tail, s = default [] (TimePattern.meridiem s) ++ tail.
Proof.
  destruct (TimePattern.meridiem s) as [p|] eqn:E; [|exists s; reflexivity].
  unfold TimePattern.meridiem in E. apply find_some in E as [_ E].
  apply startswith_prefix in E as [tail ->]. eauto.
Qed.

(** How a match lies in the string: hour, optional colon, optional
    minute, white space, optional marker. *)
Lemma match_at_layout s m :
  TimePattern.match_at s = Some m ->
  exists sep ws tail,
    s = TimePattern.group1 m ++ sep ++ default [] (TimePattern.group2 m)
          ++ ws ++ default [] (TimePattern.group3 m) ++ tail
    /\ (sep = [] \/ sep = (":" : str)) /\ all_space ws.
Proof.
  unfold TimePattern.match_at.
  destruct (TimePattern.hour_digits s) as [[g1 s1]|] eqn:H1; [|discriminate].
  destruct (TimePattern.minute_digits (TimePattern.colon s1)) as [g2 s2] eqn:H2.
  intros [= <-]. cbn [TimePattern.group1 TimePattern.group2 TimePattern.group3].
  apply hour_digits_spec in H1 as (-> & _).
  destruct (colon_layout s1) as (sep & E1 & Hsep).
  apply minute_digits_layout in H2.
  destruct (lstrip_split s2) as (ws & Hws & E2).
  destruct (meridiem_layout (Py.lstrip s2)) as (tail & E3).
  exists sep, ws, tail. split; [|auto].
  rewrite <- E3, <- E2, <- H2, <- E1. reflexivity.
Qed.

(** The search stops at the first digit of the string. *)
Lemma search_spec s m :
  TimePattern.search s = Some m ->
  exists pre rest, s = pre ++ rest /\ has_digit pre = false
                   /\ TimePattern.match_at rest = Some m.
Proof.
  induction s as [|c s IH]; cbn [TimePattern.search].
  - destruct (TimePattern.match_at []) eqn:E; [|discriminate].
    intros [= <-]. exists [], []. auto.
  - destruct (TimePattern.match_at (c :: s)) eqn:E.
    + intros [= <-]. exists [], (c :: s). auto.
    + intros H. destruct (IH H) as (pre & rest & -> & Hpre & Hm).
      apply match_at_None in E. simpl in E.
      exists (c :: pre), rest. simpl. rewrite E. auto.
Qed.

Lemma HM_round_trip :
  forallb2 (fun h m =>
              returns_time (strptime_time (Py.fmt_02d h ++ ":" ++ Py.fmt_02d m) "%H:%M")
                           (mk_time h m 0))
           (upto 23) (upto 59) = true.
Proof. vm_compute. reflexivity. Qed.

Lemma HM_out_of_range :
  forallb2 (fun h m =>
              ((h <=? 23)%N && (m <=? 59)%N)
              || raises_ValueError
                   (strptime_time (Py.fmt_02d h ++ ":" ++ Py.fmt_02d m) "%H:%M"))
           (upto 111) (upto 99) = true.
Proof. vm_compute. reflexivity. Qed.

Lemma forallb2_true {A B} (P : A -> B -> bool) la lb :
  forallb2 P la lb = true -> forall a b, In a la -> In b lb -> P a b = true.
Proof.
  unfold forallb2. intros H a b Ha Hb.
  rewrite forallb_forall in H. specialize (H a Ha). cbv beta in H.
  rewrite forallb_forall in H. exact (H b Hb).
Qed.

Lemma strptime_HM_in_range h m :
  (h <= 23)%N -> (m <= 59)%N ->
  strptime_time (Py.fmt_02d h ++ ":" ++ Py.fmt_02d m) "%H:%M" = Return (mk_time h m 0).
Proof.
  intros Hh Hm. apply returns_time_eq.
  pose proof (forallb2_true _ _ _ HM_round_trip h m (In_upto 23 h Hh) (In_upto 59 m Hm)) as H.
  cbv beta in H. exact H.
Qed.

Lemma raises_ValueError_inv {A} (r : result A) :
  raises_ValueError r = true -> exists e, r = Raise (ValueError e).
Proof. destruct r as [|[]]; try discriminate. eauto. Qed.

Lemma strptime_HM_out_of_range h m :
  (h <= 111)%N -> (m <= 99)%N -> (23 < h \/ 59 < m)%N ->
  exists e, strptime_time (Py.fmt_02d h ++ ":" ++ Py.fmt_02d m) "%H:%M"
            = Raise (ValueError e).
Proof.
  intros Hh Hm Hout. apply raises_ValueError_inv.
  pose proof (forallb2_true _ _ _ HM_out_of_range h m (In_upto 111 h Hh) (In_upto 99 m Hm)) as H.
  cbv beta in H. apply orb_true_iff in H as [H|H]; [|exact H].
  apply andb_true_iff in H as [H1 H2]. apply N.leb_le in H1, H2. lia.
Qed.

Lemma adjust_hour_le hour period : (adjust_hour hour period <= hour + 12)%N.
Proof.
  unfold adjust_hour. destruct period as [p|]; [|lia].
  destruct (_ && _); [lia|]. destruct (_ && _); lia.
Qed.

Lemma clean_depends_on_lower a b :
  Py.lower a = Py.lower b -> clean_time_string a = clean_time_string b.
Proof. unfold clean_time_string. now intros ->. Qed.

Lemma parse_fallback raw m :
  try_formats (clean_time_string raw) time_formats = Return None ->
  TimePattern.search (clean_time_string raw) = Some m ->
  parse_event_time raw = time_of_match m.
Proof. intros H1 H2. unfold parse_event_time. rewrite H1. cbn [bind]. now rewrite H2. Qed.

(** ** The pattern is greedy *)

Lemma hour_digits_greedy s g rest :
  TimePattern.hour_digits s = Some (g, rest) ->
  s = g ++ rest /\ forallb Py.isdecimal g = true
  /\ (length g = 2 \/ (length g = 1 /\ starts_with_digit rest = false)).
Proof.
  unfold TimePattern.hour_digits. destruct s as [|c1 s]; [discriminate|].
  destruct (Py.isdecimal c1) eqn:H1; [|discriminate].
  destruct s as [|c2 s].
  - intros [= <- <-]. cbn [forallb]. rewrite H1. auto.
  - destruct (Py.isdecimal c2) eqn:H2; intros [= <- <-]; cbn [forallb starts_with_digit];
      rewrite H1, ?H2; auto.
Qed.

Lemma colon_greedy s :
  exists sep, s = sep ++ TimePattern.colon s
              /\ (sep = (":" : str)
                  \/ (sep = [] /\ Py.startswith (TimePattern.colon s) ":" = false)).
Proof.
  destruct s as [|c s]; [exists []; auto|]. unfold TimePattern.colon.
  destruct (Ascii.eqb_spec c ":") as [->|Hc].
  - exists ":". auto.
  - exists []. split; [reflexivity|]. right. split; [reflexivity|].
    change (Py.startswith (c :: s) ":") with (Ascii.eqb ":" c && Py.startswith s []).
    destruct (Ascii.eqb_spec ":" c) as [<-|]; [congruence | reflexivity].
Qed.

Lemma minute_digits_greedy s g rest :
  TimePattern.minute_digits s = (g, rest) ->
  s = default [] g ++ rest
  /\ match g with
     | Some g' => length g' = 2 /\ forallb Py.isdecimal g' = true
     | None => starts_with_two_digits rest = false
     end.
Proof.
  unfold TimePattern.minute_digits. destruct s as [|c1 [|c2 s]];
    try (intros [= <- <-]; auto).
  destruct (Py.isdecimal c1 && Py.isdecimal c2) eqn:E; intros [= <- <-].
  - apply andb_true_iff in E as [E1 E2]. cbn [default forallb]. rewrite E1, E2. auto.
  - split; [reflexivity | exact E].
Qed.

Lemma lstrip_head s : starts_with_space (Py.lstrip s) = false.
Proof.
  induction s as [|c s IH]; [reflexivity|]. cbn [Py.lstrip].
  destruct (Py.isspace c) eqn:E; [exact IH | exact E].
Qed.

Lemma meridiem_greedy s :
  exists tail, s = default [] (TimePattern.meridiem s) ++ tail
               /\ match TimePattern.meridiem s with
                  | Some p => In p markers
                  | None => forall p, In p markers -> Py.startswith tail p = false
                  end.
Proof.
  destruct (TimePattern.meridiem s) as [p|] eqn:E.
  - unfold TimePattern.meridiem in E. apply find_some in E as [I E].
    apply startswith_prefix in E as [tail ->]. exists tail. auto.
  - exists s. split; [reflexivity|]. intros p Hp.
    unfold TimePattern.meridiem in E. exact (find_none _ _ E p Hp).
Qed.

Lemma match_at_extracted s m : TimePattern.match_at s = Some m -> extracted_at s m.
Proof.
  unfold TimePattern.match_at.
  destruct (TimePattern.hour_digits s) as [[g1 s1]|] eqn:H1; [|discriminate].
  destruct (TimePattern.minute_digits (TimePattern.colon s1)) as [g2 s2] eqn:H2.
  intros [= <-]. unfold extracted_at.
  cbn [TimePattern.group1 TimePattern.group2 TimePattern.group3].
  apply hour_digits_greedy in H1 as (-> & D1 & G1).
  destruct (colon_greedy s1) as (sep & E1 & Hsep).
  apply minute_digits_greedy in H2 as (E2 & G2).
  destruct (lstrip_split s2) as (ws & Hws & E3).
  destruct (meridiem_greedy (Py.lstrip s2)) as (tail & E4 & G4).
  assert (T3 : ws ++ default [] (TimePattern.meridiem (Py.lstrip s2)) ++ tail = s2)
    by (now rewrite <- E4, <- E3).
  assert (T2 : default [] g2 ++ ws
                 ++ default [] (TimePattern.meridiem (Py.lstrip s2)) ++ tail
               = TimePattern.colon s1) by (now rewrite T3, <- E2).
  exists sep, ws, tail.
  split; [rewrite T2, <- E1; reflexivity|]. split; [exact D1|].
  split.
  { destruct G1 as [L | [L N]]; [now left|]. right. split; [exact L|].
    rewrite T2, <- E1. exact N. }
  split.
  { destruct Hsep as [-> | [-> N]]; [now left|]. right. split; [reflexivity|].
    rewrite T2. exact N. }
  split; [destruct g2; [exact G2 | rewrite T3; exact G2]|].
  split; [exact Hws|].
  split; [rewrite <- E4; apply lstrip_head | exact G4].
Qed.

Lemma search_extracted s m : TimePattern.search s = Some m -> extracted s m.
Proof.
  intros H. destruct (search_spec _ _ H) as (pre & rest & E & Hpre & Hat).
  exists pre, rest. split; [exact E|]. split; [exact Hpre|].
  now apply match_at_extracted.
Qed.

Lemma hour_digits_intro h r :
  forallb Py.isdecimal h = true ->
  (length h = 2 \/ (length h = 1 /\ starts_with_digit r = false)) ->
  TimePattern.hour_digits (h ++ r) = Some (h, r).
Proof.
  intros D [L | [L N]].
  - destruct h as [|a [|b [|]]]; try discriminate L. cbn [forallb] in D.
    apply andb_true_iff in D as [Da D]. apply andb_true_iff in D as [Db _].
    change ([a; b] ++ r) with (a :: b :: r). unfold TimePattern.hour_digits.
    now rewrite Da, Db.
  - destruct h as [|a [|]]; try discriminate L. cbn [forallb] in D.
    apply andb_true_iff in D as [Da _].
    change ([a] ++ r) with (a :: r). unfold TimePattern.hour_digits. rewrite Da.
    destruct r as [|c r]; [reflexivity|]. cbn [starts_with_digit] in N. now rewrite N.
Qed.

Lemma colon_intro sep r :
  (sep = (":" : str) \/ (sep = [] /\ Py.startswith r ":" = false)) ->
  TimePattern.colon (sep ++ r) = r.
Proof.
  intros [-> | [-> N]]; [reflexivity|]. change ([] ++ r) with r.
  destruct r as [|c r]; [reflexivity|]. unfold TimePattern.colon.
  change (Py.startswith (c :: r) ":") with (Ascii.eqb ":" c && Py.startswith r []) in N.
  destruct (Ascii.eqb_spec c ":") as [->|]; [|reflexivity].
  rewrite Ascii.eqb_refl in N. destruct r; discriminate N.
Qed.

Lemma minute_digits_intro g r :
  match g with
  | Some g' => length g' = 2 /\ forallb Py.isdecimal g' = true
  | None => starts_with_two_digits r = false
  end ->
  TimePattern.minute_digits (default [] g ++ r) = (g, r).
Proof.
  destruct g as [g|].
  - change (default [] (Some g) ++ r) with (g ++ r).
    intros [L D]. destruct g as [|a [|b [|]]]; try discriminate L. cbn [forallb] in D.
    apply andb_true_iff in D as [Da D]. apply andb_true_iff in D as [Db _].
    change ([a; b] ++ r) with (a :: b :: r). unfold TimePattern.minute_digits.
    now rewrite Da, Db.
  - intros N. change (default [] None ++ r) with r. unfold TimePattern.minute_digits.
    destruct r as [|c1 [|c2 r]]; try reflexivity.
    cbn [starts_with_two_digits] in N. now rewrite N.
Qed.

Lemma lstrip_intro ws r :
  forallb Py.isspace ws = true -> starts_with_space r = false -> Py.lstrip (ws ++ r) = r.
Proof.
  intros Hws N. rewrite (lstrip_space_prefix ws r Hws).
  destruct r as [|c r]; [reflexivity|]. cbn [starts_with_space] in N.
  cbn [Py.lstrip]. now rewrite N.
Qed.

Lemma meridiem_intro p tail :
  match p with
  | Some q => In q markers
  | None => forall q, In q markers -> Py.startswith tail q = false
  end ->
  TimePattern.meridiem (default [] p ++ tail) = p.
Proof.
  destruct p as [q|].
  - change (default [] (Some q) ++ tail) with (q ++ tail).
    intros [<-|[<-|[<-|[<-|[]]]]]; unfold TimePattern.meridiem; destruct tail; reflexivity.
  - intros N. change (default [] None ++ tail) with tail. unfold TimePattern.meridiem.
    cbn [find]. rewrite !N by (unfold markers; simpl; auto). reflexivity.
Qed.

Lemma extracted_at_match s m : extracted_at s m -> TimePattern.match_at s = Some m.
Proof.
  destruct m as [g1 g2 g3]. unfold extracted_at.
  cbn [TimePattern.group1 TimePattern.group2 TimePattern.group3].
  intros (sep & ws & tail & -> & D1 & G1 & Hsep & G2 & Hws & N3 & G4).
  unfold TimePattern.match_at.
  rewrite (hour_digits_intro g1 _ D1 G1), (colon_intro sep _ Hsep),
    (minute_digits_intro g2 _ G2), (lstrip_intro ws _ Hws N3), (meridiem_intro g3 tail G4).
  reflexivity.
Qed.

Lemma search_skip pre rest :
  existsb Py.isdecimal pre = false ->
  TimePattern.search (pre ++ rest) = TimePattern.search rest.
Proof.
  induction pre as [|c pre IH]; [reflexivity|]. cbn [existsb].
  intros [Hc Hpre]%orb_false_iff.
  change ((c :: pre) ++ rest) with (c :: (pre ++ rest)). cbn [TimePattern.search].
  assert (N : TimePattern.match_at (c :: pre ++ rest) = None).
  { unfold TimePattern.match_at, TimePattern.hour_digits. now rewrite Hc. }
  rewrite N. now apply IH.
Qed.

Lemma extracted_search s m : extracted s m -> TimePattern.search s = Some m.
Proof.
  intros (pre & rest & -> & Hpre & Hat). rewrite (search_skip pre rest Hpre).
  apply extracted_at_match in Hat. destruct rest; cbn [TimePattern.search]; now rewrite Hat.
Qed.

(** C5. When no format parses the cleaned string, the pattern is searched:
    the hour is the first one or two digits of the string (two when there
    are two), the minute two digits behind an optional colon (0 when there
    are none), the marker one of am, pm, AM, PM behind optional white
    space; the search finds exactly that, and finds something whenever the
    string has a digit; the input's own case plays no part.  With a marker,
    pm adds 12 to an hour other than 12 and am turns 12 into 0; the time
    is what "%H:%M" reads in the zero-padded hour and minute.  So
    "11 pm sharp" gives 23:00:00 and "12:15 am sharp" gives 00:15:00. *)
Theorem regex_fallback :
  (forall raw m,
     try_formats (clean_time_string raw) time_formats = Return None ->
     TimePattern.search (clean_time_string raw) = Some m ->
     let hour := Py.int (TimePattern.group1 m) in
     let minute := match TimePattern.group2 m with
                   | Some g => Py.int g
                   | None => 0%N
                   end in
     let hour' := adjust_hour hour (TimePattern.group3 m) in
     (exists pre sep ws tail,
        clean_time_string raw
        = pre ++ TimePattern.group1 m ++ sep ++ default [] (TimePattern.group2 m)
            ++ ws ++ default [] (TimePattern.group3 m) ++ tail
        /\ has_digit pre = false /\ (sep = [] \/ sep = (":" : str)) /\ all_space ws)
     /\ (1 <= length (TimePattern.group1 m) <= 2
         /\ forallb Py.isdecimal (TimePattern.group1 m) = true)
     /\ (forall g, TimePattern.group2 m = Some g ->
           length g = 2 /\ forallb Py.isdecimal g = true)
     /\ (forall p, TimePattern.group3 m = Some p ->
           In p [ "am" : str; "pm" : str; "AM" : str; "PM" : str ])
     /\ (forall p, TimePattern.group3 m = Some p -> Py.lower p = ("pm" : str) ->
           hour <> 12%N -> hour' = (hour + 12)%N)
     /\ (forall p, TimePattern.group3 m = Some p -> Py.lower p = ("am" : str) ->
           hour = 12%N -> hour' = 0%N)
     /\ (TimePattern.group3 m = None -> hour' = hour)
     /\ (forall p, TimePattern.group3 m = Some p -> Py.lower p = ("pm" : str) ->
           hour = 12%N -> hour' = hour)
     /\ (forall p, TimePattern.group3 m = Some p -> Py.lower p = ("am" : str) ->
           hour <> 12%N -> hour' = hour)
     /\ parse_event_time raw
        = strptime_time (Py.fmt_02d hour' ++ ":" ++ Py.fmt_02d minute) "%H:%M"
     /\ ((hour' <= 23)%N -> (minute <= 59)%N ->
         parse_event_time raw = Return (mk_time hour' minute 0))
     /\ ((23 < hour' \/ 59 < minute)%N ->
         exists e, parse_event_time raw = Raise (ValueError e)))
  /\ (forall a b, Py.lower a = Py.lower b ->
        clean_time_string a = clean_time_string b)
  /\ (forall s m, TimePattern.search s = Some m <-> extracted s m)
  /\ (forall s, has_digit s = true -> exists m, TimePattern.search s = Some m)
  /\ (try_formats (clean_time_string "11 pm sharp") time_formats = Return None
      /\ TimePattern.search (clean_time_string "11 pm sharp")
         = Some (TimePattern.mk_groups "11" None (Some ("PM" : str)))
      /\ parse_event_time "11 pm sharp" = Return (mk_time 23 0 0))
  /\ (try_formats (clean_time_string "12:15 am sharp") time_formats = Return None
      /\ TimePattern.search (clean_time_string "12:15 am sharp")
         = Some (TimePattern.mk_groups "12" (Some ("15" : str)) (Some ("AM" : str)))
      /\ parse_event_time "12:15 am sharp" = Return (mk_time 0 15 0)).
Proof.
  split; [|split; [exact clean_depends_on_lower|split; [|split;
    [|repeat split; vm_compute; reflexivity]]]].
  2: { intros s m. split; [apply search_extracted | apply extracted_search]. }
  2: { intros s Hs. destruct (TimePattern.search s) as [m|] eqn:E; [eauto|].
       apply search_None in E. congruence. }
  intros raw m Hnone Hsearch hour minute hour'.
  pose proof (parse_fallback raw m Hnone Hsearch) as Hparse.
  destruct (search_spec _ _ Hsearch) as (pre & rest & Hsplit & Hpre & Hat).
  destruct (match_at_spec _ _ Hat) as (_ & [Hlen Hdig] & Hmin & Hmer).
  destruct (match_at_layout _ _ Hat) as (sep & ws & tail & Htail & Hsep & Hws).
  assert (Hhour : (hour <= 99)%N) by (apply int_le_99; [exact Hdig | lia]).
  assert (Hminute : (minute <= 99)%N).
  { unfold minute. destruct (TimePattern.group2 m) as [g|] eqn:G; [|lia].
    destruct (Hmin g eq_refl) as [L D]. apply int_le_99; [exact D | lia]. }
  pose proof (adjust_hour_le hour (TimePattern.group3 m)) as Hadj.
  fold hour' in Hadj.
  assert (Hpm : forall p, TimePattern.group3 m = Some p ->
                  Py.eq (Py.lower p) "pm" = true ->
                  hour' = if (hour =? 12)%N then hour else (hour + 12)%N).
  { intros p Hp E. unfold hour', adjust_hour. rewrite Hp, E.
    destruct (hour =? 12)%N eqn:H12; simpl; [|reflexivity].
    apply Py_eq_true in E. rewrite E. reflexivity. }
  assert (Ham : forall p, TimePattern.group3 m = Some p ->
                  Py.eq (Py.lower p) "am" = true ->
                  hour' = if (hour =? 12)%N then 0%N else hour).
  { intros p Hp E. unfold hour', adjust_hour. rewrite Hp, E.
    apply Py_eq_true in E. rewrite E. simpl.
    destruct (hour =? 12)%N; reflexivity. }
  repeat split.
  - exists pre, sep, ws, tail. split; [now rewrite Hsplit, Htail | auto].
  - lia.
  - lia.
  - exact Hdig.
  - apply (Hmin g H).
  - apply (Hmin g H).
  - exact Hmer.
  - intros p Hp E Hne. rewrite (Hpm p Hp) by now apply Py_eq_true.
    apply N.eqb_neq in Hne. now rewrite Hne.
  - intros p Hp E He. rewrite (Ham p Hp) by now apply Py_eq_true.
    apply N.eqb_eq in He. now rewrite He.
  - intros Hp. unfold hour', adjust_hour. now rewrite Hp.
  - intros p Hp E He. rewrite (Hpm p Hp) by now apply Py_eq_true.
    apply N.eqb_eq in He. now rewrite He.
  - intros p Hp E Hne. rewrite (Ham p Hp) by now apply Py_eq_true.
    apply N.eqb_neq in Hne. now rewrite Hne.
  - exact Hparse.
  - intros H1 H2. rewrite Hparse. now apply (strptime_HM_in_range hour' minute).
  - intros Hout. rewrite Hparse. apply (strptime_HM_out_of_range hour' minute); lia.
Qed.

Lemma regex_fallback_witness :
  parse_event_time "5:30 pm onwards today" = Return (mk_time 17 30 0).
Proof.
  pose proof (proj1 regex_fallback "5:30 pm onwards today"
                (TimePattern.mk_groups "5" (Some ("30" : str)) (Some ("PM" : str)))) as H.
  cbv zeta in H.
  assert (H1 : try_formats (clean_time_string "5:30 pm onwards today") time_formats
               = Return None) by (vm_compute; reflexivity).
  assert (H2 : TimePattern.search (clean_time_string "5:30 pm onwards today")
               = Some (TimePattern.mk_groups "5" (Some ("30" : str)) (Some ("PM" : str))))
    by (vm_compute; reflexivity).
  specialize (H H1 H2).
  destruct H as (_ & _ & _ & _ & _ & _ & _ & _ & _ & _ & H & _).
  apply H; vm_compute; discriminate.
Defined.

(** * The order of the queries *)

Lemma date_leb_spec a b :
  date_leb a b = true <->
  (year a < year b
   \/ (year a = year b /\ (month a < month b \/ (month a = month b /\ day a <= day b))))%N.
Proof.
  unfold date_leb.
  rewrite !orb_true_iff, !andb_true_iff, !orb_true_iff, !andb_true_iff,
          !N.ltb_lt, !N.eqb_eq, N.leb_le. tauto.
Qed.

Lemma time_leb_spec a b :
  time_leb a b = true <->
  (hour a < hour b
   \/ (hour a = hour b
       /\ (minute a < minute b \/ (minute a = minute b /\ second a <= second b))))%N.
Proof.
  unfold time_leb.
  rewrite !orb_true_iff, !andb_true_iff, !orb_true_iff, !andb_true_iff,
          !N.ltb_lt, !N.eqb_eq, N.leb_le. tauto.
Qed.

Lemma date_leb_total a b : date_leb a b = true \/ date_leb b a = true.
Proof. rewrite !date_leb_spec. lia. Qed.

Lemma date_leb_trans a b c :
  date_leb a b = true -> date_leb b c = true -> date_leb a c = true.
Proof. rewrite !date_leb_spec. lia. Qed.

Lemma time_leb_total a b : time_leb a b = true \/ time_leb b a = true.
Proof. rewrite !time_leb_spec. lia. Qed.

Lemma time_leb_trans a b c :
  time_leb a b = true -> time_leb b c = true -> time_leb a c = true.
Proof. rewrite !time_leb_spec. lia. Qed.

Lemma date_eqb_eq a b : date_eqb a b = true <-> a = b.
Proof.
  destruct a, b. unfold date_eqb. simpl.
  rewrite !andb_true_iff, !N.eqb_eq. split; [intros [[-> ->] ->]; reflexivity|].
  intros [= -> -> ->]. auto.
Qed.

Section NullsLast.

Context {A : Type} (leb : A -> A -> bool).
Hypothesis leb_total : forall a b, leb a b = true \/ leb b a = true.
Hypothesis leb_trans : forall a b c, leb a b = true -> leb b c = true -> leb a c = true.

Lemma nulls_last_total x y :
  Sql.nulls_last leb x y = true \/ Sql.nulls_last leb y x = true.
Proof. destruct x, y; simpl; auto. Qed.

Lemma nulls_last_trans x y z :
  Sql.nulls_last leb x y = true -> Sql.nulls_last leb y z = true ->
  Sql.nulls_last leb x z = true.
Proof. destruct x, y, z; simpl; eauto; discriminate. Qed.

End NullsLast.

#[global] Instance by_event_date_total : Total by_event_date.
Proof. intros a b. apply nulls_last_total, date_leb_total. Qed.

#[global] Instance by_event_date_trans : Transitive by_event_date.
Proof. intros a b c. apply nulls_last_trans, date_leb_trans. Qed.

#[global] Instance by_event_time_total : Total by_event_time.
Proof. intros a b. apply nulls_last_total, time_leb_total. Qed.

#[global] Instance by_event_time_trans : Transitive by_event_time.
Proof. intros a b c. apply nulls_last_trans, time_leb_trans. Qed.

(** * Handlers *)

Lemma query_reachable w where_ order `{!forall a b, Decision (order a b)} db :
  db_reachable w = true ->
  query w where_ order db
  = (Return (merge_sort order (List.filter where_ (posters db))), db).
Proof. unfold query. now intros ->. Qed.

Lemma query_unreachable w where_ order `{!forall a b, Decision (order a b)} db :
  db_reachable w = false ->
  query w where_ order db = (Raise DatabaseError, db).
Proof. unfold query. now intros ->. Qed.

Lemma query_read_only w where_ order `{!forall a b, Decision (order a b)} db :
  snd (query w where_ order db) = db.
Proof. unfold query. now destruct (db_reachable w). Qed.

(** The list comprehension over the rows found. *)
Lemma comprehension_dated events :
  Forall (fun p => Poster.event_date p <> None) events ->
  exists js, comprehension event_dict events = Return js
             /\ Forall2 (fun p j => event_dict p = Return j) events js.
Proof.
  induction 1 as [|p events Hp _ (js & E & F)].
  - exists []. split; [reflexivity | constructor].
  - destruct (Poster.event_date p) as [d|] eqn:D; [|congruence].
    assert (exists j, event_dict p = Return j) as [j Hj]
        by (unfold event_dict; rewrite D; eauto).
    exists (j :: js). split; [|constructor; assumption].
    cbn [comprehension]. rewrite Hj. cbn [bind]. rewrite E. reflexivity.
Qed.

Lemma comprehension_undated events :
  Exists (fun p => Poster.event_date p = None) events ->
  comprehension event_dict events = Raise AttributeError.
Proof.
  induction 1 as [p events Hp | p events _ IH]; cbn [comprehension].
  - unfold event_dict. rewrite Hp. reflexivity.
  - rewrite IH. unfold event_dict. destruct (Poster.event_date p); reflexivity.
Qed.

(** What an endpoint that lists events answers while the database is up. *)
Lemma listing_reachable w where_ order `{!forall a b, Decision (order a b)} db :
  db_reachable w = true ->
  except_Exception_500
    (do events <- query w where_ order; lift (comprehension event_dict events)) db
  = (match comprehension event_dict (merge_sort order (List.filter where_ (posters db))) with
     | Return js => Return js
     | Raise e => Raise (HTTPException 500 (StrOf e))
     end, db).
Proof.
  intros Hup. unfold except_Exception_500, htry, hbind.
  rewrite (query_reachable _ _ _ _ Hup). unfold lift.
  destruct (comprehension _ _); reflexivity.
Qed.

Lemma listing_unreachable w where_ order `{!forall a b, Decision (order a b)} db :
  db_reachable w = false ->
  except_Exception_500
    (do events <- query w where_ order; lift (comprehension event_dict events)) db
  = (Raise (HTTPException 500 (StrOf DatabaseError)), db).
Proof.
  intros Hup. unfold except_Exception_500, htry, hbind.
  rewrite (query_unreachable _ _ _ _ Hup). reflexivity.
Qed.

Lemma In_merge_sort {A} (R : relation A) `{!forall a b, Decision (R a b)} l x :
  In x (merge_sort R l) <-> In x l.
Proof.
  rewrite <- !list_elem_of_In. now rewrite merge_sort_Permutation.
Qed.

(** * Outcomes of handlers *)

Lemma outcome_ret {A} (a : A) db (Q : A -> database -> Prop) :
  Q a db -> outcome (ret a) db Q.
Proof. intros H. exact H. Qed.

Lemma outcome_raise {A} e db (Q : A -> database -> Prop) : outcome (raise e) db Q.
Proof. reflexivity. Qed.

Lemma outcome_bind_lift {A B} (r : result A) (k : A -> handler B) db Q :
  (forall a, r = Return a -> outcome (k a) db Q) ->
  outcome (do a <- lift r; k a) db Q.
Proof.
  intros H. unfold outcome, hbind, lift. destruct r as [a|e]; [|reflexivity].
  apply (H a eq_refl).
Qed.

Lemma outcome_bind_new_Poster {B} w kwargs (k : gmap string pyvalue -> handler B) db Q :
  outcome (k kwargs) db Q -> outcome (do a <- new_Poster w kwargs; k a) db Q.
Proof.
  intros H. unfold outcome, hbind, new_Poster.
  destruct (bool_decide _); [exact H|].
  destruct (construct w kwargs); [reflexivity | exact H].
Qed.

Lemma outcome_bind_ret {A B} (c : handler A) (f : A -> B) db Q :
  outcome c db (fun a db' => Q (f a) db') -> outcome (do a <- c; ret (f a)) db Q.
Proof.
  unfold outcome, hbind, ret. destruct (c db) as [[a|e] db']; auto.
Qed.

Lemma outcome_try_raise {A} (body : handler A) class (f : exn -> exn) db Q :
  outcome body db Q -> outcome (htry body class (fun e => raise (f e))) db Q.
Proof.
  unfold outcome, htry, raise. destruct (body db) as [[a|e] db']; auto.
  now destruct (class e).
Qed.

Lemma outcome_weaken {A} (c : handler A) db (Q Q' : A -> database -> Prop) :
  (forall a db', Q a db' -> Q' a db') -> outcome c db Q -> outcome c db Q'.
Proof. unfold outcome. destruct (c db) as [[a|e] db']; auto. Qed.

(** One INSERT: a row is appended, with an [id] no other row has, or
    nothing is written. *)
Lemma add_commit_refresh_outcome w kwargs db :
  outcome (add_commit_refresh w kwargs) db
    (fun row db' =>
       posters db' = posters db ++ [row]
       /\ row_of w kwargs (Poster.id row) = Some row
       /\ ~ In (Poster.id row) (map Poster.id (posters db))).
Proof.
  unfold outcome, add_commit_refresh.
  destruct (db_reachable w); [|reflexivity]. cbn [negb].
  destruct (id_column w (get kwargs "id")) as [explicit|]; [|reflexivity].
  set (choice := match explicit with
                 | Some n => (n, posters_id_seq db)
                 | None => (posters_id_seq db, (posters_id_seq db + 1)%Z)
                 end).
  destruct choice as [new_id seq].
  destruct (row_of w kwargs new_id) as [row|] eqn:R; [|reflexivity].
  destruct (existsb _ (posters db)) eqn:X; [reflexivity|].
  assert (I : Poster.id row = new_id).
  { unfold row_of in R.
    repeat match type of R with
           | context [mbind _ ?o] => destruct o; cbn [mbind option_bind] in R;
                                     [|discriminate]
           end.
    now injection R as <-. }
  cbn [posters]. rewrite I. repeat split; [exact R|].
  intros Hin. apply in_map_iff in Hin as (p & Hp & Hin).
  assert (existsb (fun p => (Poster.id p =? new_id)%Z) (posters db) = true); [|congruence].
  apply existsb_exists. exists p. split; [exact Hin|]. now apply Z.eqb_eq.
Qed.

(** [POST /analyze-poster]: on success one row went in, built from the
    data returned; on failure none. *)
Lemma analyze_poster_outcome w file db :
  outcome (analyze_poster w file) db
    (fun data db' =>
       exists row,
         posters db' = posters db ++ [row]
         /\ row_of w data (Poster.id row) = Some row
         /\ ~ In (Poster.id row) (map Poster.id (posters db))).
Proof.
  unfold analyze_poster, except_Exception_500.
  apply outcome_try_raise.
  apply outcome_bind_lift. intros _ _.
  apply outcome_bind_lift. intros response_text _.
  apply (outcome_try_raise _ _ (fun _ => _)).
  apply outcome_bind_lift. intros extracted_data _.
  unfold hbind at 1.
  unfold outcome.
  destruct (htry (lift (parse_date_and_time extracted_data)) is_ValueError _ db)
    as [[data|e] db1] eqn:E.
  - assert (db1 = db) as ->.
    { unfold htry, lift, raise in E. destruct (parse_date_and_time extracted_data);
        [now injection E | destruct (is_ValueError e); now injection E]. }
    apply outcome_bind_new_Poster.
    apply (outcome_bind_ret _ (fun _ => data)).
    eapply outcome_weaken; [|apply add_commit_refresh_outcome].
    intros row db' H. exists row. exact H.
  - unfold htry, lift, raise in E. destruct (parse_date_and_time extracted_data);
      [discriminate | destruct (is_ValueError e0); now injection E as _ <-].
Qed.

(** Every endpoint ends in the catch-all: it answers 200 or 500. *)
Lemma except_Exception_500_result {A} (body : handler A) db :
  (exists a, fst (except_Exception_500 body db) = Return a)
  \/ (exists e, fst (except_Exception_500 body db) = Raise (HTTPException 500 (StrOf e))).
Proof.
  unfold except_Exception_500, htry, raise.
  destruct (body db) as [[a|e] db']; simpl; eauto.
Qed.

Lemma hmap_result {A B} (f : A -> B) (c : handler A) db :
  fst (hmap f c db) = match fst (c db) with
                      | Return a => Return (f a)
                      | Raise e => Raise e
                      end
  /\ snd (hmap f c db) = snd (c db).
Proof. unfold hmap, hbind, ret. destruct (c db) as [[a|e] db']; auto. Qed.

Lemma app_status w req db :
  status_code (fst (app w req db)) = 200 \/ status_code (fst (app w req db)) = 500.
Proof.
  destruct req; cbn [app]; rewrite (proj1 (hmap_result _ _ _));
    unfold analyze_poster, get_upcoming_events, get_events_by_location,
      get_events_by_venue, get_events_by_department, get_events_by_column,
      get_events_by_date;
    match goal with
    | |- context [except_Exception_500 ?b ?d] =>
        destruct (except_Exception_500_result b d) as [[a ->] | [e ->]]
    end; auto.
Qed.

(** * [POST /analyze-poster], stage by stage *)

Lemma add_commit_refresh_raises w kwargs db e db' :
  add_commit_refresh w kwargs db = (Raise e, db') -> e = DatabaseError.
Proof.
  unfold add_commit_refresh. destruct (negb (db_reachable w)); [now intros [= <- _]|].
  destruct (id_column _) as [explicit|]; [|now intros [= <- _]].
  destruct (match explicit with Some n => _ | None => _ end) as [new_id seq].
  destruct (row_of _ _ _); [|now intros [= <- _]].
  destruct (existsb _ _); [now intros [= <- _] | discriminate].
Qed.

Lemma analyze_poster_unfold w file db :
  analyze_poster w file db =
  if image_open w file then
    match generate_content w file with
    | None => (Raise (HTTPException 500 (StrOf GenerationError)), db)
    | Some text =>
        match json_loads w (strip_fences text) with
        | None =>
            (Raise (HTTPException 500
                      (StrOf (HTTPException 500 (FailedToParseGeminiResponse text)))), db)
        | Some v =>
            match parse_date_and_time v with
            | Raise e =>
                (Raise (HTTPException 500
                          (StrOf (if is_ValueError e
                                  then HTTPException 400 (InvalidDateTimeInResponse e)
                                  else e))), db)
            | Return data =>
                let stored :=
                  match add_commit_refresh w data db with
                  | (Return _, db') => (Return data, db')
                  | (Raise e, db') => (Raise (HTTPException 500 (StrOf e)), db')
                  end in
                if bool_decide (dom data ⊆ list_to_set column_names) then stored
                else match construct w data with
                     | None => stored
                     | Some e =>
                         (Raise (HTTPException 500
                                   (StrOf (if is_JSONDecodeError e
                                           then HTTPException 500
                                                  (FailedToParseGeminiResponse text)
                                           else e))), db)
                     end
            end
        end
    end
  else (Raise (HTTPException 500 (StrOf UnidentifiedImageError)), db).
Proof.
  unfold analyze_poster, except_Exception_500, new_Poster, htry, hbind, lift, raise, ret.
  destruct (image_open w file); [|reflexivity].
  destruct (generate_content w file) as [text|]; [|reflexivity].
  destruct (json_loads w (strip_fences text)) as [v|]; [|reflexivity].
  destruct (parse_date_and_time v) as [data|e].
  - cbv zeta.
    destruct (bool_decide _).
    + destruct (add_commit_refresh w data db) as [[row|e] db'] eqn:E; [reflexivity|].
      now rewrite (add_commit_refresh_raises _ _ _ _ _ E).
    + destruct (construct w data) as [e|].
      * destruct (is_JSONDecodeError e); reflexivity.
      * destruct (add_commit_refresh w data db) as [[row|e] db'] eqn:E; [reflexivity|].
        now rewrite (add_commit_refresh_raises _ _ _ _ _ E).
  - destruct e; reflexivity.
Qed.

Lemma get_events_by_date_malformed w date db e :
  strptime_date date "%Y-%m-%d" = Raise e ->
  get_events_by_date w date db
  = (Raise (HTTPException 500 (StrOf (HTTPException 400 InvalidDateFormatUseYMD))), db).
Proof.
  intros H. unfold get_events_by_date, except_Exception_500, htry, hbind, lift, raise.
  rewrite H, (strptime_date_raises_ValueError _ _ _ H). reflexivity.
Qed.

Lemma analyze_poster_invalid_date_time w file db text v e :
  image_open w file = true -> generate_content w file = Some text ->
  json_loads w (strip_fences text) = Some v ->
  parse_date_and_time v = Raise e -> is_ValueError e = true ->
  analyze_poster w file db
  = (Raise (HTTPException 500
              (StrOf (HTTPException 400 (InvalidDateTimeInResponse e)))), db).
Proof.
  intros H1 H2 H3 H4 H5. rewrite analyze_poster_unfold, H1, H2, H3, H4, H5. reflexivity.
Qed.

(** C1 is not what the code does.  The handlers raise the 400 inside the
    [try] whose [except Exception] turns every exception into a 500, so
    the caller never sees a 400: a malformed date in the path and a date
    from the model that fails the strict parse both answer 500, with the
    400 left in the detail. *)
Theorem malformed_input_answers_500 :
  (forall w req db,
     status_code (fst (app w req db)) = 200 \/ status_code (fst (app w req db)) = 500)
  /\ get_events_by_date (Sample.world "") "13-01-2024" Sample.empty
     = (Raise (HTTPException 500 (StrOf (HTTPException 400 InvalidDateFormatUseYMD))),
        Sample.empty)
  /\ fst (analyze_poster
            (Sample.world (Sample.reply [("event_date" : str, "13/01/2024" : str)]))
            "poster" Sample.empty)
     = Raise (HTTPException 500
                (StrOf (HTTPException 400
                          (InvalidDateTimeInResponse
                             (ValueError (TimeDataDoesNotMatch "13/01/2024" "%Y-%m-%d")))))).
Proof.
  split; [exact app_status|]. split; vm_compute; reflexivity.
Qed.

(** * Failures of the extraction *)

Lemma get_insert_ne (d : gmap string pyvalue) k k' v :
  k <> k' -> get (<[k := v]> d) k' = get d k'.
Proof. intros H. unfold get. now rewrite lookup_insert_ne. Qed.

Lemma truthy_PyStr s : s <> [] -> truthy (PyStr s) = true.
Proof. destruct s; [congruence | reflexivity]. Qed.

Lemma parse_date_and_time_bad_date d s e :
  get d "event_date" = PyStr s -> s <> [] ->
  strptime_date s "%Y-%m-%d" = Raise e ->
  parse_date_and_time (LoadedDict d) = Raise e.
Proof.
  intros G Hs E. unfold parse_date_and_time.
  rewrite G, (truthy_PyStr s Hs), E. reflexivity.
Qed.

Lemma parse_date_and_time_bad_time d s e :
  get d "event_time" = PyStr s -> s <> [] ->
  parse_event_time s = Raise e ->
  exists e', parse_date_and_time (LoadedDict d) = Raise e'.
Proof.
  intros G Hs E. unfold parse_date_and_time.
  assert (T : forall d', get d' "event_time" = PyStr s ->
                exists e', (if truthy (get d' "event_time")
                            then match get d' "event_time" with
                                 | PyStr s =>
                                     bind (parse_event_time s)
                                       (fun t => Return (<["event_time" := PyTime t]> d'))
                                 | _ => Raise AttributeError
                                 end
                            else Return d') = Raise e').
  { intros d' G'. rewrite G', (truthy_PyStr s Hs), E. simpl. eauto. }
  destruct (truthy (get d "event_date")); [|cbn [bind]; now apply T].
  destruct (get d "event_date") as [| s0 | | | |]; try (cbn [bind]; eauto; fail).
  destruct (strptime_date s0 "%Y-%m-%d") as [v|e0]; cbn [bind]; [|eauto].
  apply T. now rewrite get_insert_ne.
Qed.

Lemma analyze_poster_failed_rows w file db e :
  fst (analyze_poster w file db) = Raise e ->
  posters (snd (analyze_poster w file db)) = posters db.
Proof.
  pose proof (analyze_poster_outcome w file db) as H. unfold outcome in H.
  destruct (analyze_poster w file db) as [[data|e'] db']; simpl; [discriminate|].
  intros _. exact H.
Qed.

(** C6. A request to [/analyze-poster] that fails leaves the rows of
    [posters] as they were; and an image that does not open, text that is
    not JSON, an [event_date] that fails the strict parse and an
    [event_time] that fails the time parse each make the request fail. *)
Theorem failed_extraction_stores_nothing :
  (forall w file db e,
     fst (analyze_poster w file db) = Raise e ->
     posters (snd (analyze_poster w file db)) = posters db)
  /\ (forall w file db,
        image_open w file = false ->
        exists e, fst (analyze_poster w file db) = Raise e)
  /\ (forall w file db text,
        generate_content w file = Some text ->
        json_loads w (strip_fences text) = None ->
        exists e, fst (analyze_poster w file db) = Raise e)
  /\ (forall w file db text d s e,
        generate_content w file = Some text ->
        json_loads w (strip_fences text) = Some (LoadedDict d) ->
        get d "event_date" = PyStr s -> s <> [] ->
        strptime_date s "%Y-%m-%d" = Raise e ->
        exists e', fst (analyze_poster w file db) = Raise e')
  /\ (forall w file db text d s e,
        generate_content w file = Some text ->
        json_loads w (strip_fences text) = Some (LoadedDict d) ->
        get d "event_time" = PyStr s -> s <> [] ->
        parse_event_time s = Raise e ->
        exists e', fst (analyze_poster w file db) = Raise e').
Proof.
  split; [exact analyze_poster_failed_rows|].
  split; [|split; [|split]].
  - intros w file db H. rewrite analyze_poster_unfold, H. simpl. eauto.
  - intros w file db text H1 H2. rewrite analyze_poster_unfold, H1, H2.
    destruct (image_open w file); simpl; eauto.
  - intros w file db text d s e H1 H2 G Hs E.
    rewrite analyze_poster_unfold, H1, H2, (parse_date_and_time_bad_date d s e G Hs E).
    destruct (image_open w file); simpl; eauto.
  - intros w file db text d s e H1 H2 G Hs E.
    destruct (parse_date_and_time_bad_time d s e G Hs E) as [e' E'].
    rewrite analyze_poster_unfold, H1, H2, E'.
    destruct (image_open w file); simpl; eauto.
Qed.

Lemma failed_extraction_stores_nothing_witness :
  let w := Sample.world "not json" in
  let db := mk_database [Sample.row 1 "City Hall" (Some Sample.the_date)] 2 in
  (exists e, fst (analyze_poster w "poster" db) = Raise e)
  /\ posters (snd (analyze_poster w "poster" db)) = posters db.
Proof.
  intros w db.
  destruct (proj1 (proj2 (proj2 failed_extraction_stores_nothing)) w "poster" db "not json")
    as [e He].
  - reflexivity.
  - vm_compute. reflexivity.
  - split; [exists e; exact He|].
    exact (proj1 failed_extraction_stores_nothing w "poster" db e He).
Defined.

(** * Read-only handlers *)

Create HintDb handlers.

Lemma read_only_ret {A} (a : A) : read_only (ret a).
Proof. intros db. reflexivity. Qed.

Lemma read_only_raise {A} e : read_only (@raise A e).
Proof. intros db. reflexivity. Qed.

Lemma read_only_lift {A} (r : result A) : read_only (lift r).
Proof. intros db. reflexivity. Qed.

Lemma read_only_hbind {A B} (c : handler A) (k : A -> handler B) :
  read_only c -> (forall a, read_only (k a)) -> read_only (hbind c k).
Proof.
  intros Hc Hk db. unfold hbind. specialize (Hc db).
  destruct (c db) as [[a|e] db']; simpl in *; subst; [apply Hk | reflexivity].
Qed.

Lemma read_only_htry {A} (body : handler A) class on_error :
  read_only body -> (forall e, read_only (on_error e)) ->
  read_only (htry body class on_error).
Proof.
  intros Hb Hh db. unfold htry. specialize (Hb db).
  destruct (body db) as [[a|e] db']; simpl in *; subst; [reflexivity|].
  destruct (class e); [apply Hh | reflexivity].
Qed.

Lemma read_only_query w where_ order `{!forall a b, Decision (order a b)} :
  read_only (query w where_ order).
Proof. intros db. apply query_read_only. Qed.

#[local] Hint Resolve read_only_ret read_only_raise read_only_lift read_only_query : handlers.
#[local] Hint Extern 2 (read_only (hbind _ _)) =>
  apply read_only_hbind; [|intros ?] : handlers.
#[local] Hint Extern 2 (read_only (htry _ _ _)) =>
  apply read_only_htry; [|intros ?] : handlers.

Lemma read_only_get_upcoming_events w : read_only (get_upcoming_events w).
Proof. unfold get_upcoming_events, except_Exception_500. auto 10 with handlers. Qed.

Lemma read_only_get_events_by_column column w value upcoming_only :
  read_only (get_events_by_column column w value upcoming_only).
Proof. unfold get_events_by_column, except_Exception_500. auto 10 with handlers. Qed.

Lemma read_only_get_events_by_date w date : read_only (get_events_by_date w date).
Proof. unfold get_events_by_date, except_Exception_500. auto 10 with handlers. Qed.

Lemma read_only_hmap {A B} (f : A -> B) c : read_only c -> read_only (hmap f c).
Proof. intros H. unfold hmap. auto with handlers. Qed.

(** * Rows *)

Lemma row_of_fields w kwargs new_id row :
  row_of w kwargs new_id = Some row ->
  Poster.id row = new_id
  /\ (exists c, created_at_column w (get kwargs "created_at") = Some c
                /\ Poster.created_at row = default (utcnow w) c)
  /\ date_column (get kwargs "event_date") = Some (Poster.event_date row)
  /\ time_column (get kwargs "event_time") = Some (Poster.event_time row)
  /\ text_column w (get kwargs "location") = Some (Poster.location row)
  /\ text_column w (get kwargs "venue") = Some (Poster.venue row)
  /\ text_column w (get kwargs "hosted_department") = Some (Poster.hosted_department row).
Proof.
  unfold row_of. intros R.
  repeat match type of R with
         | context [mbind _ ?o] => destruct o; cbn [mbind option_bind] in R;
                                   [|discriminate]
         end.
  injection R as <-. simpl. eauto 10.
Qed.

Lemma analyze_poster_stored w file db data db' :
  analyze_poster w file db = (Return data, db') ->
  exists row,
    posters db' = posters db ++ [row]
    /\ row_of w data (Poster.id row) = Some row
    /\ ~ In (Poster.id row) (map Poster.id (posters db)).
Proof.
  intros E. pose proof (analyze_poster_outcome w file db) as H.
  unfold outcome in H. now rewrite E in H.
Qed.

(** What each request does to the rows. *)
Lemma app_rows w req db :
  posters (snd (app w req db)) = posters db
  \/ exists file data row,
       req = AnalyzePoster file
       /\ fst (app w req db) = Return (Analysis data)
       /\ posters (snd (app w req db)) = posters db ++ [row]
       /\ row_of w data (Poster.id row) = Some row
       /\ ~ In (Poster.id row) (map Poster.id (posters db)).
Proof.
  destruct req; cbn [app];
    try (left; f_equal; apply read_only_hmap;
         first [ apply read_only_get_upcoming_events
               | apply read_only_get_events_by_column
               | apply read_only_get_events_by_date ]).
  destruct (hmap_result Analysis (analyze_poster w file) db) as [Hr Hs].
  rewrite Hr, Hs.
  destruct (analyze_poster w file db) as [[data|e] db'] eqn:E; simpl.
  - right. destruct (analyze_poster_stored _ _ _ _ _ E) as (row & H1 & H2 & H3).
    exists file, data, row. auto.
  - left. pose proof (analyze_poster_failed_rows w file db e) as H.
    rewrite E in H. now apply H.
Qed.

(** C9. No request changes or removes a stored row: after any request
    the table is the old table, possibly with one row more at its end; only
    [/analyze-poster] adds a row, and only when it answers 200.  The row it
    adds has an [id] no row had; its [created_at] is set then and there:
    it is the clock's when the reply brings none, and otherwise what the
    database reads from the reply's. *)
Theorem stored_records_immutable :
  forall w req db,
    exists new,
      posters (snd (app w req db)) = posters db ++ new
      /\ length new <= 1
      /\ (forall i p, posters db !! i = Some p ->
            posters (snd (app w req db)) !! i = Some p)
      /\ (forall row, In row new ->
            exists file data,
              req = AnalyzePoster file
              /\ fst (app w req db) = Return (Analysis data)
              /\ (get data "created_at" = PyNone -> Poster.created_at row = utcnow w)
              /\ (get data "created_at" <> PyNone ->
                  timestamp_in w (get data "created_at") = Some (Poster.created_at row))
              /\ ~ In (Poster.id row) (map Poster.id (posters db)))
      /\ (unique_ids db -> unique_ids (snd (app w req db))).
Proof.
  intros w req db.
  destruct (app_rows w req db) as [H | (file & data & row & -> & Hr & Hp & Hrow & Hfresh)].
  - exists []. rewrite H, app_nil_r.
    split; [reflexivity|]. split; [simpl; lia|]. split; [auto|].
    split; [intros row []|]. unfold unique_ids. now rewrite H.
  - exists [row]. rewrite Hp.
    split; [reflexivity|]. split; [simpl; lia|]. split; [|split].
    + intros i p Hi. now apply lookup_app_l_Some.
    + intros row' [<-|[]]. exists file, data.
      split; [reflexivity|]. split; [exact Hr|].
      apply row_of_fields in Hrow as (_ & (c & Hc & Hat) & _).
      split; [|split; [|exact Hfresh]].
      * intros G. rewrite G in Hc. injection Hc as <-. exact Hat.
      * intros G. unfold created_at_column in Hc.
        destruct (get data "created_at") eqn:V; try congruence;
          destruct (timestamp_in w _) as [stamp|]; try discriminate Hc;
          injection Hc as <-; now rewrite Hat.
    + unfold unique_ids. rewrite Hp, map_app. simpl. intros Hnd.
      apply NoDup_app. split; [exact Hnd|]. split; [|apply NoDup_singleton].
      intros x Hx [<-|[]]%list_elem_of_In. apply Hfresh. now apply list_elem_of_In.
Qed.

Lemma stored_records_immutable_witness :
  let w := Sample.world (Sample.reply [("location" : str, "Main Hall" : str);
                                       ("event_date" : str, "2024-01-10" : str)]) in
  let old := Sample.row 1 "City Hall" (Some Sample.the_date) in
  let db := mk_database [old] 2 in
  let stamp := mk_datetime (mk_date 2020 2 2) (mk_time 8 0 0) in
  let w' := mk_world (fun _ => true)
              (fun _ => Some (Sample.reply [("location" : str, "Main Hall" : str);
                                            ("created_at" : str, "2020-02-02 08:00" : str);
                                            ("event_date" : str, "2024-01-10" : str)]))
              FlatJson.loads Sample.the_date Sample.the_clock true
              (fun _ => None) (fun _ => None)
              (fun v => match v with
                        | PyStr s => if Py.eq s "2020-02-02 08:00" then Some stamp else None
                        | _ => None
                        end)
              (fun _ => Some TypeError) in
  posters (snd (app w (AnalyzePoster "poster") db)) !! 0 = Some old
  /\ map Poster.created_at (posters (snd (app w (AnalyzePoster "poster") db)))
     = [Sample.the_clock; Sample.the_clock]
  /\ posters (snd (app w' (AnalyzePoster "poster") db)) !! 0 = Some old
  /\ map Poster.created_at (posters (snd (app w' (AnalyzePoster "poster") db)))
     = [Sample.the_clock; stamp].
Proof.
  intros w old db stamp w'.
  destruct (stored_records_immutable w (AnalyzePoster "poster") db)
    as (new & E & L & Hkeep & Hnew & Huniq).
  destruct (stored_records_immutable w' (AnalyzePoster "poster") db)
    as (new' & E' & L' & Hkeep' & Hnew' & Huniq').
  split; [apply Hkeep; reflexivity|].
  split; [vm_compute; reflexivity|].
  split; [apply Hkeep'; reflexivity|].
  vm_compute. reflexivity.
Defined.

(** * [GET /events/upcoming] *)

Lemma filter_ge_dated today (rows : list Poster.t) :
  Forall (fun p => Poster.event_date p <> None)
         (List.filter (fun p => Sql.ge (Poster.event_date p) today) rows).
Proof.
  apply List.Forall_forall. intros p [_ H]%filter_In.
  destruct (Poster.event_date p); [discriminate | discriminate H].
Qed.

Lemma Forall_merge_sort {A} (R : relation A) `{!forall a b, Decision (R a b)}
    (P : A -> Prop) l :
  Forall P l -> Forall P (merge_sort R l).
Proof.
  rewrite !List.Forall_forall. intros HP x Hx. apply HP. now apply In_merge_sort in Hx.
Qed.

Lemma get_upcoming_events_reachable w db :
  db_reachable w = true ->
  exists js,
    get_upcoming_events w db = (Return js, db)
    /\ Forall2 (fun p j => event_dict p = Return j)
         (merge_sort by_event_date
            (List.filter (fun p => Sql.ge (Poster.event_date p) (today w)) (posters db)))
         js.
Proof.
  intros Hup. unfold get_upcoming_events. rewrite listing_reachable by assumption.
  destruct (comprehension_dated
              (merge_sort by_event_date
                 (List.filter (fun p => Sql.ge (Poster.event_date p) (today w)) (posters db))))
    as (js & E & F).
  { apply Forall_merge_sort, filter_ge_dated. }
  exists js. now rewrite E.
Qed.

Lemma yesterday_before d :
  Strptime.valid_date d = true -> date_leb d (yesterday d) = false.
Proof.
  unfold Strptime.valid_date. rewrite !andb_true_iff, !N.leb_le.
  intros [[[[[Hy _] Hm] _] Hd] _].
  apply not_true_iff_false. rewrite date_leb_spec. unfold yesterday.
  destruct (1 <? day d)%N eqn:D; [apply N.ltb_lt in D; simpl; lia|].
  destruct (1 <? month d)%N eqn:M; [apply N.ltb_lt in M; simpl; lia|].
  apply N.ltb_ge in M. simpl. lia.
Qed.

Lemma Forall2_In_l {A B} (R : A -> B -> Prop) l k x :
  Forall2 R l k -> In x l -> exists y, In y k /\ R x y.
Proof.
  induction 1 as [|a b l k Hab _ IH]; intros []; subst.
  - exists b. split; [left; reflexivity | assumption].
  - destruct IH as (y & Hy & Hr); [assumption|]. exists y. split; [now right | assumption].
Qed.

Lemma Forall2_In_r {A B} (R : A -> B -> Prop) l k y :
  Forall2 R l k -> In y k -> exists x, In x l /\ R x y.
Proof.
  induction 1 as [|a b l k Hab _ IH]; intros []; subst.
  - exists a. split; [left; reflexivity | assumption].
  - destruct IH as (x & Hx & Hr); [assumption|]. exists x. split; [now right | assumption].
Qed.

Lemma event_dict_id p j : event_dict p = Return j -> ev_id j = Poster.id p.
Proof.
  unfold event_dict. destruct (Poster.event_date p); [|discriminate].
  now intros [= <-].
Qed.

(** C7. While the database is up, [/events/upcoming] answers with the
    dicts of exactly the rows whose [event_date] is today or later, earlier
    dates first.  A row just stored with today's date is among them; one
    stored with yesterday's date, or any earlier date, is not. *)
Theorem upcoming_events :
  (forall w db,
     db_reachable w = true ->
     exists events js,
       get_upcoming_events w db = (Return js, db)
       /\ Forall2 (fun p j => event_dict p = Return j) events js
       /\ events ≡ₚ List.filter (fun p => Sql.ge (Poster.event_date p) (today w)) (posters db)
       /\ StronglySorted by_event_date events
       /\ (forall p, In p events <->
             In p (posters db)
             /\ exists d, Poster.event_date p = Some d /\ date_leb (today w) d = true))
  /\ (forall w file db data db' w',
        analyze_poster w file db = (Return data, db') ->
        db_reachable w' = true ->
        exists row js,
          posters db' = posters db ++ [row]
          /\ get_upcoming_events w' db' = (Return js, db')
          /\ (get data "event_date" = PyDate (today w') ->
              exists j, In j js /\ event_dict row = Return j)
          /\ (forall d, get data "event_date" = PyDate d ->
              date_leb (today w') d = false ->
              forall j, In j js -> ev_id j <> Poster.id row)
          /\ (Strptime.valid_date (today w') = true ->
              get data "event_date" = PyDate (yesterday (today w')) ->
              forall j, In j js -> ev_id j <> Poster.id row)).
Proof.
  split.
  - intros w db Hup. destruct (get_upcoming_events_reachable w db Hup) as (js & E & F).
    eexists _, js. split; [exact E|]. split; [exact F|].
    split; [apply merge_sort_Permutation|].
    split; [apply StronglySorted_merge_sort; apply _|].
    intros p. rewrite In_merge_sort, filter_In. unfold Sql.ge.
    split.
    + intros [Hin Hge]. split; [exact Hin|].
      destruct (Poster.event_date p) as [d|]; [eauto | discriminate].
    + intros [Hin (d & -> & Hge)]. auto.
  - intros w file db data db' w' E Hup.
    destruct (analyze_poster_stored _ _ _ _ _ E) as (row & Hrows & Hrow & Hfresh).
    destruct (get_upcoming_events_reachable w' db' Hup) as (js & Ej & F).
    apply row_of_fields in Hrow as (_ & _ & Hdate & _).
    exists row, js. split; [exact Hrows|]. split; [exact Ej|].
    assert (Hbefore : forall d, get data "event_date" = PyDate d ->
                        date_leb (today w') d = false ->
                        forall j, In j js -> ev_id j <> Poster.id row).
    { intros d G Hlt j Hj Hid.
      destruct (Forall2_In_r _ _ _ _ F Hj) as (p & Hp & Hpj).
      apply In_merge_sort, filter_In in Hp as [Hin Hge].
      rewrite (event_dict_id _ _ Hpj) in Hid.
      rewrite Hrows in Hin. apply in_app_or in Hin as [Hold | [<- | []]].
      - apply Hfresh. rewrite <- Hid. now apply in_map.
      - rewrite G in Hdate. injection Hdate as Hd. rewrite <- Hd in Hge.
        simpl in Hge. congruence. }
    split; [|split; [exact Hbefore|]].
    + intros G. rewrite G in Hdate. injection Hdate as Hd.
      apply (Forall2_In_l _ _ _ row F).
      apply In_merge_sort, filter_In. split.
      * rewrite Hrows. apply in_or_app. right. now left.
      * rewrite <- Hd. simpl. rewrite date_leb_spec. lia.
    + intros Hvalid G. apply (Hbefore _ G). now apply yesterday_before.
Qed.

Lemma upcoming_events_witness :
  let w := Sample.world (Sample.reply [("title" : str, "Open day" : str);
                                       ("event_date" : str, "2024-01-10" : str)]) in
  let row := Poster.mk 1 (Some ("Open day" : str)) None None None
               (Some Sample.the_date) None None None Sample.the_clock in
  exists js, get_upcoming_events w (mk_database [row] 2)
             = (Return js, mk_database [row] 2)
             /\ exists j, In j js /\ event_dict row = Return j.
Proof.
  intros w row.
  assert (E : analyze_poster w "poster" Sample.empty
              = (Return (<["event_date" := PyDate Sample.the_date]>
                           (<["title" := PyStr "Open day"]> ∅)),
                 mk_database [row] 2))
    by (vm_compute; reflexivity).
  destruct (proj2 upcoming_events w "poster" Sample.empty _ _ w E eq_refl)
    as (row' & js & Hrows & Ej & Htoday & _).
  exists js. split; [exact Ej|].
  injection Hrows as <-. apply Htoday. vm_compute. reflexivity.
Defined.

(** * [LIKE] and substrings *)

Lemma like_nil t : Sql.like [] t = true <-> t = [].
Proof. destruct t; simpl; split; congruence. Qed.

Lemma like_percent_unfold p t :
  Sql.like ("%"%char :: p) t
  = Sql.like p t || match t with
                    | [] => false
                    | _ :: t' => Sql.like ("%"%char :: p) t'
                    end.
Proof. destruct t; reflexivity. Qed.

Lemma like_percent p t :
  Sql.like ("%"%char :: p) t = true <->
  exists before t', t = before ++ t' /\ Sql.like p t' = true.
Proof.
  induction t as [|c t IH]; rewrite like_percent_unfold, orb_true_iff.
  - split.
    + intros [H|H]; [|discriminate]. exists [], []. auto.
    + intros (before & t' & E & H). left.
      symmetry in E. apply app_eq_nil in E as [_ ->]. exact H.
  - rewrite IH. split.
    + intros [H | (before & t' & -> & H)].
      * exists [], (c :: t). auto.
      * exists (c :: before), t'. auto.
    + intros (before & t' & E & H). destruct before as [|b before]; simpl in E.
      * left. now subst.
      * right. injection E as -> ->. eauto.
Qed.

Lemma like_plain c p t :
  like_special c = false ->
  Sql.like (c :: p) t = match t with
                        | x :: t' => Ascii.eqb c x && Sql.like p t'
                        | [] => false
                        end.
Proof.
  unfold like_special. rewrite !orb_false_iff. intros [[H1 H2] H3].
  cbn [Sql.like]. rewrite H1, H2, H3. destruct t; reflexivity.
Qed.

Lemma like_plain_prefix q p t :
  plain q ->
  Sql.like (q ++ p) t = true <-> exists t', t = q ++ t' /\ Sql.like p t' = true.
Proof.
  unfold plain. revert t. induction q as [|c q IH]; intros t Hq.
  - simpl. split; [eauto | now intros (t' & -> & H)].
  - simpl in Hq. apply andb_true_iff in Hq as [Hc Hq].
    apply negb_true_iff in Hc. change ((c :: q) ++ p) with (c :: (q ++ p)).
    rewrite (like_plain c _ _ Hc). destruct t as [|x t].
    + split; [discriminate | now intros (t' & E & _)].
    + rewrite andb_true_iff, (IH t Hq), Ascii.eqb_eq. split.
      * intros [-> (t' & -> & H)]. eauto.
      * intros (t' & E & H). injection E as -> ->. eauto.
Qed.

Lemma like_any t : Sql.like "%" t = true.
Proof. apply like_percent. exists t, []. now rewrite app_nil_r. Qed.

(** Between two [%], a value without special characters is searched
    for as a substring. *)
Lemma like_substring value t :
  plain value ->
  Sql.like ("%" ++ value ++ "%") t = true <-> contains t value.
Proof.
  intros Hv. change ("%" ++ value ++ "%") with ("%"%char :: (value ++ "%")).
  rewrite like_percent. unfold contains. split.
  - intros (before & t' & -> & H). apply (like_plain_prefix _ _ _ Hv) in H as (after & -> & _).
    eauto.
  - intros (before & after & ->). exists before, (value ++ after). split; [reflexivity|].
    apply (like_plain_prefix _ _ _ Hv). exists after. split; [reflexivity | apply like_any].
Qed.

Lemma containsb_contains hay needle :
  containsb hay needle = true <-> contains hay needle.
Proof.
  unfold contains. induction hay as [|c hay IH]; cbn [containsb]; rewrite orb_true_iff.
  - rewrite startswith_prefix. split.
    + intros [(rest & E) | H]; [|discriminate]. exists [], rest. exact E.
    + intros (before & after & E). left. destruct before; [eauto | discriminate].
  - rewrite startswith_prefix, IH. split.
    + intros [(rest & ->) | (before & after & ->)].
      * exists [], rest. reflexivity.
      * exists (c :: before), after. reflexivity.
    + intros (before & after & E). destruct before as [|b before]; simpl in E.
      * left. eauto.
      * right. injection E as -> ->. eauto.
Qed.

Lemma like_special_lower c : like_special (Py.lower_char c) = like_special c.
Proof. each_char c; reflexivity. Qed.

Lemma plain_lower value :
  plain value ->
  plain (Py.lower value).
Proof.
  unfold plain. induction value as [|c value IH]; [reflexivity|]. simpl.
  rewrite like_special_lower. intros [-> H]%andb_true_iff. now apply IH.
Qed.

Lemma lower_app a b : Py.lower (a ++ b) = Py.lower a ++ Py.lower b.
Proof. apply map_app. Qed.

(** What the endpoints ask of the column, for a value without special
    characters. *)
Lemma ilike_icontains column value :
  plain value ->
  Sql.ilike column ("%" ++ value ++ "%") = icontains column value.
Proof.
  intros Hv. destruct column as [text|]; [|reflexivity].
  unfold Sql.ilike, icontains. rewrite !lower_app.
  change (Py.lower "%") with ("%" : str).
  apply eq_true_iff_eq. rewrite containsb_contains.
  apply like_substring. now apply plain_lower.
Qed.

(** * The substring endpoints *)

Lemma get_events_by_column_reachable column w value upcoming_only db :
  db_reachable w = true ->
  get_events_by_column column w value upcoming_only db
  = (match comprehension event_dict
             (merge_sort by_event_date
                (List.filter
                   (fun p => Sql.ilike (column p) ("%" ++ value ++ "%")
                             && (if upcoming_only
                                 then Sql.ge (Poster.event_date p) (today w)
                                 else true))
                   (posters db))) with
     | Return js => Return js
     | Raise e => Raise (HTTPException 500 (StrOf e))
     end, db).
Proof. intros Hup. unfold get_events_by_column. now rewrite listing_reachable. Qed.

Lemma get_events_by_date_reachable w date search_date db :
  db_reachable w = true ->
  strptime_date date "%Y-%m-%d" = Return search_date ->
  get_events_by_date w date db
  = (match comprehension event_dict
             (merge_sort by_event_time
                (List.filter (fun p => Sql.eq (Poster.event_date p) search_date)
                   (posters db))) with
     | Return js => Return js
     | Raise e => Raise (HTTPException 500 (StrOf e))
     end, db).
Proof.
  intros Hup Hd. unfold get_events_by_date, except_Exception_500, htry, hbind, lift.
  rewrite Hd, (query_reachable _ _ _ _ Hup). destruct (comprehension _ _); reflexivity.
Qed.

(** A listing whose rows all have a date answers with their dicts. *)
Lemma listing_dated (order : relation Poster.t) `{!forall a b, Decision (order a b)}
    where_ (rows : list Poster.t) :
  (forall p, In p rows -> where_ p = true -> Poster.event_date p <> None) ->
  exists js,
    comprehension event_dict (merge_sort order (List.filter where_ rows)) = Return js
    /\ Forall2 (fun p j => event_dict p = Return j)
         (merge_sort order (List.filter where_ rows)) js.
Proof.
  intros Hd. apply comprehension_dated, Forall_merge_sort, List.Forall_forall.
  intros p [Hin Hw]%filter_In. now apply Hd.
Qed.

(** C8, as the code has it.  The three substring endpoints are one
    handler over three columns.  For a value without the characters
    percent, underscore and backslash, and while no matching row that the
    request reaches lacks its date, the answer is the dicts of exactly the
    rows whose column holds the value as a substring, case folded, from
    today on when [upcoming_only] is set, earlier dates first.  So "hall"
    finds "City Hall" and "hallway" and not "Stadium". *)
Theorem substring_queries :
  (get_events_by_location = get_events_by_column Poster.location
   /\ get_events_by_venue = get_events_by_column Poster.venue
   /\ get_events_by_department = get_events_by_column Poster.hosted_department)
  /\ (forall column w value upcoming_only db,
        plain value ->
        db_reachable w = true ->
        (upcoming_only = true
         \/ forall p, In p (posters db) -> icontains (column p) value = true ->
                      Poster.event_date p <> None) ->
        exists events js,
          get_events_by_column column w value upcoming_only db = (Return js, db)
          /\ Forall2 (fun p j => event_dict p = Return j) events js
          /\ events ≡ₚ List.filter
                         (fun p => icontains (column p) value
                                   && (if upcoming_only
                                       then Sql.ge (Poster.event_date p) (today w)
                                       else true))
                         (posters db)
          /\ StronglySorted by_event_date events)
  /\ (forall text value,
        icontains (Some text) value = true <-> contains (Py.lower text) (Py.lower value))
  /\ (let db := mk_database
                  [ Sample.row 1 "Stadium" (Some (mk_date 2024 1 11));
                    Sample.row 2 "hallway" (Some (mk_date 2024 1 12));
                    Sample.row 3 "City Hall" (Some (mk_date 2024 1 10)) ] 4 in
      exists js,
        get_events_by_location (Sample.world "") "hall" false db = (Return js, db)
        /\ map ev_location js = [ Some ("City Hall" : str); Some ("hallway" : str) ]).
Proof.
  split; [repeat split|]. split; [|split].
  - intros column w value upcoming_only db Hv Hup Hdated.
    rewrite get_events_by_column_reachable by assumption.
    rewrite (filter_ext _ (fun p => icontains (column p) value
                                    && (if upcoming_only
                                        then Sql.ge (Poster.event_date p) (today w)
                                        else true)))
      by (intros p; now rewrite ilike_icontains).
    destruct (listing_dated by_event_date
                (fun p => icontains (column p) value
                          && (if upcoming_only
                              then Sql.ge (Poster.event_date p) (today w)
                              else true)) (posters db)) as (js & E & F).
    { intros p Hin [Hc Hd]%andb_true_iff. destruct Hdated as [-> | Hdated].
      - destruct (Poster.event_date p); [discriminate | discriminate Hd].
      - now apply Hdated. }
    rewrite E. eexists _, js. split; [reflexivity|]. split; [exact F|].
    split; [apply merge_sort_Permutation | apply StronglySorted_merge_sort; apply _].
  - intros text value. apply containsb_contains.
  - eexists. split; vm_compute; reflexivity.
Qed.

Lemma substring_queries_witness :
  let db := mk_database [ Sample.row 1 "Lecture Hall 2" (Some (mk_date 2024 1 12)) ] 2 in
  exists events js,
    get_events_by_column Poster.location (Sample.world "") "hall" true db = (Return js, db)
    /\ Forall2 (fun p j => event_dict p = Return j) events js
    /\ events ≡ₚ posters db.
Proof.
  intros db.
  destruct (proj1 (proj2 substring_queries) Poster.location (Sample.world "") "hall" true db)
    as (events & js & E & F & P & _).
  - reflexivity.
  - reflexivity.
  - left. reflexivity.
  - exists events, js. split; [exact E|]. split; [exact F|]. exact P.
Defined.

(** A value with a [LIKE] wildcard finds more than its substring reading
    allows: "h_ll" is no substring of "City Hall", yet the row is returned. *)
Lemma wildcard_matches_without_substring :
  let db := mk_database [ Sample.row 1 "City Hall" (Some (mk_date 2024 1 12)) ] 2 in
  (exists js,
     get_events_by_location (Sample.world "") "h_ll" false db = (Return js, db)
     /\ map ev_location js = [ Some ("City Hall" : str) ])
  /\ icontains (Some ("City Hall" : str)) "h_ll" = false
  /\ ~ contains (Py.lower "City Hall") (Py.lower "h_ll").
Proof.
  intros db. split; [eexists; split; vm_compute; reflexivity|].
  assert (H : icontains (Some ("City Hall" : str)) "h_ll" = false) by (vm_compute; reflexivity).
  split; [exact H|]. intros C. apply containsb_contains in C.
  unfold icontains in H. congruence.
Qed.

(** C10. With [upcoming_only] off, one matching row without a date makes
    a substring endpoint answer 500: the dict is built with
    [event_date.isoformat()] whatever the column holds.  With [upcoming_only]
    on, and in [/events/upcoming] and [/events/by-date], the date filter has
    already left such rows out and the request succeeds. *)
Theorem undated_row_fails_listing :
  (forall column w value db p,
     db_reachable w = true ->
     In p (posters db) ->
     Sql.ilike (column p) ("%" ++ value ++ "%") = true ->
     Poster.event_date p = None ->
     get_events_by_column column w value false db
     = (Raise (HTTPException 500 (StrOf AttributeError)), db)
     /\ status_code (fst (get_events_by_column column w value false db)) = 500)
  /\ (forall column w value db,
        db_reachable w = true ->
        exists events js,
          get_events_by_column column w value true db = (Return js, db)
          /\ Forall2 (fun p j => event_dict p = Return j) events js
          /\ events ≡ₚ List.filter
                         (fun p => Sql.ilike (column p) ("%" ++ value ++ "%")
                                   && Sql.ge (Poster.event_date p) (today w))
                         (posters db)
          /\ Forall (fun p => Poster.event_date p <> None) events)
  /\ (forall w db,
        db_reachable w = true ->
        exists events js,
          get_upcoming_events w db = (Return js, db)
          /\ Forall2 (fun p j => event_dict p = Return j) events js
          /\ events ≡ₚ List.filter (fun p => Sql.ge (Poster.event_date p) (today w))
                         (posters db)
          /\ Forall (fun p => Poster.event_date p <> None) events)
  /\ (forall w date search_date db,
        db_reachable w = true ->
        strptime_date date "%Y-%m-%d" = Return search_date ->
        exists events js,
          get_events_by_date w date db = (Return js, db)
          /\ Forall2 (fun p j => event_dict p = Return j) events js
          /\ events ≡ₚ List.filter (fun p => Sql.eq (Poster.event_date p) search_date)
                         (posters db)
          /\ Forall (fun p => Poster.event_date p <> None) events)
  /\ (get_events_by_location = get_events_by_column Poster.location
      /\ get_events_by_venue = get_events_by_column Poster.venue
      /\ get_events_by_department = get_events_by_column Poster.hosted_department).
Proof.
  split; [|split; [|split; [|split; [|repeat split]]]].
  - intros column w value db p Hup Hin Hlike Hnone.
    rewrite get_events_by_column_reachable by assumption.
    rewrite comprehension_undated; [split; reflexivity|].
    apply List.Exists_exists. exists p. split; [|exact Hnone].
    apply In_merge_sort, filter_In. split; [exact Hin|]. now rewrite Hlike.
  - intros column w value db Hup.
    rewrite get_events_by_column_reachable by assumption.
    assert (D : forall p, In p (posters db) ->
                  Sql.ilike (column p) ("%" ++ value ++ "%")
                  && Sql.ge (Poster.event_date p) (today w) = true ->
                  Poster.event_date p <> None).
    { intros p _ [_ Hd]%andb_true_iff.
      destruct (Poster.event_date p); [discriminate | discriminate Hd]. }
    destruct (listing_dated by_event_date _ _ D) as (js & E & F).
    rewrite E. eexists _, js. split; [reflexivity|]. split; [exact F|].
    split; [apply merge_sort_Permutation|].
    apply Forall_merge_sort, List.Forall_forall.
    intros p [Hin Hw]%filter_In. now apply D.
  - intros w db Hup. destruct (get_upcoming_events_reachable w db Hup) as (js & E & F).
    eexists _, js. split; [exact E|]. split; [exact F|].
    split; [apply merge_sort_Permutation|]. apply Forall_merge_sort, filter_ge_dated.
  - intros w date search_date db Hup Hd.
    rewrite (get_events_by_date_reachable _ _ _ _ Hup Hd).
    assert (D : forall p, In p (posters db) ->
                  Sql.eq (Poster.event_date p) search_date = true ->
                  Poster.event_date p <> None).
    { intros p _ H. destruct (Poster.event_date p); [discriminate | discriminate H]. }
    destruct (listing_dated by_event_time _ _ D) as (js & E & F).
    rewrite E. eexists _, js. split; [reflexivity|]. split; [exact F|].
    split; [apply merge_sort_Permutation|].
    apply Forall_merge_sort, List.Forall_forall.
    intros p [Hin Hw]%filter_In. now apply D.
Qed.

Lemma undated_row_fails_listing_witness :
  let db := mk_database [ Sample.row 1 "City Hall" None;
                          Sample.row 2 "Town Hall" (Some (mk_date 2024 1 12)) ] 3 in
  status_code (fst (get_events_by_location (Sample.world "") "hall" false db)) = 500.
Proof.
  intros db.
  apply (proj1 undated_row_fails_listing Poster.location (Sample.world "") "hall" db
           (Sample.row 1 "City Hall" None)).
  - reflexivity.
  - left. reflexivity.
  - vm_compute. reflexivity.
  - reflexivity.
Defined.

(** * Dates and times that are stored are valid *)

Lemma strptime_valid s fmt dt :
  Strptime.strptime s fmt = Return dt ->
  Strptime.valid_date (dt_date dt) = true /\ Strptime.valid_time (dt_time dt) = true.
Proof.
  unfold Strptime.strptime.
  destruct (Strptime.compile fmt false); [|discriminate].
  destruct (Strptime.re_match l s) as [[gs [|c rest]]|]; try discriminate.
  destruct (_ && _) eqn:E; [|discriminate].
  intros [= <-]. simpl. now apply andb_true_iff in E.
Qed.

Lemma strptime_time_valid s fmt t :
  strptime_time s fmt = Return t -> Strptime.valid_time t = true.
Proof.
  unfold strptime_time, bind. destruct (Strptime.strptime s fmt) as [dt|] eqn:E; [|discriminate].
  intros [= <-]. now apply strptime_valid in E.
Qed.

Lemma strptime_date_valid s fmt d :
  strptime_date s fmt = Return d -> Strptime.valid_date d = true.
Proof.
  unfold strptime_date, bind. destruct (Strptime.strptime s fmt) as [dt|] eqn:E; [|discriminate].
  intros [= <-]. now apply strptime_valid in E.
Qed.

Lemma strptime_time_raises s fmt e :
  strptime_time s fmt = Raise e -> exists why, e = ValueError why.
Proof.
  unfold strptime_time, Strptime.strptime, bind.
  destruct (Strptime.compile fmt false); [|intros [= <-]; eauto].
  destruct (Strptime.re_match l s) as [[gs [|c rest]]|]; try (intros [= <-]; eauto).
  destruct (_ && _); [discriminate | intros [= <-]; eauto].
Qed.

Lemma parse_event_time_valid raw t :
  parse_event_time raw = Return t -> Strptime.valid_time t = true.
Proof.
  unfold parse_event_time.
  pose proof (try_formats_first (clean_time_string raw) time_formats) as F.
  destruct (try_formats (clean_time_string raw) time_formats) as [[t'|]|e]; [| |contradiction];
    cbn [bind].
  - destruct F as (i & fmt & _ & Ht & _). intros [= <-]. eapply strptime_time_valid; eauto.
  - destruct (TimePattern.search (clean_time_string raw)) as [m|]; [|discriminate].
    unfold time_of_match. apply strptime_time_valid.
Qed.

Lemma parse_event_time_raises raw e :
  parse_event_time raw = Raise e -> exists why, e = ValueError why.
Proof.
  unfold parse_event_time.
  pose proof (try_formats_first (clean_time_string raw) time_formats) as F.
  destruct (try_formats (clean_time_string raw) time_formats) as [[t'|]|e']; [| |contradiction];
    cbn [bind]; [discriminate|].
  destruct (TimePattern.search (clean_time_string raw)) as [m|].
  - unfold time_of_match. apply strptime_time_raises.
  - intros [= <-]. eauto.
Qed.

(** X1. The time parse answers with a time of the day or raises a
    [ValueError]: a time it returns has its hour below 24 and its minute
    and second below 60, whatever the model wrote. *)
Theorem parse_event_time_valid_or_ValueError raw :
  (exists t, parse_event_time raw = Return t
             /\ (hour t <= 23)%N /\ (minute t <= 59)%N /\ (second t <= 59)%N)
  \/ (exists why, parse_event_time raw = Raise (ValueError why)).
Proof.
  destruct (parse_event_time raw) as [t|e] eqn:E.
  - left. exists t. split; [reflexivity|].
    apply parse_event_time_valid in E. unfold Strptime.valid_time in E.
    rewrite !andb_true_iff, !N.leb_le in E. tauto.
  - right. destruct (parse_event_time_raises _ _ E) as [why ->]. eauto.
Qed.

(** * The rows keep valid dates and times *)

Lemma get_insert_eq (d : gmap string pyvalue) k v : get (<[k := v]> d) k = v.
Proof. unfold get. now rewrite lookup_insert_eq. Qed.

Lemma parse_date_and_time_valid v data :
  parse_date_and_time v = Return data ->
  (forall d, get data "event_date" = PyDate d -> Strptime.valid_date d = true)
  /\ (forall t, get data "event_time" = PyTime t -> Strptime.valid_time t = true).
Proof.
  destruct v as [d0|]; [|discriminate]. unfold parse_date_and_time.
  set (date_part := if truthy (get d0 "event_date") then _ else _).
  assert (D : forall d1, date_part = Return d1 ->
                forall d, get d1 "event_date" = PyDate d -> Strptime.valid_date d = true).
  { subst date_part. intros d1.
    destruct (truthy (get d0 "event_date")) eqn:T.
    - destruct (get d0 "event_date") as [| s | | | |]; try discriminate.
      destruct (strptime_date s "%Y-%m-%d") as [v|] eqn:S; [|discriminate].
      cbn [bind]. intros [= <-] d. rewrite get_insert_eq. intros [= <-].
      eapply strptime_date_valid; eauto.
    - intros [= <-] d G. rewrite G in T. discriminate. }
  destruct date_part as [d1|]; [|discriminate]. cbn [bind].
  specialize (D d1 eq_refl).
  destruct (truthy (get d1 "event_time")) eqn:T.
  - destruct (get d1 "event_time") as [| s | | | |]; try discriminate.
    destruct (parse_event_time s) as [t|] eqn:S; [|discriminate].
    cbn [bind]. intros [= <-]. split.
    + intros d. rewrite get_insert_ne by discriminate. apply D.
    + intros t'. rewrite get_insert_eq. intros [= <-].
      eapply parse_event_time_valid; eauto.
  - intros [= <-]. split; [exact D|]. intros t G. rewrite G in T. discriminate.
Qed.

Lemma analyze_poster_data w file db data db' :
  analyze_poster w file db = (Return data, db') ->
  exists text v,
    generate_content w file = Some text
    /\ json_loads w (strip_fences text) = Some v
    /\ parse_date_and_time v = Return data.
Proof.
  rewrite analyze_poster_unfold.
  destruct (image_open w file); [|discriminate].
  destruct (generate_content w file) as [text|]; [|discriminate].
  destruct (json_loads w (strip_fences text)) as [v|] eqn:J; [|discriminate].
  destruct (parse_date_and_time v) as [data'|] eqn:P; [|discriminate].
  cbv zeta.
  destruct (bool_decide _); [|destruct (construct w data') as [e0|]; [discriminate|]];
    (destruct (add_commit_refresh w data' db) as [[row|e] db1]; [|discriminate]);
    intros [= <- _]; exists text, v; auto.
Qed.

Lemma date_column_Some v d : date_column v = Some (Some d) -> v = PyDate d.
Proof. destruct v; simpl; try discriminate. now intros [= ->]. Qed.

Lemma time_column_Some v t : time_column v = Some (Some t) -> v = PyTime t.
Proof. destruct v; simpl; try discriminate. now intros [= ->]. Qed.

(** X2. Every request keeps the table free of impossible dates and times: if
    each row's date is a date of the calendar and each row's time a time of
    the day, the same holds after the request. *)
Theorem valid_rows_preserved w req db :
  valid_rows db -> valid_rows (snd (app w req db)).
Proof.
  intros V. unfold valid_rows in *.
  destruct (app_rows w req db) as [-> | (file & data & row & -> & Hr & -> & Hrow & _)];
    [exact V|].
  apply Forall_app. split; [exact V|]. constructor; [|constructor].
  cbn [app] in Hr. rewrite (proj1 (hmap_result _ _ _)) in Hr.
  destruct (analyze_poster w file db) as [[data'|e] db'] eqn:E; simpl in Hr; [|discriminate].
  injection Hr as ->.
  destruct (analyze_poster_data _ _ _ _ _ E) as (text & v & _ & _ & P).
  destruct (parse_date_and_time_valid _ _ P) as [Hd Ht].
  apply row_of_fields in Hrow as (_ & _ & Cd & Ct & _).
  split.
  - intros d Ed. rewrite Ed in Cd. apply Hd. now apply date_column_Some.
  - intros t Et. rewrite Et in Ct. apply Ht. now apply time_column_Some.
Qed.

Lemma valid_rows_preserved_witness :
  valid_rows
    (snd (app (Sample.world (Sample.reply [("event_date" : str, "2024-02-29" : str);
                                           ("event_time" : str, "5pm" : str)]))
              (AnalyzePoster "poster") Sample.empty)).
Proof. apply valid_rows_preserved. constructor. Defined.

(** * Readings without a marker *)

Lemma forallb3_true {A B C} (P : A -> B -> C -> bool) la lb lc :
  forallb3 P la lb lc = true ->
  forall a b c, In a la -> In b lb -> In c lc -> P a b c = true.
Proof.
  unfold forallb3. intros H a b c Ha Hb Hc.
  rewrite forallb_forall in H. specialize (H a Ha). cbv beta in H.
  rewrite forallb_forall in H. specialize (H b Hb). cbv beta in H.
  rewrite forallb_forall in H. exact (H c Hc).
Qed.

Lemma all_hm_checked :
  forallb3 (fun pad h m =>
              returns_time (parse_event_time (render_hm pad h m))
                           (mk_time (if (h =? 12)%N then 0%N else h) m 0))
           [false; true] (upto 23) (upto 59) = true.
Proof. vm_compute. reflexivity. Qed.

(** X3. A reading "h:mm" without a marker is taken as it stands, except that
    the hour 12 becomes 0: [%I:%M] is tried before [%H:%M] and reads a bare
    12 as midnight.  So "12:30" is stored as 00:30:00. *)
Theorem bare_twelve_is_midnight pad h m :
  (h <= 23)%N -> (m <= 59)%N ->
  parse_event_time (render_hm pad h m)
  = Return (mk_time (if (h =? 12)%N then 0%N else h) m 0).
Proof.
  intros Hh Hm. apply returns_time_eq.
  assert (Hpad : In pad [false; true]) by (destruct pad; simpl; auto).
  pose proof (forallb3_true _ _ _ _ all_hm_checked pad h m Hpad
                (In_upto 23 h Hh) (In_upto 59 m Hm)) as H.
  cbv beta in H. exact H.
Qed.

Lemma bare_twelve_is_midnight_witness :
  parse_event_time "12:30" = Return (mk_time 0 30 0).
Proof. apply (bare_twelve_is_midnight false 12 30); vm_compute; discriminate. Defined.

(** * Dates printed and read back *)

Lemma In_count_from n : forall k y,
  (k <= y)%N -> (y < k + N.of_nat n)%N -> In y (count_from n k).
Proof.
  induction n as [|n IH]; intros k y Hk Hy; [lia|].
  cbn [count_from]. destruct (N.eq_dec k y) as [->|Hne]; [now left|].
  right. apply IH; lia.
Qed.

Lemma all_years_checked :
  forallb (fun y =>
             match Py.fmt_04d y with
             | [a; b; c; d] =>
                 Py.isdecimal a && Py.isdecimal b && Py.isdecimal c && Py.isdecimal d
                 && (Py.int [a; b; c; d] =? y)%N
             | _ => false
             end) (count_from (N.to_nat 10000) 0) = true.
Proof. vm_compute. reflexivity. Qed.

Lemma fmt_04d_digits y :
  (y <= 9999)%N ->
  exists a b c d,
    Py.fmt_04d y = [a; b; c; d]
    /\ Py.isdecimal a = true /\ Py.isdecimal b = true
    /\ Py.isdecimal c = true /\ Py.isdecimal d = true
    /\ Py.int [a; b; c; d] = y.
Proof.
  intros Hy. pose proof all_years_checked as H.
  rewrite forallb_forall in H.
  assert (I : In y (count_from (N.to_nat 10000) 0)).
  { apply In_count_from; [lia|]. rewrite N2Nat.id. lia. }
  specialize (H y I). cbv beta in H.
  destruct (Py.fmt_04d y) as [|a [|b [|c [|d [|]]]]]; try discriminate.
  rewrite !andb_true_iff, N.eqb_eq in H. exists a, b, c, d. tauto.
Qed.

Lemma all_month_days_checked :
  forallb2 (fun m d =>
              match Strptime.re_match
                      [Strptime.Literal "-"; Strptime.Field Strptime.dm;
                       Strptime.Literal "-"; Strptime.Field Strptime.dd]
                      ("-" ++ Py.fmt_02d m ++ "-" ++ Py.fmt_02d d) with
              | Some ([(Strptime.dm, x); (Strptime.dd, y)], []) =>
                  (Py.int x =? m)%N && (Py.int y =? d)%N
              | _ => false
              end)
           (List.filter (fun m => negb (m =? 0)%N) (upto 12))
           (List.filter (fun d => negb (d =? 0)%N) (upto 31)) = true.
Proof. vm_compute. reflexivity. Qed.

Lemma month_day_match m d :
  (1 <= m <= 12)%N -> (1 <= d <= 31)%N ->
  exists x y,
    Strptime.re_match
      [Strptime.Literal "-"; Strptime.Field Strptime.dm;
       Strptime.Literal "-"; Strptime.Field Strptime.dd]
      ("-" ++ Py.fmt_02d m ++ "-" ++ Py.fmt_02d d)
    = Some ([(Strptime.dm, x); (Strptime.dd, y)], [])
    /\ Py.int x = m /\ Py.int y = d.
Proof.
  intros Hm Hd.
  assert (Im : In m (List.filter (fun m => negb (m =? 0)%N) (upto 12))).
  { apply filter_In. split; [apply (In_upto 12); lia | apply negb_true_iff, N.eqb_neq; lia]. }
  assert (Id : In d (List.filter (fun d => negb (d =? 0)%N) (upto 31))).
  { apply filter_In. split; [apply (In_upto 31); lia | apply negb_true_iff, N.eqb_neq; lia]. }
  pose proof (forallb2_true _ _ _ all_month_days_checked m d Im Id) as H. cbv beta in H.
  destruct (Strptime.re_match _ _) as [[gs rest]|]; [|discriminate].
  destruct gs as [|[[] x] [|[[] y] [|]]]; try discriminate.
  destruct rest; [|discriminate].
  rewrite andb_true_iff, !N.eqb_eq in H. exists x, y. tauto.
Qed.

(** [%Y] takes four digits and leaves the rest to the items behind it. *)
Lemma re_match_year items a b c d rest :
  Py.isdecimal a = true -> Py.isdecimal b = true ->
  Py.isdecimal c = true -> Py.isdecimal d = true ->
  Strptime.re_match (Strptime.Field Strptime.dY :: items) (a :: b :: c :: d :: rest)
  = match Strptime.re_match items rest with
    | Some (gs, rest') => Some ((Strptime.dY, [a; b; c; d]) :: gs, rest')
    | None => None
    end.
Proof.
  intros Ha Hb Hc Hd.
  cbn [Strptime.re_match Strptime.candidates Strptime.alternatives omap list_omap
       Strptime.take_classes].
  unfold Strptime.dig. rewrite Ha, Hb, Hc, Hd. cbn [Strptime.first_some].
  destruct (Strptime.re_match items rest) as [[gs rest']|]; reflexivity.
Qed.

Lemma days_in_month_le y m : (Strptime.days_in_month y m <= 31)%N.
Proof.
  unfold Strptime.days_in_month.
  repeat match goal with |- context [if ?b then _ else _] => destruct b end; lia.
Qed.

Lemma strptime_isoformat d :
  Strptime.valid_date d = true ->
  strptime_date (date_isoformat d) "%Y-%m-%d" = Return d.
Proof.
  intros V. pose proof V as V'. destruct d as [y m dd].
  unfold Strptime.valid_date in V'. cbn [year month day] in V'.
  rewrite !andb_true_iff, !N.leb_le in V'.
  destruct V' as [[[[[Hy1 Hy2] Hm1] Hm2] Hd1] Hd2].
  pose proof (days_in_month_le y m) as Hdim.
  destruct (fmt_04d_digits y Hy2) as (a & b & c & e & Ey & Ha & Hb & Hc & He & Iy).
  destruct (month_day_match m dd) as (x & z & Em & Ix & Iz); [lia | lia |].
  unfold strptime_date, Strptime.strptime, date_isoformat. cbn [year month day].
  change (Strptime.compile "%Y-%m-%d" false)
    with (Some [Strptime.Field Strptime.dY; Strptime.Literal "-";
                Strptime.Field Strptime.dm; Strptime.Literal "-";
                Strptime.Field Strptime.dd]).
  rewrite Ey.
  change ([a; b; c; e] ++ "-" ++ Py.fmt_02d m ++ "-" ++ Py.fmt_02d dd)
    with (a :: b :: c :: e :: ("-" ++ Py.fmt_02d m ++ "-" ++ Py.fmt_02d dd)).
  rewrite re_match_year by assumption. rewrite Em.
  cbn [Strptime.field Strptime.found Strptime.hour_of].
  rewrite Iy, Ix, Iz, V. reflexivity.
Qed.

(** * [GET /events/by-date] *)

Lemma filter_eq_dated search_date (rows : list Poster.t) p :
  In p rows -> Sql.eq (Poster.event_date p) search_date = true ->
  Poster.event_date p <> None.
Proof. intros _ H. destruct (Poster.event_date p); [discriminate | discriminate H]. Qed.

Lemma Sql_eq_spec column value : Sql.eq column value = true <-> column = Some value.
Proof.
  unfold Sql.eq. destruct column as [d|]; [|split; discriminate].
  rewrite date_eqb_eq. split; [now intros -> | now intros [= ->]].
Qed.

Lemma StronglySorted_after {A} (R : relation A) l1 x l2 :
  StronglySorted R (l1 ++ x :: l2) -> Forall (R x) l2.
Proof.
  induction l1 as [|a l1 IH]; simpl; intros H; inversion H; subst; auto.
Qed.

Lemma event_dict_date p j :
  event_dict p = Return j ->
  exists d, Poster.event_date p = Some d /\ ev_event_date j = date_isoformat d.
Proof.
  unfold event_dict. destruct (Poster.event_date p) as [d|]; [|discriminate].
  intros [= <-]. eauto.
Qed.

(** X4. [/events/by-date] with a date that parses answers with the dicts of
    exactly the rows of that date, each showing the date in its canonical
    spelling, earlier times first and the rows without a time behind all
    rows that have one. *)
Theorem events_by_date_in_time_order w date search_date db :
  db_reachable w = true ->
  strptime_date date "%Y-%m-%d" = Return search_date ->
  exists events js,
    get_events_by_date w date db = (Return js, db)
    /\ Forall2 (fun p j => event_dict p = Return j) events js
    /\ (forall p, In p events <->
          In p (posters db) /\ Poster.event_date p = Some search_date)
    /\ StronglySorted by_event_time events
    /\ (forall before p after,
          events = before ++ p :: after -> Poster.event_time p = None ->
          Forall (fun q => Poster.event_time q = None) after)
    /\ Forall (fun j => ev_event_date j = date_isoformat search_date) js.
Proof.
  intros Hup Hd. rewrite (get_events_by_date_reachable _ _ _ _ Hup Hd).
  destruct (listing_dated by_event_time _ _ (filter_eq_dated search_date (posters db)))
    as (js & E & F).
  rewrite E. eexists _, js. split; [reflexivity|]. split; [exact F|].
  assert (M : forall p,
            In p (merge_sort by_event_time
                    (List.filter (fun p => Sql.eq (Poster.event_date p) search_date)
                       (posters db)))
            <-> In p (posters db) /\ Poster.event_date p = Some search_date).
  { intros p. now rewrite In_merge_sort, filter_In, Sql_eq_spec. }
  assert (S : StronglySorted by_event_time
                (merge_sort by_event_time
                   (List.filter (fun p => Sql.eq (Poster.event_date p) search_date)
                      (posters db))))
    by (apply StronglySorted_merge_sort; apply _).
  split; [exact M|]. split; [exact S|]. split.
  - intros before p after Ev Hp. rewrite Ev in S.
    apply StronglySorted_after in S. eapply Forall_impl; [exact S|].
    intros q Hq. unfold by_event_time in Hq. rewrite Hp in Hq.
    destruct (Poster.event_time q); [discriminate | reflexivity].
  - apply List.Forall_forall. intros j Hj.
    destruct (Forall2_In_r _ _ _ _ F Hj) as (p & Hp & Hpj).
    apply M in Hp as [_ Hp].
    destruct (event_dict_date _ _ Hpj) as (d & Ed & ->). congruence.
Qed.

Lemma events_by_date_in_time_order_witness :
  let db := mk_database [ Sample.row 1 "City Hall" (Some (mk_date 2024 1 12));
                          Sample.row 2 "Stadium" (Some (mk_date 2024 1 13)) ] 3 in
  exists js, get_events_by_date (Sample.world "") "2024-1-12" db = (Return js, db)
             /\ Forall (fun j => ev_event_date j = ("2024-01-12" : str)) js.
Proof.
  intros db.
  destruct (events_by_date_in_time_order (Sample.world "") "2024-1-12"
              (mk_date 2024 1 12) db) as (events & js & E & _ & _ & _ & _ & F).
  - reflexivity.
  - vm_compute. reflexivity.
  - exists js. split; [exact E | exact F].
Defined.

(** X5. The date a listing prints for an event, given back to
    [/events/by-date], is read as the date stored and lists that event
    again: [%Y-%m-%d] reads every valid date in its ISO spelling as
    itself. *)
Theorem listed_date_finds_event :
  (forall d, Strptime.valid_date d = true ->
     strptime_date (date_isoformat d) "%Y-%m-%d" = Return d)
  /\ (forall w db p j,
        db_reachable w = true -> valid_rows db ->
        In p (posters db) -> event_dict p = Return j ->
        exists js, get_events_by_date w (ev_event_date j) db = (Return js, db)
                   /\ In j js).
Proof.
  split; [exact strptime_isoformat|].
  intros w db p j Hup V Hin Hj.
  destruct (event_dict_date _ _ Hj) as (d & Ed & Ej).
  assert (Vd : Strptime.valid_date d = true).
  { unfold valid_rows in V. rewrite List.Forall_forall in V. now apply (V p Hin). }
  rewrite Ej, (get_events_by_date_reachable _ _ d _ Hup (strptime_isoformat d Vd)).
  destruct (listing_dated by_event_time _ _ (filter_eq_dated d (posters db)))
    as (js & E & F).
  rewrite E. exists js. split; [reflexivity|].
  destruct (Forall2_In_l _ _ _ p F) as (j' & Hj' & Hpj).
  { apply In_merge_sort, filter_In. split; [exact Hin | now apply Sql_eq_spec]. }
  congruence.
Qed.

Lemma listed_date_finds_event_witness :
  let p := Sample.row 1 "City Hall" (Some (mk_date 2024 2 29)) in
  let db := mk_database [ p; Sample.row 2 "Stadium" (Some (mk_date 2024 3 1)) ] 3 in
  let j := mk_event_json 1 (Some ("Open day" : str)) None (Some ("City Hall" : str))
             None "2024-02-29" None None None in
  strptime_date (date_isoformat (mk_date 2024 2 29)) "%Y-%m-%d" = Return (mk_date 2024 2 29)
  /\ exists js, get_events_by_date (Sample.world "") (ev_event_date j) db = (Return js, db)
                /\ In j js.
Proof.
  intros p db j. split.
  - apply (proj1 listed_date_finds_event). vm_compute. reflexivity.
  - apply (proj2 listed_date_finds_event (Sample.world "") db p j).
    + reflexivity.
    + unfold valid_rows. repeat constructor; intros ? [= <-]; reflexivity.
    + left. reflexivity.
    + vm_compute. reflexivity.
Defined.

(** * The database is down *)

Lemma add_commit_refresh_unreachable w kwargs db :
  db_reachable w = false ->
  add_commit_refresh w kwargs db = (Raise DatabaseError, db).
Proof. intros H. unfold add_commit_refresh. now rewrite H. Qed.

Lemma analyze_poster_unreachable w file db :
  db_reachable w = false ->
  exists e, analyze_poster w file db = (Raise (HTTPException 500 (StrOf e)), db).
Proof.
  intros H. rewrite analyze_poster_unfold.
  destruct (image_open w file); [|eauto].
  destruct (generate_content w file) as [text|]; [|eauto].
  destruct (json_loads w (strip_fences text)) as [v|]; [|eauto].
  destruct (parse_date_and_time v) as [data|e]; [|eauto].
  cbv zeta. rewrite (add_commit_refresh_unreachable _ _ _ H).
  destruct (bool_decide _); [eauto|]. destruct (construct w data); eauto.
Qed.

Lemma get_events_by_date_unreachable w date db :
  db_reachable w = false ->
  exists e, get_events_by_date w date db = (Raise (HTTPException 500 (StrOf e)), db).
Proof.
  intros H. destruct (strptime_date date "%Y-%m-%d") as [d|e] eqn:E.
  - unfold get_events_by_date, except_Exception_500, htry, hbind, lift.
    rewrite E, (query_unreachable _ _ _ _ H). eauto.
  - rewrite (get_events_by_date_malformed _ _ _ _ E). eauto.
Qed.

(** X6. While the database cannot be reached every request is answered with
    500, and the table and its sequence are as before. *)
Theorem unreachable_database_answers_500 w req db :
  db_reachable w = false ->
  status_code (fst (app w req db)) = 500 /\ snd (app w req db) = db.
Proof.
  intros H.
  assert (G : forall A (f : A -> body) (c : handler A),
            (exists e, c db = (Raise (HTTPException 500 (StrOf e)), db)) ->
            status_code (fst (hmap f c db)) = 500 /\ snd (hmap f c db) = db).
  { intros A f c [e E]. destruct (hmap_result f c db) as [-> ->]. now rewrite E. }
  destruct req; cbn [app]; apply G.
  - now apply analyze_poster_unreachable.
  - unfold get_upcoming_events. rewrite listing_unreachable by assumption. eauto.
  - unfold get_events_by_location, get_events_by_column.
    rewrite listing_unreachable by assumption. eauto.
  - now apply get_events_by_date_unreachable.
  - unfold get_events_by_venue, get_events_by_column.
    rewrite listing_unreachable by assumption. eauto.
  - unfold get_events_by_department, get_events_by_column.
    rewrite listing_unreachable by assumption. eauto.
Qed.

Lemma unreachable_database_answers_500_witness :
  let w := mk_world (fun _ => true) (fun _ => Some ("{}" : str)) FlatJson.loads
             Sample.the_date Sample.the_clock false
             (fun _ => None) (fun _ => None) (fun _ => None) (fun _ => None) in
  status_code (fst (app w (AnalyzePoster "poster") Sample.empty)) = 500
  /\ snd (app w (AnalyzePoster "poster") Sample.empty) = Sample.empty.
Proof. intros w. apply unreachable_database_answers_500. reflexivity. Defined.

(** * A poster without a date *)

Lemma text_column_plain w v :
  plain_text v = true -> text_column w v = Some (text_of v).
Proof.
  destruct v as [| s | n | | |]; try discriminate; try reflexivity.
  cbn [plain_text text_column text_of]. intros H%negb_true_iff. now rewrite H.
Qed.

Lemma is_None_eq v : is_None v = true -> v = PyNone.
Proof. destruct v; try discriminate. reflexivity. Qed.

Lemma undated_reply_row w d new_id :
  undated_reply d = true ->
  parse_date_and_time (LoadedDict d) = Return d
  /\ dom d ⊆ list_to_set column_names
  /\ id_column w (get d "id") = Some None
  /\ row_of w d new_id = Some (undated_row w d new_id).
Proof.
  unfold undated_reply. cbn [forallb]. rewrite !andb_true_iff.
  intros [[Hdom (T1 & T2 & T3 & T4 & T5 & T6 & _)] (N1 & N2 & N3 & N4 & _)].
  apply bool_decide_eq_true in Hdom.
  apply is_None_eq in N1, N2, N3, N4.
  split; [|split; [exact Hdom|split]].
  - unfold parse_date_and_time. rewrite N2. cbn [truthy bind]. rewrite N3. reflexivity.
  - now rewrite N1.
  - unfold row_of.
    rewrite (text_column_plain w _ T1), (text_column_plain w _ T2),
      (text_column_plain w _ T3), (text_column_plain w _ T4),
      (text_column_plain w _ T5), (text_column_plain w _ T6), N2, N3, N4.
    reflexivity.
Qed.

Lemma fresh_id db new_id :
  ~ In new_id (map Poster.id (posters db)) ->
  existsb (fun p => (Poster.id p =? new_id)%Z) (posters db) = false.
Proof.
  intros H. apply not_true_iff_false. intros (p & Hp & E)%existsb_exists.
  apply Z.eqb_eq in E. apply H. rewrite <- E. now apply in_map.
Qed.

(** Such a reply is stored, with the next value of the sequence. *)
Lemma undated_reply_stored w file db text d :
  image_open w file = true -> generate_content w file = Some text ->
  json_loads w (strip_fences text) = Some (LoadedDict d) ->
  undated_reply d = true -> db_reachable w = true ->
  ~ In (posters_id_seq db) (map Poster.id (posters db)) ->
  analyze_poster w file db
  = (Return d, mk_database (posters db ++ [undated_row w d (posters_id_seq db)])
                           (posters_id_seq db + 1)).
Proof.
  intros Hi Hg Hj Hu Hup Hfresh.
  destruct (undated_reply_row w d (posters_id_seq db) Hu) as (P & Hdom & I & R).
  rewrite analyze_poster_unfold, Hi, Hg, Hj, P. cbv zeta.
  rewrite (bool_decide_eq_true_2 _ Hdom).
  unfold add_commit_refresh. rewrite Hup, I. cbn [negb]. rewrite R.
  rewrite (fresh_id db _ Hfresh). reflexivity.
Qed.

Lemma truthy_empty : truthy (PyStr []) = false.
Proof. reflexivity. Qed.

Lemma parse_keeps_empty_date d data :
  get d "event_date" = PyStr [] ->
  parse_date_and_time (LoadedDict d) = Return data ->
  get data "event_date" = PyStr [].
Proof.
  intros G. unfold parse_date_and_time. rewrite G, truthy_empty. cbn [bind].
  destruct (truthy (get d "event_time")) eqn:T.
  - destruct (get d "event_time") as [| s | | | |] eqn:V; try discriminate.
    destruct (parse_event_time s) as [t|]; [|discriminate]. cbn [bind].
    intros [= <-]. rewrite get_insert_ne; [exact G | discriminate].
  - intros [= <-]. exact G.
Qed.

Lemma row_of_needs_date w kwargs new_id :
  date_column (get kwargs "event_date") = None -> row_of w kwargs new_id = None.
Proof.
  intros H. unfold row_of.
  destruct (text_column w (get kwargs "title")); [|reflexivity].
  destruct (text_column w (get kwargs "name")); [|reflexivity].
  destruct (text_column w (get kwargs "location")); [|reflexivity].
  destruct (text_column w (get kwargs "socials")); [|reflexivity].
  cbn [mbind option_bind]. now rewrite H.
Qed.

Lemma add_commit_refresh_refused w kwargs db :
  date_column (get kwargs "event_date") = None ->
  add_commit_refresh w kwargs db = (Raise DatabaseError, db).
Proof.
  intros H. unfold add_commit_refresh.
  destruct (negb (db_reachable w)); [reflexivity|].
  destruct (id_column w (get kwargs "id")) as [[n|]|]; [| |reflexivity];
    now rewrite (row_of_needs_date w kwargs _ H).
Qed.

(** An empty string for the date is never stored. *)
Lemma empty_date_refused w file db text d :
  image_open w file = true -> generate_content w file = Some text ->
  json_loads w (strip_fences text) = Some (LoadedDict d) ->
  get d "event_date" = PyStr [] ->
  exists e, analyze_poster w file db = (Raise (HTTPException 500 (StrOf e)), db).
Proof.
  intros Hi Hg Hj G. rewrite analyze_poster_unfold, Hi, Hg, Hj.
  destruct (parse_date_and_time (LoadedDict d)) as [data|e] eqn:P; [|eauto].
  pose proof (parse_keeps_empty_date d data G P) as G'.
  cbv zeta. rewrite (add_commit_refresh_refused w data db) by now rewrite G'.
  destruct (bool_decide _); [eauto|]. destruct (construct w data); eauto.
Qed.

(** X7. A reply that names columns only and gives texts for the text
    columns and nothing for the date, the time, [id] and [created_at] is
    stored, with a NULL date, whenever the image opens, the database is
    reachable and the next [id] is free; from then on every listing by
    location whose value matches the stored location answers 500 when
    [upcoming_only] is off.  A reply whose date is the empty string is
    never stored: the request answers 500 and leaves the database as it
    was. *)
Theorem undated_poster_breaks_listing :
  (forall w file db text d,
     image_open w file = true -> generate_content w file = Some text ->
     json_loads w (strip_fences text) = Some (LoadedDict d) ->
     undated_reply d = true -> db_reachable w = true ->
     ~ In (posters_id_seq db) (map Poster.id (posters db)) ->
     exists row db',
       analyze_poster w file db = (Return d, db')
       /\ posters db' = posters db ++ [row]
       /\ Poster.id row = posters_id_seq db
       /\ Poster.event_date row = None
       /\ Poster.location row = text_of (get d "location")
       /\ forall location w' value,
            get d "location" = PyStr location ->
            Sql.ilike (Some location) ("%" ++ value ++ "%") = true ->
            db_reachable w' = true ->
            get_events_by_location w' value false db'
            = (Raise (HTTPException 500 (StrOf AttributeError)), db'))
  /\ (forall w file db text d,
        image_open w file = true -> generate_content w file = Some text ->
        json_loads w (strip_fences text) = Some (LoadedDict d) ->
        get d "event_date" = PyStr [] ->
        status_code (fst (analyze_poster w file db)) = 500
        /\ snd (analyze_poster w file db) = db).
Proof.
  split.
  - intros w file db text d Hi Hg Hj Hu Hup Hfresh.
    exists (undated_row w d (posters_id_seq db)),
           (mk_database (posters db ++ [undated_row w d (posters_id_seq db)])
                        (posters_id_seq db + 1)).
    split; [now apply (undated_reply_stored w file db text d)|].
    split; [reflexivity|]. split; [reflexivity|]. split; [reflexivity|].
    split; [reflexivity|].
    intros location w' value Hloc Hlike Hup'.
    unfold get_events_by_location. rewrite get_events_by_column_reachable by assumption.
    rewrite comprehension_undated; [reflexivity|].
    apply List.Exists_exists. exists (undated_row w d (posters_id_seq db)).
    split; [|reflexivity].
    apply In_merge_sort, filter_In. split.
    + cbn [posters]. apply in_or_app. right. now left.
    + cbn [undated_row Poster.location Poster.event_date]. rewrite Hloc.
      cbn [text_of]. rewrite Hlike. reflexivity.
  - intros w file db text d Hi Hg Hj G.
    destruct (empty_date_refused w file db text d Hi Hg Hj G) as [e ->].
    split; reflexivity.
Qed.

Lemma undated_poster_breaks_listing_witness :
  let w := Sample.world (Sample.reply [("title" : str, "Open day" : str);
                                       ("location" : str, "City Hall" : str)]) in
  let row := Poster.mk 1 (Some ("Open day" : str)) None (Some ("City Hall" : str)) None
               None None None None Sample.the_clock in
  analyze_poster w "poster" Sample.empty
  = (Return (<["location" := PyStr "City Hall"]> (<["title" := PyStr "Open day"]> ∅)),
     mk_database [row] 2)
  /\ get_events_by_location w "hall" false (mk_database [row] 2)
     = (Raise (HTTPException 500 (StrOf AttributeError)), mk_database [row] 2)
  /\ status_code
       (fst (analyze_poster
               (Sample.world (Sample.reply [("location" : str, "City Hall" : str);
                                            ("event_date" : str, "" : str)]))
               "poster" Sample.empty)) = 500.
Proof.
  intros w row.
  set (d := <["location" := PyStr "City Hall"]> (<["title" := PyStr "Open day"]> ∅)
            : gmap string pyvalue).
  destruct (proj1 undated_poster_breaks_listing w "poster" Sample.empty
              (Sample.reply [("title" : str, "Open day" : str);
                             ("location" : str, "City Hall" : str)]) d)
    as (row' & db' & E & Hrows & Hid & Hdate & Hloc & Hlist).
  - reflexivity.
  - reflexivity.
  - vm_compute. reflexivity.
  - vm_compute. reflexivity.
  - reflexivity.
  - simpl. tauto.
  - assert (E' : analyze_poster w "poster" Sample.empty = (Return d, mk_database [row] 2))
      by (vm_compute; reflexivity).
    assert (db' = mk_database [row] 2) as -> by congruence.
    split; [exact E'|]. split.
    + apply (Hlist "City Hall" w "hall"); vm_compute; reflexivity.
    + apply (proj2 undated_poster_breaks_listing _ "poster" Sample.empty
               (Sample.reply [("location" : str, "City Hall" : str);
                              ("event_date" : str, "" : str)])
               (<["location" := PyStr "City Hall"]> (<["event_date" := PyStr ""]> ∅)));
        vm_compute; reflexivity.
Defined.

(** * Values of the substring endpoints *)

Lemma lower_char_idem c : Py.lower_char (Py.lower_char c) = Py.lower_char c.
Proof. each_char c; reflexivity. Qed.

Lemma ilike_lower column v1 v2 :
  Py.lower v1 = Py.lower v2 ->
  Sql.ilike column ("%" ++ v1 ++ "%") = Sql.ilike column ("%" ++ v2 ++ "%").
Proof.
  intros H. destruct column as [text|]; [|reflexivity].
  unfold Sql.ilike. now rewrite !lower_app, H.
Qed.

(** X8. Two values that differ in the case of their letters only get the same
    answer from a substring endpoint, wildcards or not. *)
Theorem value_case_is_ignored column w v1 v2 upcoming_only db :
  Py.lower v1 = Py.lower v2 ->
  get_events_by_column column w v1 upcoming_only db
  = get_events_by_column column w v2 upcoming_only db.
Proof.
  intros H. unfold get_events_by_column, except_Exception_500, htry, hbind, query.
  destruct (db_reachable w); [|reflexivity].
  rewrite (filter_ext
             (fun p => Sql.ilike (column p) ("%" ++ v1 ++ "%")
                       && (if upcoming_only
                           then Sql.ge (Poster.event_date p) (today w) else true))
             (fun p => Sql.ilike (column p) ("%" ++ v2 ++ "%")
                       && (if upcoming_only
                           then Sql.ge (Poster.event_date p) (today w) else true)));
    [reflexivity|].
  intros p. now rewrite (ilike_lower _ v1 v2 H).
Qed.

Lemma value_case_is_ignored_witness :
  let db := mk_database [ Sample.row 1 "City Hall" (Some (mk_date 2024 1 12)) ] 2 in
  get_events_by_column Poster.location (Sample.world "") "HALL" false db
  = get_events_by_column Poster.location (Sample.world "") "hall" false db.
Proof. intros db. apply value_case_is_ignored. reflexivity. Defined.

Lemma like_skip_percent p t : Sql.like p t = true -> Sql.like ("%"%char :: p) t = true.
Proof. intros H. apply like_percent. exists [], t. auto. Qed.

Lemma like_percents value t :
  forallb (Ascii.eqb "%") value = true -> Sql.like (value ++ "%") t = true.
Proof.
  induction value as [|c value IH]; cbn [forallb app]; [intros _; apply like_any|].
  intros [Hc Hv]%andb_true_iff. apply Ascii.eqb_eq in Hc as <-.
  apply like_skip_percent. now apply IH.
Qed.

Lemma ilike_percents column value :
  forallb (Ascii.eqb "%") value = true ->
  Sql.ilike column ("%" ++ value ++ "%") = bool_decide (column <> None).
Proof.
  intros H. destruct column as [text|]; [|reflexivity].
  unfold Sql.ilike. rewrite !lower_app.
  change (Py.lower "%") with ("%" : str).
  change ("%" ++ Py.lower value ++ "%") with ("%"%char :: (Py.lower value ++ "%")).
  rewrite like_skip_percent; [reflexivity|]. apply like_percents.
  clear -H. induction value as [|c value IH]; [reflexivity|].
  cbn [forallb] in H. apply andb_true_iff in H as [Hc Hv].
  apply Ascii.eqb_eq in Hc as <-. cbn [Py.lower map forallb].
  change (Py.lower_char "%") with "%"%char. rewrite Ascii.eqb_refl.
  now apply IH.
Qed.

(** X9. A value made of percent signs is a wildcard for everything: the
    endpoint lists every row whose column is not NULL (from today on when
    [upcoming_only] is set), whatever the column holds. *)
Theorem percent_lists_every_row column w value upcoming_only db :
  forallb (Ascii.eqb "%") value = true ->
  db_reachable w = true ->
  (upcoming_only = true
   \/ forall p, In p (posters db) -> column p <> None -> Poster.event_date p <> None) ->
  exists events js,
    get_events_by_column column w value upcoming_only db = (Return js, db)
    /\ Forall2 (fun p j => event_dict p = Return j) events js
    /\ events ≡ₚ List.filter
                   (fun p => bool_decide (column p <> None)
                             && (if upcoming_only
                                 then Sql.ge (Poster.event_date p) (today w)
                                 else true))
                   (posters db).
Proof.
  intros Hv Hup Hdated. rewrite get_events_by_column_reachable by assumption.
  rewrite (filter_ext _ (fun p => bool_decide (column p <> None)
                                  && (if upcoming_only
                                      then Sql.ge (Poster.event_date p) (today w)
                                      else true)))
    by (intros p; now rewrite ilike_percents).
  destruct (listing_dated by_event_date
              (fun p => bool_decide (column p <> None)
                        && (if upcoming_only
                            then Sql.ge (Poster.event_date p) (today w)
                            else true)) (posters db)) as (js & E & F).
  { intros p Hin [Hc Hd]%andb_true_iff. destruct Hdated as [-> | Hdated].
    - destruct (Poster.event_date p); [discriminate | discriminate Hd].
    - apply Hdated; [exact Hin|]. now apply bool_decide_eq_true in Hc. }
  rewrite E. eexists _, js. split; [reflexivity|]. split; [exact F|].
  apply merge_sort_Permutation.
Qed.

Lemma percent_lists_every_row_witness :
  let db := mk_database [ Sample.row 1 "City Hall" (Some (mk_date 2024 1 12));
                          Sample.row 2 "Stadium" (Some (mk_date 2024 1 11)) ] 3 in
  exists events js,
    get_events_by_column Poster.location (Sample.world "") "%" false db = (Return js, db)
    /\ Forall2 (fun p j => event_dict p = Return j) events js
    /\ events ≡ₚ posters db.
Proof.
  intros db.
  destruct (percent_lists_every_row Poster.location (Sample.world "") "%" false db)
    as (events & js & E & F & P).
  - reflexivity.
  - reflexivity.
  - right. intros p [<-|[<-|[]]] _; discriminate.
  - exists events, js. split; [exact E|]. split; [exact F|]. exact P.
Defined.

(** * What a listing shows *)

Lemma comprehension_Return {A B} (f : A -> result B) l js :
  comprehension f l = Return js -> Forall2 (fun x y => f x = Return y) l js.
Proof.
  revert js. induction l as [|x l IH]; cbn [comprehension]; intros js.
  - intros [= <-]. constructor.
  - destruct (f x) as [y|] eqn:E; [|discriminate]. cbn [bind].
    destruct (comprehension f l) as [ys|]; [|discriminate]. cbn [bind].
    intros [= <-]. constructor; auto.
Qed.

Lemma listing_Return w where_ order `{!forall a b, Decision (order a b)} db js :
  fst (except_Exception_500
         (do events <- query w where_ order; lift (comprehension event_dict events)) db)
  = Return js ->
  comprehension event_dict (merge_sort order (List.filter where_ (posters db))) = Return js.
Proof.
  destruct (db_reachable w) eqn:Hup.
  - rewrite listing_reachable by assumption. simpl.
    destruct (comprehension _ _); [now intros [= ->] | discriminate].
  - rewrite listing_unreachable by assumption. discriminate.
Qed.

Lemma get_events_by_date_Return w date db js :
  fst (get_events_by_date w date db) = Return js ->
  exists search_date,
    comprehension event_dict
      (merge_sort by_event_time
         (List.filter (fun p => Sql.eq (Poster.event_date p) search_date) (posters db)))
    = Return js.
Proof.
  destruct (strptime_date date "%Y-%m-%d") as [d|e] eqn:E.
  - destruct (db_reachable w) eqn:Hup.
    + rewrite (get_events_by_date_reachable _ _ _ _ Hup E). simpl.
      destruct (comprehension _ _) eqn:C; [|discriminate]. intros [= <-]. eauto.
    + destruct (get_events_by_date_unreachable w date db Hup) as [e ->]. discriminate.
  - rewrite (get_events_by_date_malformed _ _ _ _ E). discriminate.
Qed.

(** The rows behind the dicts of a listing. *)
Lemma listing_rows w req db js :
  fst (app w req db) = Return (Events js) ->
  exists (where_ : Poster.t -> bool) events,
    Forall2 (fun p j => event_dict p = Return j) events js
    /\ events ≡ₚ List.filter where_ (posters db).
Proof.
  assert (G : forall (c : handler (list event_json)),
            fst (hmap Events c db) = Return (Events js) -> fst (c db) = Return js).
  { intros c. rewrite (proj1 (hmap_result _ _ _)).
    destruct (fst (c db)); [now intros [= ->] | discriminate]. }
  destruct req; cbn [app]; intros H.
  - rewrite (proj1 (hmap_result _ _ _)) in H.
    destruct (fst (analyze_poster w file db)); discriminate.
  - apply G, listing_Return, comprehension_Return in H.
    eexists _, _. split; [exact H | apply merge_sort_Permutation].
  - apply G, listing_Return, comprehension_Return in H.
    eexists _, _. split; [exact H | apply merge_sort_Permutation].
  - apply G, get_events_by_date_Return in H as [d H]. apply comprehension_Return in H.
    eexists _, _. split; [exact H | apply merge_sort_Permutation].
  - apply G, listing_Return, comprehension_Return in H.
    eexists _, _. split; [exact H | apply merge_sort_Permutation].
  - apply G, listing_Return, comprehension_Return in H.
    eexists _, _. split; [exact H | apply merge_sort_Permutation].
Qed.

Lemma Forall2_ids events js :
  Forall2 (fun p j => event_dict p = Return j) events js ->
  map ev_id js = map Poster.id events.
Proof.
  induction 1 as [|p j events js H _ IH]; [reflexivity|].
  simpl. now rewrite IH, (event_dict_id _ _ H).
Qed.

Lemma NoDup_map_filter {A B} (f : A -> B) (P : A -> bool) l :
  NoDup (map f l) -> NoDup (map f (List.filter P l)).
Proof.
  induction l as [|x l IH]; simpl; [auto|].
  intros [Hx Hl]%NoDup_cons. destruct (P x); simpl; [|auto].
  apply NoDup_cons. split; [|auto].
  intros Hin. apply Hx. apply list_elem_of_In in Hin. apply list_elem_of_In.
  apply in_map_iff in Hin as (y & <- & Hy). apply in_map.
  now apply filter_In in Hy as [Hy _].
Qed.

(** X10. A listing shows stored rows only, and no row twice: each dict it
    returns is the dict of a row of the table, there are no more dicts than
    rows, and while the ids of the table are distinct so are the ids
    listed. *)
Theorem listing_shows_stored_rows_once w req db js :
  fst (app w req db) = Return (Events js) ->
  (forall j, In j js -> exists p, In p (posters db) /\ event_dict p = Return j)
  /\ length js <= length (posters db)
  /\ (unique_ids db -> NoDup (map ev_id js)).
Proof.
  intros H. destruct (listing_rows w req db js H) as (where_ & events & F & P).
  split; [|split].
  - intros j Hj. destruct (Forall2_In_r _ _ _ _ F Hj) as (p & Hp & Hpj).
    exists p. split; [|exact Hpj].
    apply list_elem_of_In in Hp. rewrite P in Hp. apply list_elem_of_In in Hp.
    now apply filter_In in Hp as [Hp _].
  - rewrite <- (Forall2_length _ _ _ F), P. apply filter_length_le.
  - intros U. rewrite (Forall2_ids _ _ F), P. now apply NoDup_map_filter.
Qed.

Lemma listing_shows_stored_rows_once_witness :
  let db := mk_database [ Sample.row 1 "City Hall" (Some (mk_date 2024 1 12));
                          Sample.row 2 "Town Hall" (Some (mk_date 2024 1 11)) ] 3 in
  let js := [ mk_event_json 2 (Some ("Open day" : str)) None (Some ("Town Hall" : str))
                None "2024-01-11" None None None;
              mk_event_json 1 (Some ("Open day" : str)) None (Some ("City Hall" : str))
                None "2024-01-12" None None None ] in
  fst (app (Sample.world "") (GetEventsByLocation "hall" false) db) = Return (Events js)
  /\ length js <= length (posters db)
  /\ NoDup (map ev_id js).
Proof.
  intros db js.
  assert (H : fst (app (Sample.world "") (GetEventsByLocation "hall" false) db)
              = Return (Events js))
    by (vm_compute; reflexivity).
  destruct (listing_shows_stored_rows_once _ _ _ _ H) as (_ & L & U).
  split; [exact H|]. split; [exact L|].
  apply U. unfold unique_ids. apply (bool_decide_unpack _). vm_compute. exact I.
Defined.

(** * More on [str.replace] *)

Lemma replace_scan_skip old new s k :
  k <= length s ->
  Py.replace_scan old new k s = Py.replace_scan old new 0 (drop k s).
Proof.
  revert k. induction s as [|c s IH]; intros k Hk.
  - simpl in Hk. assert (k = 0) as -> by lia. reflexivity.
  - destruct k as [|k]; [reflexivity|]. cbn [Py.replace_scan drop]. apply IH.
    simpl in Hk. lia.
Qed.

Lemma replace_scan_match old new s :
  old <> [] -> Py.startswith s old = true ->
  Py.replace_scan old new 0 s = new ++ Py.replace_scan old new 0 (drop (length old) s).
Proof.
  intros Hne H. pose proof (startswith_length _ _ H) as L.
  destruct s as [|c s]; [destruct old; [congruence | discriminate]|].
  cbn [Py.replace_scan]. rewrite H. f_equal.
  destruct old as [|a old]; [congruence|]. simpl in L.
  rewrite replace_scan_skip by (simpl; lia). simpl. now rewrite Nat.sub_0_r.
Qed.

Lemma replace_scan_no_match old new c s :
  Py.startswith (c :: s) old = false ->
  Py.replace_scan old new 0 (c :: s) = c :: Py.replace_scan old new 0 s.
Proof. intros H. cbn [Py.replace_scan]. now rewrite H. Qed.

Lemma drop_shorter {A} n (l : list A) : l <> [] -> 0 < n -> length (drop n l) < length l.
Proof. intros Hl Hn. rewrite length_drop. destruct l; [congruence | simpl; lia]. Qed.

Lemma contains_strip s w : contains (Py.strip s) w -> contains s w.
Proof.
  destruct (strip_split s) as (L & R & _ & _ & E). intros (before & after & E').
  rewrite E' in E. exists (L ++ before), (after ++ R). rewrite E.
  now rewrite <- !app_assoc.
Qed.

Lemma containsb_strip s w : containsb s w = false -> containsb (Py.strip s) w = false.
Proof.
  intros H. apply not_true_iff_false. intros C. apply containsb_contains, contains_strip in C.
  apply containsb_contains in C. congruence.
Qed.

Lemma strip_idem s : Py.strip (Py.strip s) = Py.strip s.
Proof.
  destruct (strip_split s) as (L & R & HL & HR & E).
  rewrite E at 2. now rewrite strip_padding.
Qed.

(** * The code fence *)

Lemma startswith_cons c s a p :
  Py.startswith (c :: s) (a :: p) = Ascii.eqb a c && Py.startswith s p.
Proof. reflexivity. Qed.

Lemma startswith_one c s a : Py.startswith (c :: s) [a] = Ascii.eqb a c.
Proof. rewrite startswith_cons. destruct s; apply andb_true_r. Qed.

Lemma startswith_longer s a p :
  Py.startswith s [a] = false -> Py.startswith s (a :: p) = false.
Proof.
  destruct s as [|c s]; [reflexivity|]. rewrite startswith_one, startswith_cons.
  now intros ->.
Qed.

Lemma unfence_head s :
  Py.startswith s [tick] = false -> Py.startswith (unfence s) [tick] = false.
Proof.
  destruct s as [|c s]; [reflexivity|]. rewrite startswith_one. intros E.
  unfold unfence. rewrite replace_scan_no_match.
  - now rewrite startswith_one.
  - unfold fence. now rewrite startswith_cons, E.
Qed.

Lemma unfence_head2 s :
  Py.startswith s [tick; tick] = false ->
  Py.startswith (unfence s) [tick; tick] = false.
Proof.
  destruct s as [|c s]; [reflexivity|]. rewrite startswith_cons. intros H.
  assert (N : Py.startswith (c :: s) fence = false).
  { unfold fence. rewrite startswith_cons.
    apply andb_false_iff in H as [H|H]; [now rewrite H|].
    rewrite (startswith_longer _ _ _ H). apply andb_false_r. }
  unfold unfence. rewrite (replace_scan_no_match _ _ _ _ N). fold (unfence s).
  rewrite startswith_cons.
  apply andb_false_iff in H as [H|H]; [now rewrite H|].
  rewrite (unfence_head _ H). apply andb_false_r.
Qed.

Lemma unfence_no_fence_upto n s :
  length s <= n -> containsb (unfence s) fence = false.
Proof.
  revert s. induction n as [|n IH]; intros s L.
  - destruct s; [reflexivity | simpl in L; lia].
  - destruct s as [|c s]; [reflexivity|].
    destruct (Py.startswith (c :: s) fence) eqn:M.
    + unfold unfence. rewrite replace_scan_match by (assumption || discriminate).
      cbn [app]. apply IH.
      assert (length (drop (length fence) (c :: s)) < length (c :: s))
        by (apply drop_shorter; [discriminate | simpl; lia]).
      lia.
    + unfold unfence. rewrite (replace_scan_no_match _ _ _ _ M). fold (unfence s).
      cbn [containsb]. rewrite (IH s) by (simpl in L; lia). rewrite orb_false_r.
      unfold fence in M |- *. rewrite startswith_cons in M |- *.
      apply andb_false_iff in M as [M|M]; [now rewrite M|].
      rewrite (unfence_head2 _ M). apply andb_false_r.
Qed.

Lemma unfence_no_fence s : containsb (unfence s) fence = false.
Proof. now apply (unfence_no_fence_upto (length s)). Qed.

Lemma replace_scan_absent old new s :
  old <> [] -> existsb (Ascii.eqb (hd tick old)) s = false ->
  Py.replace_scan old new 0 s = s.
Proof.
  intros Hne. destruct old as [|a old]; [congruence|]. simpl hd.
  induction s as [|c s IH]; [reflexivity|]. cbn [existsb].
  intros [Hc Hs]%orb_false_iff. rewrite replace_scan_no_match.
  - now rewrite IH.
  - cbn [Py.startswith]. now rewrite Hc.
Qed.


(** X11. What is handed to [json.loads] holds no code fence, however many
    backticks the model wrote; and a text without any backtick is only
    trimmed. *)
Theorem fences_are_stripped :
  (forall text, containsb (strip_fences text) "```" = false)
  /\ (forall text, existsb (Ascii.eqb "`") text = false ->
        strip_fences text = Py.strip text).
Proof.
  split.
  - intros text. unfold strip_fences. apply containsb_strip.
    apply (unfence_no_fence (Py.replace (Py.strip text) "```json" "")).
  - intros text H. unfold strip_fences.
    assert (H' : existsb (Ascii.eqb "`") (Py.strip text) = false).
    { destruct (strip_split text) as (L & R & _ & _ & E). rewrite E in H.
      rewrite !existsb_app in H. apply orb_false_iff in H as [_ H].
      now apply orb_false_iff in H as [H _]. }
    rewrite !replace_nonempty by discriminate.
    rewrite (replace_scan_absent "```json" "" (Py.strip text)) by (discriminate || exact H').
    rewrite (replace_scan_absent "```" "" (Py.strip text)) by (discriminate || exact H').
    apply strip_idem.
Qed.

Lemma fences_are_stripped_witness :
  strip_fences "  {}  " = ("{}" : str).
Proof.
  rewrite (proj2 fences_are_stripped "  {}  "); vm_compute; reflexivity.
Defined.

(** * Markers after the cleaning *)

Lemma containsb_cons c s w :
  containsb (c :: s) w = Py.startswith (c :: s) w || containsb s w.
Proof. reflexivity. Qed.

Lemma containsb_suffix pre s w : containsb (pre ++ s) w = false -> containsb s w = false.
Proof.
  intros H. apply not_true_iff_false. intros C. apply containsb_contains in C.
  destruct C as (before & after & ->).
  assert (containsb (pre ++ before ++ w ++ after) w = true); [|congruence].
  apply containsb_contains. exists (pre ++ before), after. now rewrite <- app_assoc.
Qed.

Lemma startswith_app_l u v w :
  Py.startswith u w = true -> Py.startswith (u ++ v) w = true.
Proof.
  intros [rest ->]%startswith_prefix. apply startswith_prefix.
  exists (rest ++ v). now rewrite <- app_assoc.
Qed.

Section Pairs.

Variables x y : ascii.

(** No [x] directly followed by [y] in [u ++ v]: none in [u], none in
    [v], and none across the seam. *)
Lemma pair_app u v :
  containsb u [x; y] = false -> containsb v [x; y] = false ->
  (u <> [] -> List.last u x <> x \/ Py.startswith v [y] = false) ->
  (u = [] -> True) ->
  containsb (u ++ v) [x; y] = false.
Proof.
  intros Hu Hv Hseam _. induction u as [|a u IH]; [exact Hv|].
  change ((a :: u) ++ v) with (a :: (u ++ v)). rewrite containsb_cons in Hu |- *.
  apply orb_false_iff in Hu as [Ha Hu]. apply orb_false_iff. split.
  - destruct u as [|b u].
    + cbn [app]. rewrite startswith_cons.
      destruct (Ascii.eqb_spec x a) as [<-|]; [|reflexivity]. cbn [andb].
      destruct (Hseam ltac:(discriminate)) as [H|H]; [now simpl in H | exact H].
    + change (a :: (b :: u) ++ v) with (a :: b :: (u ++ v)).
      rewrite !startswith_cons in Ha |- *.
      destruct (Ascii.eqb x a); [|reflexivity]. cbn [andb] in Ha |- *.
      destruct (Ascii.eqb y b); [|reflexivity]. cbn [andb] in Ha.
      destruct u; discriminate.
  - apply IH; [exact Hu|]. intros Hne. destruct u as [|b u]; [congruence|].
    apply (Hseam ltac:(discriminate)).
Qed.

Variables old new : str.
Hypothesis old_nonempty : old <> [].
Hypothesis new_nonempty : new <> [].
Hypothesis new_head : Py.startswith new [y] = false.
Hypothesis new_last : List.last new x <> x.
Hypothesis new_pair : containsb new [x; y] = false.

(** Replacing [old] by [new] leaves no [x] directly followed by [y] when
    every such pair of the string is the start of an occurrence of [old]. *)
Lemma replace_kills_pair_upto n s :
  length s <= n ->
  (forall pre t, s = pre ++ t ->
     Py.startswith t [x; y] = true -> Py.startswith t old = true) ->
  containsb (Py.replace_scan old new 0 s) [x; y] = false
  /\ (Py.startswith (Py.replace_scan old new 0 s) [y] = true ->
      Py.startswith s [y] = true).
Proof.
  revert s. induction n as [|n IH]; intros s L H.
  - destruct s; [split; [reflexivity | discriminate] | simpl in L; lia].
  - destruct s as [|c s]; [split; [reflexivity | discriminate]|].
    destruct (Py.startswith (c :: s) old) eqn:M.
    + rewrite replace_scan_match by assumption.
      assert (Ld : length (drop (length old) (c :: s)) <= n).
      { assert (length (drop (length old) (c :: s)) < length (c :: s)); [|lia].
        apply drop_shorter; [discriminate|]. destruct old; [congruence | simpl; lia]. }
      destruct (IH _ Ld) as [I1 I2].
      { intros pre t E. apply (H (take (length old) (c :: s) ++ pre) t).
        now rewrite <- app_assoc, <- E, take_drop. }
      split.
      * apply pair_app; auto.
      * intros S. exfalso.
        destruct new as [|a new']; [congruence|].
        change ((a :: new') ++ ?r) with (a :: (new' ++ r)) in S.
        rewrite startswith_one in S. rewrite startswith_one in new_head. congruence.
    + rewrite (replace_scan_no_match _ _ _ _ M).
      destruct (IH s ltac:(simpl in L; lia)) as [I1 I2].
      { intros pre t E. apply (H (c :: pre) t). now rewrite E. }
      split.
      * rewrite containsb_cons, I1, orb_false_r.
        destruct (Py.replace_scan old new 0 s) as [|b r] eqn:G;
          [rewrite startswith_cons; apply andb_false_r|].
        rewrite !startswith_cons.
        destruct (Ascii.eqb_spec x c) as [<-|]; [|reflexivity]. cbn [andb].
        destruct (Ascii.eqb y b) eqn:Eb; [|reflexivity]. exfalso.
        assert (S : Py.startswith s [y] = true).
        { apply I2. now rewrite startswith_one. }
        assert (Py.startswith (x :: s) old = true); [|congruence].
        apply (H [] (x :: s) eq_refl). rewrite startswith_cons, Ascii.eqb_refl.
        exact S.
      * rewrite !startswith_one. auto.
Qed.

Lemma replace_kills_pair s :
  (forall pre t, s = pre ++ t ->
     Py.startswith t [x; y] = true -> Py.startswith t old = true) ->
  containsb (Py.replace s old new) [x; y] = false.
Proof.
  intros H. rewrite replace_nonempty by assumption.
  now apply (replace_kills_pair_upto (length s)).
Qed.

End Pairs.

Lemma suffix_startswith_contains pre t s w :
  s = pre ++ t -> Py.startswith t w = true -> containsb s w = true.
Proof.
  intros -> [rest ->]%startswith_prefix. apply containsb_contains. now exists pre, rest.
Qed.

Lemma cleaned_has_no_lower_marker raw :
  containsb (clean_time_string raw) "am" = false
  /\ containsb (clean_time_string raw) "pm" = false.
Proof.
  unfold clean_time_string.
  generalize (fold_left remove_word words_to_remove (Py.lower raw)). intros s.
  assert (P1 : containsb (Py.replace s "pm" " PM") "pm" = false).
  { apply (replace_kills_pair "p" "m" "pm" " PM");
      try (first [discriminate | reflexivity | (vm_compute; discriminate)]).
    intros pre t _ H. exact H. }
  split; apply containsb_strip.
  - apply (replace_kills_pair "a" "m" "am" " AM");
      try (first [discriminate | reflexivity | (vm_compute; discriminate)]).
    intros pre t _ H. exact H.
  - apply (replace_kills_pair "p" "m" "am" " AM");
      try (first [discriminate | reflexivity | (vm_compute; discriminate)]).
    intros pre t E H.
    destruct (eq_true_false_abs _ (suffix_startswith_contains _ _ _ _ E H) P1).
Qed.

(** X12. Once cleaned, a string holds neither "am" nor "pm" in lower case: a
    marker of the input, whatever its case, has become " AM" or " PM".  The
    marker the pattern finds is therefore never one of its lower-case
    alternatives. *)
Theorem markers_become_upper_case :
  (forall raw,
     containsb (clean_time_string raw) "am" = false
     /\ containsb (clean_time_string raw) "pm" = false)
  /\ (forall raw m p,
        TimePattern.search (clean_time_string raw) = Some m ->
        TimePattern.group3 m = Some p ->
        p = ("AM" : str) \/ p = ("PM" : str)).
Proof.
  split; [exact cleaned_has_no_lower_marker|].
  intros raw m p S G.
  destruct (cleaned_has_no_lower_marker raw) as [Ham Hpm].
  destruct (search_spec _ _ S) as (pre & rest & E & _ & Hat).
  destruct (match_at_layout _ _ Hat) as (sep & ws & tail & Er & _).
  destruct (match_at_spec _ _ Hat) as (_ & _ & _ & Hp).
  rewrite G in Er. cbn [default] in Er.
  assert (C : contains (clean_time_string raw) p).
  { exists (pre ++ TimePattern.group1 m ++ sep ++ default [] (TimePattern.group2 m) ++ ws), tail.
    rewrite E, Er. now rewrite <- !app_assoc. }
  apply containsb_contains in C.
  destruct (Hp p G) as [<-|[<-|[<-|[<-|[]]]]]; auto; congruence.
Qed.

Lemma markers_become_upper_case_witness :
  TimePattern.search (clean_time_string "5:30pm sharp")
  = Some (TimePattern.mk_groups "5" (Some ("30" : str)) (Some ("PM" : str)))
  /\ (("PM" : str) = ("AM" : str) \/ ("PM" : str) = ("PM" : str)).
Proof.
  assert (S : TimePattern.search (clean_time_string "5:30pm sharp")
              = Some (TimePattern.mk_groups "5" (Some ("30" : str)) (Some ("PM" : str))))
    by (vm_compute; reflexivity).
  split; [exact S|].
  exact (proj2 markers_become_upper_case "5:30pm sharp" _ ("PM" : str) S eq_refl).
Defined.

(** * The format without a space *)

Lemma lower_char_not_capital c : Py.between 65 90 (Py.lower_char c) = false.
Proof. each_char c; reflexivity. Qed.

Lemma lacks_lower y raw :
  Py.between 65 90 y = true -> existsb (Ascii.eqb y) (Py.lower raw) = false.
Proof.
  intros Hy. induction raw as [|c raw IH]; [reflexivity|].
  cbn [Py.lower map existsb]. fold (Py.lower raw). rewrite IH, orb_false_r.
  destruct (Ascii.eqb_spec y (Py.lower_char c)) as [->|]; [|reflexivity].
  now rewrite lower_char_not_capital in Hy.
Qed.

Lemma lacks_replace_scan y old new :
  existsb (Ascii.eqb y) new = false ->
  forall s k, existsb (Ascii.eqb y) s = false ->
              existsb (Ascii.eqb y) (Py.replace_scan old new k s) = false.
Proof.
  intros Hnew. induction s as [|c s IH]; intros k H; [reflexivity|].
  cbn [existsb] in H. apply orb_false_iff in H as [Hc Hs].
  destruct k as [|k]; cbn [Py.replace_scan]; [|now apply IH].
  destruct (Py.startswith (c :: s) old).
  - rewrite existsb_app, Hnew. now apply IH.
  - cbn [existsb]. rewrite Hc. now apply IH.
Qed.

Lemma lacks_strip y s :
  existsb (Ascii.eqb y) s = false -> existsb (Ascii.eqb y) (Py.strip s) = false.
Proof.
  destruct (strip_split s) as (L & R & _ & _ & E). intros H.
  rewrite E, !existsb_app in H.
  now apply orb_false_iff in H as [_ [H _]%orb_false_iff].
Qed.

Lemma lacks_remove_words y words s :
  Forall (fun w => w <> []) words ->
  existsb (Ascii.eqb y) s = false ->
  existsb (Ascii.eqb y) (fold_left remove_word words s) = false.
Proof.
  intros H. revert s. induction H as [|w words Hne _ IH]; intros s Hs; [exact Hs|].
  cbn [fold_left]. apply IH. unfold remove_word. apply lacks_strip.
  rewrite replace_nonempty by assumption. now apply lacks_replace_scan.
Qed.

Lemma lacks_no_pair x y s :
  existsb (Ascii.eqb y) s = false -> containsb s [x; y] = false.
Proof.
  induction s as [|c s IH]; intros H; [reflexivity|].
  cbn [existsb] in H. apply orb_false_iff in H as [_ Hs].
  rewrite containsb_cons, (IH Hs), orb_false_r.
  destruct s as [|b s]; rewrite startswith_cons; [apply andb_false_r|].
  rewrite startswith_one. cbn [existsb] in Hs.
  apply orb_false_iff in Hs as [-> _]. apply andb_false_r.
Qed.

(** A replacement whose new text neither holds the pair nor can close or
    open one keeps a string free of it. *)
Lemma replace_keeps_no_pair x y old new s :
  old <> [] -> new <> [] ->
  Py.startswith new [y] = false -> List.last new x <> x ->
  containsb new [x; y] = false ->
  containsb s [x; y] = false ->
  containsb (Py.replace s old new) [x; y] = false.
Proof.
  intros Ho Hn Hh Hl Hp Hs. apply replace_kills_pair; try assumption.
  intros pre t E H.
  destruct (eq_true_false_abs _ (suffix_startswith_contains _ _ _ _ E H) Hs).
Qed.

(** After the cleaning a capital letter has only the neighbours the two
    replacements give it. *)
Lemma cleaned_no_pair x y raw :
  Py.between 65 90 y = true -> x <> "M"%char ->
  containsb " PM" [x; y] = false -> containsb " AM" [x; y] = false ->
  containsb (clean_time_string raw) [x; y] = false.
Proof.
  intros Hy Hx Hpm Ham. unfold clean_time_string.
  assert (H0 : existsb (Ascii.eqb y)
                 (fold_left remove_word words_to_remove (Py.lower raw)) = false).
  { apply lacks_remove_words; [|now apply lacks_lower].
    repeat constructor; discriminate. }
  revert H0. generalize (fold_left remove_word words_to_remove (Py.lower raw)). intros s H0.
  assert (Hhead : forall rest, Py.startswith (" "%char :: rest) [y] = false).
  { intros rest. rewrite startswith_one.
    destruct (Ascii.eqb_spec y " ") as [->|]; [discriminate Hy | reflexivity]. }
  apply containsb_strip.
  apply replace_keeps_no_pair;
    [discriminate | discriminate | apply Hhead
    | intros L; vm_compute in L; symmetry in L; exact (Hx L) | exact Ham |].
  apply replace_keeps_no_pair;
    [discriminate | discriminate | apply Hhead
    | intros L; vm_compute in L; symmetry in L; exact (Hx L) | exact Hpm |].
  now apply lacks_no_pair.
Qed.

Lemma digit_before_capital d y :
  Py.isdecimal d = true ->
  d <> "M"%char
  /\ containsb " PM" [d; y] = false /\ containsb " AM" [d; y] = false.
Proof.
  intros Hd.
  assert (Hs : Ascii.eqb d " " = false)
    by (destruct (Ascii.eqb_spec d " ") as [->|]; [discriminate Hd | reflexivity]).
  assert (HP : Ascii.eqb d "P" = false)
    by (destruct (Ascii.eqb_spec d "P") as [->|]; [discriminate Hd | reflexivity]).
  assert (HA : Ascii.eqb d "A" = false)
    by (destruct (Ascii.eqb_spec d "A") as [->|]; [discriminate Hd | reflexivity]).
  assert (HM : Ascii.eqb d "M" = false)
    by (destruct (Ascii.eqb_spec d "M") as [->|]; [discriminate Hd | reflexivity]).
  split; [intros ->; discriminate Hd|].
  split.
  - change (" PM" : str) with [" "%char; "P"%char; "M"%char].
    rewrite !containsb_cons, !startswith_cons, Hs, HP, HM. reflexivity.
  - change (" AM" : str) with [" "%char; "A"%char; "M"%char].
    rewrite !containsb_cons, !startswith_cons, Hs, HA, HM. reflexivity.
Qed.

(** ** What the format matches *)

Lemma first_some_In {A B} (f : A -> option B) l b :
  Strptime.first_some f l = Some b -> exists a, In a l /\ f a = Some b.
Proof.
  induction l as [|a l IH]; [discriminate|]. cbn [Strptime.first_some].
  destruct (f a) eqn:E.
  - intros [= <-]. exists a. split; [now left | exact E].
  - intros H. destruct (IH H) as (a' & Hin & Ha'). exists a'. split; [now right | exact Ha'].
Qed.

Lemma take_classes_app cs : forall s m rest,
  Strptime.take_classes cs s = Some (m, rest) ->
  s = m ++ rest /\ Forall2 (fun (k : Strptime.cls) c => k c = true) cs m.
Proof.
  induction cs as [|k cs IH]; intros s m rest; cbn [Strptime.take_classes].
  - intros [= <- <-]. split; [reflexivity | constructor].
  - destruct s as [|c s]; [discriminate|]. destruct (k c) eqn:K; [|discriminate].
    destruct (Strptime.take_classes cs s) as [[m' rest']|] eqn:T; [|discriminate].
    intros [= <- <-]. destruct (IH _ _ _ T) as [-> F].
    split; [reflexivity | now constructor].
Qed.

Lemma candidates_Field d s g rest :
  In (g, rest) (Strptime.candidates (Strptime.Field d) s) ->
  exists cs m, In cs (Strptime.alternatives d)
               /\ s = m ++ rest
               /\ Forall2 (fun (k : Strptime.cls) c => k c = true) cs m.
Proof.
  cbn [Strptime.candidates]. intros H%list_elem_of_In%list_elem_of_omap.
  destruct H as (cs & Hcs%list_elem_of_In & E).
  destruct (Strptime.take_classes cs s) as [[m rest']|] eqn:T; [|discriminate].
  injection E as _ <-. exists cs, m. split; [exact Hcs|].
  now apply take_classes_app.
Qed.

Lemma ci_a x : Strptime.ci "a" x = true -> x = "a"%char \/ x = "A"%char.
Proof. each_char x; vm_compute; intros H; first [discriminate H | now left | now right]. Qed.

Lemma ci_p x : Strptime.ci "p" x = true -> x = "p"%char \/ x = "P"%char.
Proof. each_char x; vm_compute; intros H; first [discriminate H | now left | now right]. Qed.

Lemma ci_m x : Strptime.ci "m" x = true -> x = "m"%char \/ x = "M"%char.
Proof. each_char x; vm_compute; intros H; first [discriminate H | now left | now right]. Qed.

Lemma rng_isdecimal c : Strptime.rng "0" "5" c = true -> Py.isdecimal c = true.
Proof. each_char c; vm_compute; intros H; first [discriminate H | reflexivity]. Qed.

(** A string that [%I:%M%p] takes whole ends in a digit of the minute and
    the two letters of the marker, in either case. *)
Lemma no_space_format_layout s gs :
  Strptime.re_match
    [Strptime.Field Strptime.dI; Strptime.Literal ":";
     Strptime.Field Strptime.dM; Strptime.Field Strptime.dp] s = Some (gs, []) ->
  exists pre d p1 p2,
    s = pre ++ [d; p1; p2]
    /\ Py.isdecimal d = true
    /\ (p1 = "a" \/ p1 = "A" \/ p1 = "p" \/ p1 = "P")%char
    /\ (p2 = "m" \/ p2 = "M")%char.
Proof.
  cbn [Strptime.re_match].
  intros ([g1 r1] & H1 & M1)%first_some_In.
  destruct (Strptime.first_some _ (Strptime.candidates (Strptime.Literal ":") r1))
    as [[gs2 rest2]|] eqn:M2; [|discriminate].
  injection M1 as _ ->.
  apply first_some_In in M2 as ([g2 r2] & H2 & M2).
  destruct (Strptime.first_some _ (Strptime.candidates (Strptime.Field Strptime.dM) r2))
    as [[gs3 rest3]|] eqn:M3; [|discriminate].
  injection M2 as _ ->.
  apply first_some_In in M3 as ([g3 r3] & H3 & M3).
  destruct (Strptime.first_some _ (Strptime.candidates (Strptime.Field Strptime.dp) r3))
    as [[gs4 rest4]|] eqn:M4; [|discriminate].
  injection M3 as _ ->.
  apply first_some_In in M4 as ([g4 r4] & H4 & M4).
  injection M4 as _ ->.
  apply candidates_Field in H1 as (cs1 & m1 & _ & E1 & _).
  assert (E2 : exists c, r1 = c :: r2).
  { cbn [Strptime.candidates] in H2. destruct r1 as [|c r1]; [destruct H2|].
    destruct (Strptime.ci ":" c); [|destruct H2].
    destruct H2 as [[= _ <-]|[]]. now exists c. }
  destruct E2 as [c E2].
  apply candidates_Field in H3 as (cs3 & m3 & A3 & E3 & F3).
  apply candidates_Field in H4 as (cs4 & m4 & A4 & E4 & F4).
  assert (P : exists p1 p2, m4 = [p1; p2]
                            /\ (p1 = "a" \/ p1 = "A" \/ p1 = "p" \/ p1 = "P")%char
                            /\ (p2 = "m" \/ p2 = "M")%char).
  { cbn [Strptime.alternatives] in A4. destruct A4 as [<-|[<-|[]]];
      inversion F4 as [|? p1 ? ? K1 F4' ]; subst;
      inversion F4' as [|? p2 ? ? K2 F4'']; subst;
      inversion F4''; subst; exists p1, p2; (split; [reflexivity|]);
      (split; [|now apply ci_m]).
    - destruct (ci_a _ K1); auto.
    - destruct (ci_p _ K1); auto. }
  destruct P as (p1 & p2 & -> & Hp1 & Hp2).
  assert (D : exists m3' d, m3 = m3' ++ [d] /\ Py.isdecimal d = true).
  { cbn [Strptime.alternatives] in A3. destruct A3 as [<-|[<-|[]]].
    - inversion F3 as [|? a ? ? Ka F3']; subst.
      inversion F3' as [|? d ? ? Kd F3'']; subst. inversion F3''; subst.
      now exists [a], d.
    - inversion F3 as [|? d ? ? Kd F3']; subst. inversion F3'; subst.
      now exists [], d. }
  destruct D as (m3' & d & -> & Hd).
  exists (m1 ++ c :: m3'), d, p1, p2. split; [|auto].
  rewrite E1, E2, E3, E4, app_nil_r, <- !app_assoc. reflexivity.
Qed.

Lemma contains_middle (pre mid post s : str) :
  s = pre ++ mid ++ post -> containsb s mid = true.
Proof. intros ->. apply containsb_contains. now exists pre, post. Qed.

Lemma no_space_format_raises raw :
  exists why, strptime_time (clean_time_string raw) "%I:%M%p" = Raise (ValueError why).
Proof.
  destruct (strptime_time (clean_time_string raw) "%I:%M%p") as [t|e] eqn:E.
  - exfalso. unfold strptime_time, Strptime.strptime in E.
    change (Strptime.compile "%I:%M%p" false)
      with (Some [Strptime.Field Strptime.dI; Strptime.Literal ":";
                  Strptime.Field Strptime.dM; Strptime.Field Strptime.dp]) in E.
    cbv beta iota in E.
    destruct (Strptime.re_match _ (clean_time_string raw)) as [[gs [|c rest]]|] eqn:M;
      [|discriminate E|discriminate E].
    clear E. apply no_space_format_layout in M as (pre & d & p1 & p2 & Es & Hd & Hp1 & Hp2).
    destruct (cleaned_has_no_lower_marker raw) as [Ham Hpm].
    destruct (digit_before_capital d "P" Hd) as (DM & DP1 & DP2).
    destruct (digit_before_capital d "A" Hd) as (_ & DA1 & DA2).
    pose proof (cleaned_no_pair d "P" raw eq_refl DM DP1 DP2) as NP.
    pose proof (cleaned_no_pair d "A" raw eq_refl DM DA1 DA2) as NA.
    pose proof (cleaned_no_pair "a" "M" raw eq_refl ltac:(discriminate) eq_refl eq_refl) as NaM.
    pose proof (cleaned_no_pair "p" "M" raw eq_refl ltac:(discriminate) eq_refl eq_refl) as NpM.
    assert (C1 : containsb (clean_time_string raw) [d; p1] = true).
    { apply (contains_middle pre [d; p1] [p2]). exact Es. }
    assert (C2 : containsb (clean_time_string raw) [p1; p2] = true).
    { apply (contains_middle (pre ++ [d]) [p1; p2] []). rewrite Es, <- app_assoc. reflexivity. }
    destruct Hp1 as [-> | [-> | [-> | ->]]]; destruct Hp2 as [-> | ->];
      first [ exact (eq_true_false_abs _ C1 NP) | exact (eq_true_false_abs _ C1 NA)
            | exact (eq_true_false_abs _ C2 Ham) | exact (eq_true_false_abs _ C2 Hpm)
            | exact (eq_true_false_abs _ C2 NaM) | exact (eq_true_false_abs _ C2 NpM) ].
  - destruct (strptime_time_raises _ _ _ E) as [why ->]. now exists why.
Qed.

(** X13. The second of the seven formats, [%I:%M%p], never parses a cleaned
    string: the cleaning puts a space before every marker, so no digit is
    directly followed by one.  The loop gives the same result without that
    format. *)
Theorem format_without_space_is_dead raw :
  (exists why,
     strptime_time (clean_time_string raw) "%I:%M%p" = Raise (ValueError why))
  /\ try_formats (clean_time_string raw) time_formats
     = try_formats (clean_time_string raw)
         [ "%I:%M %p" : str; "%I:%M" : str; "%H:%M" : str; "%I %p" : str;
           "%H:%M:%S" : str; "%I:%M:%S %p" : str ].
Proof.
  split; [apply no_space_format_raises|].
  destruct (no_space_format_raises raw) as [why E].
  unfold time_formats.
  generalize dependent (clean_time_string raw). intros s E.
  cbn [try_formats].
  rewrite E. reflexivity.
Qed.

(** * Times printed and read back *)

(** ** Strings of digits and colons pass the cleaning untouched *)

Lemma clock_text_char_lower c :
  Py.isdecimal c || Ascii.eqb c ":" = true -> Py.lower_char c = c.
Proof. each_char c; vm_compute; intros H; first [reflexivity | discriminate H]. Qed.

Lemma clock_text_char_not_space c :
  Py.isdecimal c || Ascii.eqb c ":" = true -> Py.isspace c = false.
Proof. each_char c; vm_compute; intros H; first [reflexivity | discriminate H]. Qed.

Lemma clock_text_lower s : clock_text s = true -> Py.lower s = s.
Proof.
  unfold clock_text. induction s as [|c s IH]; [reflexivity|]. cbn [forallb].
  intros [Hc Hs]%andb_true_iff. cbn [Py.lower map]. fold (Py.lower s).
  now rewrite (clock_text_char_lower c Hc), (IH Hs).
Qed.

Lemma clock_text_lstrip s : clock_text s = true -> Py.lstrip s = s.
Proof.
  unfold clock_text. destruct s as [|c s]; [reflexivity|]. cbn [forallb Py.lstrip].
  intros [Hc _]%andb_true_iff. now rewrite (clock_text_char_not_space c Hc).
Qed.

Lemma clock_text_rev s : clock_text s = true -> clock_text (rev s) = true.
Proof.
  unfold clock_text. rewrite !forallb_forall. intros H c Hc. apply H. now apply in_rev.
Qed.

Lemma clock_text_strip s : clock_text s = true -> Py.strip s = s.
Proof.
  intros H. unfold Py.strip, Py.rstrip. rewrite (clock_text_lstrip s H).
  rewrite (clock_text_lstrip _ (clock_text_rev s H)). apply rev_involutive.
Qed.

Lemma clock_text_lacks y s :
  clock_text s = true -> Py.isdecimal y || Ascii.eqb y ":" = false ->
  existsb (Ascii.eqb y) s = false.
Proof.
  unfold clock_text. intros H Hy. induction s as [|c s IH]; [reflexivity|].
  cbn [forallb] in H. apply andb_true_iff in H as [Hc Hs].
  cbn [existsb]. rewrite (IH Hs), orb_false_r.
  destruct (Ascii.eqb_spec y c) as [->|]; [congruence | reflexivity].
Qed.

Lemma clock_text_replace s old new :
  clock_text s = true -> old <> [] ->
  Py.isdecimal (hd tick old) || Ascii.eqb (hd tick old) ":" = false ->
  Py.replace s old new = s.
Proof.
  intros H Hne Hy. rewrite replace_nonempty by assumption.
  apply replace_scan_absent; [assumption|]. now apply clock_text_lacks.
Qed.

Lemma clock_text_clean s : clock_text s = true -> clean_time_string s = s.
Proof.
  intros H. unfold clean_time_string, words_to_remove. rewrite (clock_text_lower s H).
  cbn [fold_left]. unfold remove_word.
  repeat (rewrite (clock_text_replace s) by (first [exact H | discriminate | reflexivity]);
          rewrite (clock_text_strip s H)).
  rewrite (clock_text_replace s) by (first [exact H | discriminate | reflexivity]).
  rewrite (clock_text_replace s) by (first [exact H | discriminate | reflexivity]).
  apply (clock_text_strip s H).
Qed.

(** ** Two digits *)

Lemma all_two_digits_checked :
  forallb (fun n =>
             match Py.fmt_02d n with
             | [a; b] =>
                 Strptime.rng "0" "5" a && Strptime.dig b && (Py.int [a; b] =? n)%N
                 && (if (n <=? 23)%N
                     then (Strptime.one "2" a && Strptime.rng "0" "3" b)
                          || (Strptime.rng "0" "1" a && Strptime.dig b)
                     else true)
             | _ => false
             end) (upto 59) = true.
Proof. vm_compute. reflexivity. Qed.

Lemma fmt_02d_digits n :
  (n <= 59)%N ->
  exists a b,
    Py.fmt_02d n = [a; b]
    /\ Strptime.rng "0" "5" a = true /\ Strptime.dig b = true
    /\ Py.int [a; b] = n
    /\ ((n <= 23)%N ->
        (Strptime.one "2" a && Strptime.rng "0" "3" b)
        || (Strptime.rng "0" "1" a && Strptime.dig b) = true).
Proof.
  intros Hn. pose proof all_two_digits_checked as H.
  rewrite forallb_forall in H. specialize (H n (In_upto 59 n Hn)). cbv beta in H.
  destruct (Py.fmt_02d n) as [|a [|b [|]]]; try discriminate.
  rewrite !andb_true_iff, N.eqb_eq in H. destruct H as [[[Ha Hb] Hi] Hh].
  exists a, b. repeat split; try assumption.
  intros H23. apply N.leb_le in H23. now rewrite H23 in Hh.
Qed.

Lemma rng_05_digit a : Strptime.rng "0" "5" a = true -> Strptime.dig a = true.
Proof. each_char a; vm_compute; intros H; first [reflexivity | discriminate H]. Qed.

Lemma rng_05_not_6 a : Strptime.rng "0" "5" a = true -> Strptime.one "6" a = false.
Proof. each_char a; vm_compute; intros H; first [reflexivity | discriminate H]. Qed.

Lemma two_digits_plain a b :
  Strptime.rng "0" "5" a = true -> Strptime.dig b = true -> clock_text [a; b] = true.
Proof.
  intros Ha%rng_05_digit Hb. unfold clock_text, Strptime.dig in *. cbn [forallb].
  now rewrite Ha, Hb.
Qed.

(** ** The fields of [%H:%M:%S] *)

Lemma re_match_colon items rest :
  Strptime.re_match (Strptime.Literal ":" :: items) (":"%char :: rest)
  = match Strptime.re_match items rest with
    | Some (gs, rest') => Some (gs, rest')
    | None => None
    end.
Proof.
  cbn [Strptime.re_match Strptime.candidates].
  change (Strptime.ci ":" ":"%char) with true. cbn [Strptime.first_some app].
  destruct (Strptime.re_match items rest) as [[gs rest']|]; reflexivity.
Qed.

Lemma re_match_hour items a b rest gs rest' :
  (Strptime.one "2" a && Strptime.rng "0" "3" b)
  || (Strptime.rng "0" "1" a && Strptime.dig b) = true ->
  Strptime.re_match items rest = Some (gs, rest') ->
  Strptime.re_match (Strptime.Field Strptime.dH :: items) (a :: b :: rest)
  = Some ((Strptime.dH, [a; b]) :: gs, rest').
Proof.
  intros C M.
  cbn [Strptime.re_match Strptime.candidates Strptime.alternatives omap list_omap
       Strptime.take_classes].
  destruct (Strptime.one "2" a), (Strptime.rng "0" "3" b),
           (Strptime.rng "0" "1" a), (Strptime.dig b);
    cbn [andb orb] in C; try discriminate C;
    cbn [Strptime.first_some]; rewrite M; reflexivity.
Qed.

Lemma re_match_minute items a b rest gs rest' :
  Strptime.rng "0" "5" a = true -> Strptime.dig b = true ->
  Strptime.re_match items rest = Some (gs, rest') ->
  Strptime.re_match (Strptime.Field Strptime.dM :: items) (a :: b :: rest)
  = Some ((Strptime.dM, [a; b]) :: gs, rest').
Proof.
  intros Ha Hb M.
  cbn [Strptime.re_match Strptime.candidates Strptime.alternatives omap list_omap
       Strptime.take_classes].
  rewrite Ha, Hb. cbn [Strptime.first_some]. rewrite M. reflexivity.
Qed.

Lemma re_match_second items a b rest gs rest' :
  Strptime.rng "0" "5" a = true -> Strptime.dig b = true ->
  Strptime.re_match items rest = Some (gs, rest') ->
  Strptime.re_match (Strptime.Field Strptime.dS :: items) (a :: b :: rest)
  = Some ((Strptime.dS, [a; b]) :: gs, rest').
Proof.
  intros Ha Hb M.
  cbn [Strptime.re_match Strptime.candidates Strptime.alternatives omap list_omap
       Strptime.take_classes].
  rewrite (rng_05_not_6 a Ha), Ha, Hb. cbn [Strptime.first_some]. rewrite M. reflexivity.
Qed.

(** ** The five formats before [%H:%M:%S] *)

Lemma five_formats_fail tail :
  forallb2 (fun h m =>
              match try_formats (Py.fmt_02d h ++ ":" ++ Py.fmt_02d m ++ ":" ++ tail)
                                (firstn 5 time_formats) with
              | Return None => true
              | _ => false
              end) (upto 23) (upto 59) = true.
Proof. vm_compute. reflexivity. Qed.

Lemma try_formats_app s fs gs :
  try_formats s fs = Return None -> try_formats s (fs ++ gs) = try_formats s gs.
Proof.
  induction fs as [|f fs IH]; [reflexivity|].
  change ((f :: fs) ++ gs) with (f :: (fs ++ gs)). cbn [try_formats].
  destruct (strptime_time s f) as [t|e]; [discriminate|].
  destruct (is_ValueError e); [exact IH | discriminate].
Qed.

(** X14. The prompt asks the model for the time as [%H:%M:%S].  Every time
    of the day written that way, "HH:MM:SS", comes out of the time parse as
    itself: the cleaning leaves it alone and none of the five formats tried
    before [%H:%M:%S] takes it. *)
Theorem prompted_format_round_trip t :
  Strptime.valid_time t = true ->
  parse_event_time (time_isoformat t) = Return t.
Proof.
  intros V. pose proof V as V'. destruct t as [h m s].
  unfold Strptime.valid_time in V'. cbn [hour minute second] in V'.
  rewrite !andb_true_iff, !N.leb_le in V'. destruct V' as [[Hh Hm] Hs].
  pose proof (forallb2_true _ _ _ (five_formats_fail (Py.fmt_02d s)) h m
                (In_upto 23 h Hh) (In_upto 59 m Hm)) as F5.
  cbv beta in F5.
  destruct (fmt_02d_digits h ltac:(lia)) as (a & b & Eh & Ha & Hb & Ih & Hab).
  destruct (fmt_02d_digits m Hm) as (c & d & Em & Hc & Hd & Im & _).
  destruct (fmt_02d_digits s Hs) as (e & f & Es & He & Hf & Is & _).
  specialize (Hab Hh).
  unfold parse_event_time, time_isoformat. cbn [hour minute second].
  set (text := Py.fmt_02d h ++ ":" ++ Py.fmt_02d m ++ ":" ++ Py.fmt_02d s) in *.
  assert (Et : text = [a; b; ":"%char; c; d; ":"%char; e; f])
    by (unfold text; rewrite Eh, Em, Es; reflexivity).
  assert (P : clock_text text = true).
  { rewrite Et. pose proof (rng_05_digit _ Ha) as Ha'.
    pose proof (rng_05_digit _ Hc) as Hc'. pose proof (rng_05_digit _ He) as He'.
    unfold clock_text, Strptime.dig in *. cbn [forallb].
    rewrite Ha', Hb, Hc', Hd, He', Hf. reflexivity. }
  rewrite (clock_text_clean text P).
  change time_formats
    with (firstn 5 time_formats ++ ["%H:%M:%S" : str; "%I:%M:%S %p" : str]).
  destruct (try_formats text (firstn 5 time_formats)) as [[t'|]|e'] eqn:T5;
    try discriminate F5.
  rewrite (try_formats_app _ _ _ T5). cbn [try_formats].
  assert (S6 : strptime_time text "%H:%M:%S" = Return (mk_time h m s)).
  { unfold strptime_time, Strptime.strptime.
    change (Strptime.compile "%H:%M:%S" false)
      with (Some [Strptime.Field Strptime.dH; Strptime.Literal ":";
                  Strptime.Field Strptime.dM; Strptime.Literal ":";
                  Strptime.Field Strptime.dS]).
    rewrite Et.
    rewrite (re_match_hour _ a b _ [(Strptime.dM, [c; d]); (Strptime.dS, [e; f])] [] Hab).
    - cbn [Strptime.field Strptime.found Strptime.hour_of].
      rewrite Ih, Im, Is, V. reflexivity.
    - rewrite re_match_colon.
      rewrite (re_match_minute _ c d _ [(Strptime.dS, [e; f])] [] Hc Hd); [reflexivity|].
      rewrite re_match_colon.
      rewrite (re_match_second [] e f [] [] [] He Hf); reflexivity. }
  rewrite S6. reflexivity.
Qed.

Lemma prompted_format_round_trip_witness :
  parse_event_time "17:30:00" = Return (mk_time 17 30 0).
Proof. apply (prompted_format_round_trip (mk_time 17 30 0)). vm_compute. reflexivity. Defined.
